(** * GHG calculator: factor registry, GWP table, scope calculators, inventory

    A shallow embedding of [ghg_calculator] (factors/gwp.py,
    factors/registry.py, engine/*, models/results.py) and the properties
    its specification states about it.

    Conventions of the embedding:
    - a Python [float] is an IEEE-754 binary64 value, i.e. Rocq's primitive
      [float]; [*], [+] and [>] are [PrimFloat.mul], [PrimFloat.add] and
      [PrimFloat.ltb];
    - a Python [str] is a [string] of ASCII characters; [str.lower] maps
      'A'..'Z' to 'a'..'z' and [str.split] cuts at ASCII whitespace;
    - [X | None] is [option X]; an enum is an inductive type;
    - a function that raises returns [Err e] in the [result] type, the
      error naming the [raise] statement it comes from;
    - the unit conversion service ([pint], outside the repository) is a
      parameter [convert : float -> string -> string -> option float],
      [None] standing for any exception it raises. *)

From Stdlib Require Import List String Ascii Bool Arith ZArith Lia.
From Stdlib Require Import Floats Permutation Sorted.
Import ListNotations.

Set Warnings "-inexact-float".

Local Open Scope string_scope.
Local Open Scope list_scope.

(* ================================================================== *)
(** ** Python strings *)

Module PyStr.

Definition is_upper (c : ascii) : bool :=
    let n := nat_of_ascii c in ((65 <=? n) && (n <=? 90))%nat.

Definition lower_ascii (c : ascii) : ascii :=
    if is_upper c then ascii_of_nat (nat_of_ascii c + 32) else c.

  (** [s.lower()] *)
Fixpoint lower (s : string) : string :=
    match s with
    | EmptyString => EmptyString
    | String c s' => String (lower_ascii c) (lower s')
    end.

  (** [needle in hay] *)
Fixpoint contains (needle hay : string) : bool :=
    if String.prefix needle hay then true
    else match hay with
         | EmptyString => false
         | String _ hay' => contains needle hay'
         end.

  (** ASCII whitespace as [str.split()] sees it: \t \n \v \f \r,
      the separators 0x1c..0x1f and the space. *)
Definition is_space (c : ascii) : bool :=
    let n := nat_of_ascii c in
    (((9 <=? n) && (n <=? 13)) || ((28 <=? n) && (n <=? 31)) || (n =? 32))%nat.

Definition flush (word : string) (rest : list string) : list string :=
    match word with
    | EmptyString => rest
    | _ => word :: rest
    end.

  (** [s.split()]: [word] is the word being read. *)
Fixpoint split_from (word s : string) : list string :=
    match s with
    | EmptyString => flush word []
    | String c s' =>
        if is_space c then flush word (split_from EmptyString s')
        else split_from (word ++ String c EmptyString) s'
    end.

Definition split (s : string) : list string := split_from EmptyString s.

  (** [sep.join(parts)] *)
Definition join (sep : string) (parts : list string) : string :=
    String.concat sep parts.

  (** truthiness of a string: non-empty *)
Definition truthy (s : string) : bool :=
    match s with EmptyString => false | _ => true end.

  (** truthiness of [str | None] *)
Definition truthy_opt (o : option string) : bool :=
    match o with Some s => truthy s | None => false end.

  (** [o or default] for [o : str | None] *)
Definition or_else (o : option string) (default : string) : string :=
    match o with
    | Some s => if truthy s then s else default
    | None => default
    end.

End PyStr.

(** [a or b] on [str | None] operands, as in
    [activity.grid_subregion or activity.country]. *)
Definition opt_or (a b : option string) : option string :=
  if PyStr.truthy_opt a then a else b.

(** truthiness of a float: anything but zero (NaN included) *)
Definition float_truthy (x : float) : bool := negb (PrimFloat.eqb x 0%float).

(* ================================================================== *)
(** ** models/enums.py *)

Inductive Scope := SCOPE_1 | SCOPE_2 | SCOPE_3.

Inductive Scope1Category :=
| STATIONARY_COMBUSTION | MOBILE_COMBUSTION | FUGITIVE_EMISSIONS | PROCESS_EMISSIONS.

Inductive Scope2Method := LOCATION_BASED | MARKET_BASED.

Inductive Scope3Category :=
| PURCHASED_GOODS_SERVICES | CAPITAL_GOODS | FUEL_ENERGY_ACTIVITIES
| UPSTREAM_TRANSPORT | WASTE | BUSINESS_TRAVEL | EMPLOYEE_COMMUTING
| UPSTREAM_LEASED_ASSETS | DOWNSTREAM_TRANSPORT | PROCESSING_SOLD_PRODUCTS
| USE_OF_SOLD_PRODUCTS | END_OF_LIFE_SOLD_PRODUCTS | DOWNSTREAM_LEASED_ASSETS
| FRANCHISES | INVESTMENTS.

Inductive GasType := CO2 | CH4 | N2O | HFC | PFC | SF6 | NF3 | CO2E.

Inductive GWPAssessment := AR5 | AR6.

Inductive FactorSource :=
| EPA_HUB | EGRID | DEFRA | USEEIO | EMBER | EXIOBASE | CUSTOM.

Inductive FuelType :=
| NATURAL_GAS | DIESEL | GASOLINE | PROPANE | FUEL_OIL_NO2 | FUEL_OIL_NO6
| KEROSENE | LPG | COAL_BITUMINOUS | COAL_ANTHRACITE | COAL_SUBBITUMINOUS
| WOOD | LANDFILL_GAS | JET_FUEL | AVIATION_GASOLINE | RESIDUAL_FUEL_OIL
| E85 | B20 | CNG | LNG.

Definition GasType_value (g : GasType) : string :=
  match g with
  | CO2 => "co2" | CH4 => "ch4" | N2O => "n2o" | HFC => "hfc"
  | PFC => "pfc" | SF6 => "sf6" | NF3 => "nf3" | CO2E => "co2e"
  end.

Definition FuelType_value (f : FuelType) : string :=
  match f with
  | NATURAL_GAS => "natural_gas" | DIESEL => "diesel" | GASOLINE => "gasoline"
  | PROPANE => "propane" | FUEL_OIL_NO2 => "fuel_oil_no2"
  | FUEL_OIL_NO6 => "fuel_oil_no6" | KEROSENE => "kerosene" | LPG => "lpg"
  | COAL_BITUMINOUS => "coal_bituminous" | COAL_ANTHRACITE => "coal_anthracite"
  | COAL_SUBBITUMINOUS => "coal_subbituminous" | WOOD => "wood"
  | LANDFILL_GAS => "landfill_gas" | JET_FUEL => "jet_fuel"
  | AVIATION_GASOLINE => "aviation_gasoline"
  | RESIDUAL_FUEL_OIL => "residual_fuel_oil" | E85 => "e85" | B20 => "b20"
  | CNG => "cng" | LNG => "lng"
  end.

Definition Scope_eqb (a b : Scope) : bool :=
  match a, b with
  | SCOPE_1, SCOPE_1 | SCOPE_2, SCOPE_2 | SCOPE_3, SCOPE_3 => true
  | _, _ => false
  end.

Definition FactorSource_eqb (a b : FactorSource) : bool :=
  match a, b with
  | EPA_HUB, EPA_HUB | EGRID, EGRID | DEFRA, DEFRA | USEEIO, USEEIO
  | EMBER, EMBER | EXIOBASE, EXIOBASE | CUSTOM, CUSTOM => true
  | _, _ => false
  end.

(* ================================================================== *)
(** ** Errors

    Every failure of the calculation path is a Python [ValueError] (a
    [KeyError] in [get_gwp]); the constructors name the [raise] sites by
    their message, and [error_kind] sorts them into the kinds of the
    specification's taxonomy. *)

Inductive Error :=
| UnknownGas (key : string)                 (* gwp.py: "Unknown gas ..." *)
| NoFactorStationary                        (* "No emission factor found for stationary combustion" *)
| NoFactorMobile                            (* "No emission factor found for mobile combustion" *)
| NoFactorFugitive                          (* "No refrigerant_type specified and no matching factor found" *)
| UnknownRefrigerant (name : string)        (* "Unknown refrigerant: ..." *)
| NoFactorProcess                           (* "Process emissions require a custom_factor or matching factor" *)
| NoFactorElectricity                       (* "No electricity emission factor found" *)
| NoFactorSpend                             (* "No spend-based emission factor found" *)
| NoFactorDistance                          (* "No distance-based factor found" *)
| NoFactorWaste                             (* "No waste emission factor found" *)
| NoFactorScope3                            (* "No emission factor found for Scope 3 category" *)
| CannotConvert (from_unit to_unit : string)  (* "Cannot convert ... to ..." *)
| Scope3CategoryRequired                    (* "scope3_category is required" *)
| CannotDetermineScope1.                    (* "Cannot determine Scope 1 category" *)

Inductive ErrorKind :=
| KUnknownGas | KNoMatchingFactor | KUnitConversionError | KValidationError.

Definition error_kind (e : Error) : ErrorKind :=
  match e with
  | UnknownGas _ => KUnknownGas
  | CannotConvert _ _ => KUnitConversionError
  | Scope3CategoryRequired | CannotDetermineScope1 => KValidationError
  | _ => KNoMatchingFactor
  end.

Inductive result (A : Type) :=
| Ok (a : A)
| Err (e : Error).
Arguments Ok {A} a.
Arguments Err {A} e.

Definition bind {A B} (r : result A) (k : A -> result B) : result B :=
  match r with
  | Ok a => k a
  | Err e => Err e
  end.

Notation "x <- c ;; k" := (bind c (fun x => k))
  (at level 61, c at next level, right associativity).

(* ================================================================== *)
(** ** factors/gwp.py *)

Definition AR5_GWP : list (string * float) :=
  [ ("co2", 1.0); ("ch4", 28.0); ("n2o", 265.0); ("sf6", 23500.0);
    ("nf3", 16100.0);
    ("hfc-23", 12400.0); ("hfc-32", 677.0); ("hfc-125", 3170.0);
    ("hfc-134a", 1300.0); ("hfc-143a", 4800.0); ("hfc-152a", 138.0);
    ("hfc-227ea", 3350.0); ("hfc-236fa", 8060.0); ("hfc-245fa", 858.0);
    ("hfc-365mfc", 804.0); ("hfc-43-10mee", 1650.0);
    ("cf4", 6630.0); ("c2f6", 11100.0); ("c3f8", 8900.0); ("c4f10", 9200.0);
    ("c5f12", 8550.0); ("c6f14", 7910.0);
    ("r-404a", 3922.0); ("r-407a", 2107.0); ("r-407c", 1774.0);
    ("r-410a", 2088.0); ("r-507a", 3985.0); ("r-508b", 13396.0) ]%float.

Definition AR6_GWP : list (string * float) :=
  [ ("co2", 1.0); ("ch4", 0x1.be66666666666p+4 (* 27.9 *)); ("n2o", 273.0);
    ("sf6", 25200.0); ("nf3", 17400.0);
    ("hfc-23", 14600.0); ("hfc-32", 771.0); ("hfc-125", 3740.0);
    ("hfc-134a", 1530.0); ("hfc-143a", 5810.0); ("hfc-152a", 164.0);
    ("hfc-227ea", 3600.0); ("hfc-236fa", 8690.0); ("hfc-245fa", 962.0);
    ("hfc-365mfc", 914.0); ("hfc-43-10mee", 1600.0);
    ("cf4", 7380.0); ("c2f6", 12400.0); ("c3f8", 9290.0); ("c4f10", 10000.0);
    ("c5f12", 9220.0); ("c6f14", 8620.0);
    ("r-404a", 4728.0); ("r-407a", 2446.0); ("r-407c", 2088.0);
    ("r-410a", 2256.0); ("r-507a", 4728.0); ("r-508b", 14760.0) ]%float.

Definition _GWP_TABLES (assessment : GWPAssessment) : list (string * float) :=
  match assessment with
  | AR5 => AR5_GWP
  | AR6 => AR6_GWP
  end.

(** [table.get(key)] on a dict kept as its list of items *)
Fixpoint dict_get {V} (table : list (string * V)) (key : string) : option V :=
  match table with
  | [] => None
  | (k, v) :: rest => if String.eqb k key then Some v else dict_get rest key
  end.

Definition dict_keys {V} (table : list (string * V)) : list string :=
  map fst table.

(** The [gas: str | GasType] argument of [get_gwp]. *)
Inductive GasId :=
| GasEnum (g : GasType)
| GasStr (s : string).

(** [key = gas.value if isinstance(gas, GasType) else gas.lower()] *)
Definition gas_key (gas : GasId) : string :=
  match gas with
  | GasEnum g => GasType_value g
  | GasStr s => PyStr.lower s
  end.

Definition get_gwp (gas : GasId) (assessment : GWPAssessment) : result float :=
  let table := _GWP_TABLES assessment in
  let key := gas_key gas in
  if String.eqb key "co2e" then Ok 1.0%float
  else match dict_get table key with
       | None => Err (UnknownGas key)
       | Some v => Ok v
       end.

Definition to_co2e (mass_kg : float) (gas : GasId) (assessment : GWPAssessment)
  : result float :=
  gwp <- get_gwp gas assessment ;;
  Ok (mass_kg * gwp)%float.

(* ================================================================== *)
(** ** models/factors.py, models/activity.py, models/results.py

    Fields no modelled operation reads ([other_factors], [factor_unit],
    dates, free-form metadata, [calculated_at], data-quality marks) are
    left out. *)

Module EmissionFactor.
Record t := mk {
    id : string;
    name : string;
    source : FactorSource;
    scope : option Scope;
    co2_factor : float;
    ch4_factor : float;
    n2o_factor : float;
    co2e_factor : option float;
    activity_unit : string;
    category : string;
    subcategory : string;
    fuel_type : option string;
    region : option string;
    year : option Z;
    description : string;
    tags : list string
  }.
End EmissionFactor.

Module ActivityRecord.
Record t := mk {
    id : option string;
    name : option string;
    scope : Scope;
    scope1_category : option Scope1Category;
    scope2_method : option Scope2Method;
    scope3_category : option Scope3Category;
    quantity : float;
    unit : string;
    fuel_type : option FuelType;
    custom_fuel : option string;
    country : option string;
    region : option string;
    grid_subregion : option string;
    custom_factor : option float;
    factor_source : option FactorSource;
    spend_amount : option float;
    naics_code : option string;
    distance : option float;
    distance_unit : option string;
    weight : option float;
    weight_unit : option string;
    vehicle_type : option string;
    transport_mode : option string;
    waste_type : option string;
    disposal_method : option string;
    refrigerant_type : option string
  }.

Definition positive_opt (o : option float) : Prop :=
    match o with
    | Some x => PrimFloat.ltb 0%float x = true
    | None => True
    end.

  (** What the pydantic validators accept: [Field(gt=0)] on [quantity],
      [spend_amount], [distance] and [weight]. *)
Definition valid (a : t) : Prop :=
    PrimFloat.ltb 0%float (quantity a) = true
    /\ positive_opt (spend_amount a)
    /\ positive_opt (distance a)
    /\ positive_opt (weight a).
End ActivityRecord.

Module GasBreakdown.
Record t := mk {
    gas : GasType;
    mass_kg : float;
    co2e_kg : float;
    gwp_used : float;
    gwp_assessment : GWPAssessment
  }.
End GasBreakdown.

(** The texts a calculator writes into [notes]; the formatted numbers of
    the f-strings are kept as the values they print. *)
Inductive Note :=
| NoteCustomFactor                (* "Custom emission factor used" *)
| NoteCustomFactorProcess         (* "Custom emission factor used for process emissions" *)
| NoteMarketProxy                 (* "Market-based: using grid average as proxy ..." *)
| NoteRefrigerant (refrigerant : string) (gwp : float)
| NoteSpendBased (co2e_factor : float)
| NoteDistanceBased (mode : string)
| NoteWaste (waste_type disposal : string).

Module EmissionResult.
Record t := mk {
    activity_id : option string;
    activity_name : option string;
    scope : Scope;
    scope1_category : option Scope1Category;
    scope2_method : option Scope2Method;
    scope3_category : option Scope3Category;
    total_co2e_kg : float;
    gas_breakdown : list GasBreakdown.t;
    factor_id : option string;
    factor_source : option FactorSource;
    activity_quantity : option float;
    activity_unit : option string;
    gwp_assessment : GWPAssessment;
    notes : list Note
  }.
End EmissionResult.

(* ================================================================== *)
(** ** factors/registry.py *)

(** [results[:limit]], [limit] any Python int: a negative bound counts
    from the end. *)
Definition slice_to {A} (l : list A) (limit : Z) : list A :=
  if (0 <=? limit)%Z then firstn (Z.to_nat limit) l
  else firstn (List.length l - Z.to_nat (- limit)) l.

(** [list.sort(key=..., reverse=True)] on (score, item) pairs: the
    interpreter's sort is stable, also under [reverse]; here as the
    insertion sort that puts each pair in front of the first pair whose
    key is not larger. *)
Section StableSort.
Context {A : Type}.

Fixpoint insert_desc (x : Z * A) (l : list (Z * A)) : list (Z * A) :=
    match l with
    | [] => [x]
    | y :: l' =>
        if (fst x <? fst y)%Z then y :: insert_desc x l'
        else x :: y :: l'
    end.

Fixpoint sort_desc (l : list (Z * A)) : list (Z * A) :=
    match l with
    | [] => []
    | x :: l' => insert_desc x (sort_desc l')
    end.
End StableSort.

Module FactorRegistry.

Record t := mk { _factors : list EmissionFactor.t }.

Definition empty : t := mk [].

  (** [add_version]: the factors of a version, appended in order. *)
Definition add_version (self : t) (factors : list EmissionFactor.t) : t :=
    mk (_factors self ++ factors).

  (** One [if crit is not None: results = [f for f in results if ...]]. *)
Definition narrow {C} (crit : option C) (keep : C -> EmissionFactor.t -> bool)
             (results : list EmissionFactor.t) : list EmissionFactor.t :=
    match crit with
    | None => results
    | Some c => filter (keep c) results
    end.

Definition source_is (s : FactorSource) (f : EmissionFactor.t) : bool :=
    FactorSource_eqb (EmissionFactor.source f) s.

Definition category_is (c : string) (f : EmissionFactor.t) : bool :=
    String.eqb (EmissionFactor.category f) c.

  (** [f.x and f.x.lower() == wanted.lower()] *)
Definition opt_lower_is (field : option string) (wanted : string) : bool :=
    match field with
    | Some v => PyStr.truthy v && String.eqb (PyStr.lower v) (PyStr.lower wanted)
    | None => false
    end.

Definition fuel_type_is (w : string) (f : EmissionFactor.t) : bool :=
    opt_lower_is (EmissionFactor.fuel_type f) w.

Definition region_is (w : string) (f : EmissionFactor.t) : bool :=
    opt_lower_is (EmissionFactor.region f) w.

Definition scope_is (s : Scope) (f : EmissionFactor.t) : bool :=
    match EmissionFactor.scope f with
    | Some s' => Scope_eqb s' s
    | None => false
    end.

Definition activity_unit_is (w : string) (f : EmissionFactor.t) : bool :=
    String.eqb (PyStr.lower (EmissionFactor.activity_unit f)) (PyStr.lower w).

Definition mem (s : string) (l : list string) : bool :=
    existsb (String.eqb s) l.

  (** [tag_set.issubset(set(t.lower() for t in f.tags))] *)
Definition tags_subset (tags : list string) (f : EmissionFactor.t) : bool :=
    forallb (fun t => mem (PyStr.lower t) (map PyStr.lower (EmissionFactor.tags f)))
            tags.

  (** [if tags:] is false on [None] and on the empty list. *)
Definition narrow_tags (tags : option (list string))
             (results : list EmissionFactor.t) : list EmissionFactor.t :=
    match tags with
    | None | Some [] => results
    | Some ts => filter (tags_subset ts) results
    end.

  (** Lines 63-91 of [search]: the filters, applied one after the other. *)
Definition apply_filters (self : t)
             (source : option FactorSource) (category fuel_type region : option string)
             (scope : option Scope) (activity_unit : option string)
             (tags : option (list string)) : list EmissionFactor.t :=
    let results := _factors self in
    let results := narrow source source_is results in
    let results := narrow category category_is results in
    let results := narrow fuel_type fuel_type_is results in
    let results := narrow region region_is results in
    let results := narrow scope scope_is results in
    let results := narrow activity_unit activity_unit_is results in
    narrow_tags tags results.

  (** The f-string of line 98. *)
Definition searchable (f : EmissionFactor.t) : string :=
    (EmissionFactor.name f ++ " " ++ EmissionFactor.description f ++ " "
     ++ EmissionFactor.category f ++ " " ++ EmissionFactor.subcategory f ++ " "
     ++ PyStr.or_else (EmissionFactor.fuel_type f) "" ++ " "
     ++ PyStr.join " " (EmissionFactor.tags f))%string.

  (** The body of the loop of lines 96-110, [score] threaded through. *)
Definition score_of (query_lower : string) (f : EmissionFactor.t) : Z :=
    let score := 0%Z in
    let searchable_lower := PyStr.lower (searchable f) in
    let score :=
      if PyStr.contains query_lower searchable_lower then (score + 10)%Z else score in
    let score :=
      if PyStr.contains query_lower (PyStr.lower (EmissionFactor.name f))
      then (score + 20)%Z else score in
    let score :=
      if String.eqb query_lower
           (PyStr.lower (PyStr.or_else (EmissionFactor.fuel_type f) ""))
      then (score + 15)%Z else score in
    fold_left
      (fun score word =>
         if PyStr.contains word searchable_lower then (score + 5)%Z else score)
      (PyStr.split query_lower) score.

  (** The loop of lines 96-112: [scored], in the order of [results]. *)
Fixpoint score_all (query_lower : string) (results : list EmissionFactor.t)
    : list (Z * EmissionFactor.t) :=
    match results with
    | [] => []
    | f :: rest =>
        let score := score_of query_lower f in
        if (0 <? score)%Z then (score, f) :: score_all query_lower rest
        else score_all query_lower rest
    end.

  (** Lines 93-114. *)
Definition rank (query : string) (results : list EmissionFactor.t)
    : list EmissionFactor.t :=
    if PyStr.truthy query then
      let query_lower := PyStr.lower query in
      let scored := score_all query_lower results in
      map snd (sort_desc scored)
    else results.

Definition search (self : t) (query : string)
             (source : option FactorSource) (category fuel_type region : option string)
             (scope : option Scope) (activity_unit : option string)
             (tags : option (list string)) (limit : Z) : list EmissionFactor.t :=
    let results := apply_filters self source category fuel_type region scope
                                 activity_unit tags in
    let results := rank query results in
    slice_to results limit.

Definition default_limit : Z := 50.

Definition find_factor (self : t) (category : string)
             (fuel_type region activity_unit : option string)
             (source : option FactorSource) : option EmissionFactor.t :=
    let results := search self "" source (Some category) fuel_type region None
                          activity_unit None 1 in
    match results with
    | f :: _ => Some f
    | [] => None
    end.

End FactorRegistry.


(* ================================================================== *)
(** ** models/results.py: the aggregates *)

Module ScopeResult.
Record t := mk {
    scope : Scope;
    total_co2e_kg : float;
    results : list EmissionResult.t
  }.

Definition fresh (s : Scope) : t := mk s 0%float [].

  (** [self.results.append(result); self.total_co2e_kg += result.total_co2e_kg] *)
Definition add_result (self : t) (result : EmissionResult.t) : t :=
    mk (scope self)
       (total_co2e_kg self + EmissionResult.total_co2e_kg result)%float
       (results self ++ [result]).
End ScopeResult.

Module InventoryResult.
Record t := mk {
    name : string;
    year : option Z;
    scope1 : ScopeResult.t;
    scope2_location : ScopeResult.t;
    scope2_market : ScopeResult.t;
    scope3 : ScopeResult.t
  }.

Definition fresh (name : string) (year : option Z) : t :=
    mk name year (ScopeResult.fresh SCOPE_1) (ScopeResult.fresh SCOPE_2)
       (ScopeResult.fresh SCOPE_2) (ScopeResult.fresh SCOPE_3).

  (** The [total_co2e_kg] property: location-based Scope 2. *)
Definition total_co2e_kg (self : t) : float :=
    (ScopeResult.total_co2e_kg (scope1 self)
     + ScopeResult.total_co2e_kg (scope2_location self)
     + ScopeResult.total_co2e_kg (scope3 self))%float.

Definition all_results (self : t) : list EmissionResult.t :=
    ScopeResult.results (scope1 self)
    ++ ScopeResult.results (scope2_location self)
    ++ ScopeResult.results (scope2_market self)
    ++ ScopeResult.results (scope3 self).

Definition is_market (m : option Scope2Method) : bool :=
    match m with
    | Some MARKET_BASED => true
    | _ => false
    end.

Definition add_result (self : t) (result : EmissionResult.t) : t :=
    match EmissionResult.scope result with
    | SCOPE_1 =>
        mk (name self) (year self)
           (ScopeResult.add_result (scope1 self) result)
           (scope2_location self) (scope2_market self) (scope3 self)
    | SCOPE_2 =>
        if is_market (EmissionResult.scope2_method result) then
          mk (name self) (year self) (scope1 self) (scope2_location self)
             (ScopeResult.add_result (scope2_market self) result) (scope3 self)
        else
          mk (name self) (year self) (scope1 self)
             (ScopeResult.add_result (scope2_location self) result)
             (scope2_market self) (scope3 self)
    | SCOPE_3 =>
        mk (name self) (year self) (scope1 self) (scope2_location self)
           (scope2_market self) (ScopeResult.add_result (scope3 self) result)
    end.

  (** [for result in results: inventory.add_result(result)] *)
Definition add_results (self : t) (results : list EmissionResult.t) : t :=
    fold_left add_result results self.
End InventoryResult.

(** The running sum a bucket keeps, recomputed from its results: [0.0]
    and then each result's total added in order. *)
Definition sum_co2e (results : list EmissionResult.t) : float :=
  fold_left (fun acc r => (acc + EmissionResult.total_co2e_kg r)%float)
            results 0%float.

(* ================================================================== *)
(** ** engine/base.py *)

Module BaseScopeCalculator.
Record t := mk {
    registry : FactorRegistry.t;
    gwp_assessment : GWPAssessment
  }.

  (** One turn of the loop of [_build_gas_breakdown]. *)
Definition gas_entry (self : t) (gas : GasType) (mass : float)
    : result (list GasBreakdown.t) :=
    if PrimFloat.ltb 0%float mass then
      gwp <- get_gwp (GasEnum gas) (gwp_assessment self) ;;
      co2e <- to_co2e mass (GasEnum gas) (gwp_assessment self) ;;
      Ok [GasBreakdown.mk gas mass co2e gwp (gwp_assessment self)]
    else Ok [].

Definition _build_gas_breakdown (self : t) (co2_kg ch4_kg n2o_kg : float)
    : result (list GasBreakdown.t) :=
    b1 <- gas_entry self CO2 co2_kg ;;
    b2 <- gas_entry self CH4 ch4_kg ;;
    b3 <- gas_entry self N2O n2o_kg ;;
    Ok (b1 ++ b2 ++ b3).

  (** [sum(g.co2e_kg for g in breakdown)], added left to right from 0. *)
Definition _total_co2e (breakdown : list GasBreakdown.t) : float :=
    fold_left (fun acc g => (acc + GasBreakdown.co2e_kg g)%float)
              breakdown 0%float.
End BaseScopeCalculator.

(** [list[EmissionResult]] or a raised error *)
Definition Outcome := result (list EmissionResult.t).

(** [units.converter.converter.convert]; [None] when it raises. *)
Definition Converter := float -> string -> string -> option float.

(** Helpers shared by the calculators. *)
Module Engine.
Section WithConverter.
Variable convert : Converter.

  (** [try: converter.convert(...) except Exception: raise ValueError("Cannot convert ...")] *)
Definition convert_or_raise (value : float) (from_unit to_unit : string)
    : result float :=
    match convert value from_unit to_unit with
    | Some v => Ok v
    | None => Err (CannotConvert from_unit to_unit)
    end.

  (** [try: x = converter.convert(...) except Exception: pass] *)
Definition convert_or_keep (value : float) (from_unit to_unit : string) : float :=
    match convert value from_unit to_unit with
    | Some v => v
    | None => value
    end.

  (** [factor.co2e_factor if factor.co2e_factor is not None else factor.co2_factor] *)
Definition co2e_or_co2 (factor : EmissionFactor.t) : float :=
    match EmissionFactor.co2e_factor factor with
    | Some v => v
    | None => EmissionFactor.co2_factor factor
    end.

  (** [activity.fuel_type.value if activity.fuel_type else activity.custom_fuel] *)
Definition fuel_key (activity : ActivityRecord.t) : option string :=
    match ActivityRecord.fuel_type activity with
    | Some ft => Some (FuelType_value ft)
    | None => ActivityRecord.custom_fuel activity
    end.

  (** The result every Scope 1 calculator returns for a custom factor. *)
Definition scope1_custom_result (self : BaseScopeCalculator.t)
             (activity : ActivityRecord.t)
             (cat : Scope1Category) (custom_factor : float) (note : Note)
    : EmissionResult.t :=
    let total_co2e := (ActivityRecord.quantity activity * custom_factor)%float in
    EmissionResult.mk
      (ActivityRecord.id activity) (ActivityRecord.name activity)
      SCOPE_1 (Some cat) None None
      total_co2e [] None None
      (Some (ActivityRecord.quantity activity)) (Some (ActivityRecord.unit activity))
      (BaseScopeCalculator.gwp_assessment self) [note].

  (** The per-gas arithmetic of the combustion and process calculators:
      the three masses and their breakdown. *)
Definition per_gas_breakdown (self : BaseScopeCalculator.t) (quantity : float)
             (factor : EmissionFactor.t) : result (list GasBreakdown.t) :=
    let co2_kg := (quantity * EmissionFactor.co2_factor factor)%float in
    let ch4_kg := (quantity * EmissionFactor.ch4_factor factor)%float in
    let n2o_kg := (quantity * EmissionFactor.n2o_factor factor)%float in
    BaseScopeCalculator._build_gas_breakdown self co2_kg ch4_kg n2o_kg.

  (** Lines 55-88 of stationary.py and 56-86 of mobile.py: what happens
      once a factor is resolved. *)
Definition combustion_with_factor (self : BaseScopeCalculator.t)
             (activity : ActivityRecord.t)
             (cat : Scope1Category) (factor : EmissionFactor.t) : Outcome :=
    quantity <-
      (if negb (String.eqb (PyStr.lower (ActivityRecord.unit activity))
                           (PyStr.lower (EmissionFactor.activity_unit factor)))
       then convert_or_raise (ActivityRecord.quantity activity)
                             (ActivityRecord.unit activity)
                             (EmissionFactor.activity_unit factor)
       else Ok (ActivityRecord.quantity activity)) ;;
    breakdown <- per_gas_breakdown self quantity factor ;;
    let total_co2e := BaseScopeCalculator._total_co2e breakdown in
    Ok [EmissionResult.mk
          (ActivityRecord.id activity) (ActivityRecord.name activity)
          SCOPE_1 (Some cat) None None
          total_co2e breakdown
          (Some (EmissionFactor.id factor)) (Some (EmissionFactor.source factor))
          (Some (ActivityRecord.quantity activity)) (Some (ActivityRecord.unit activity))
          (BaseScopeCalculator.gwp_assessment self) []].
End WithConverter.
End Engine.

(* ------------------------------------------------------------------ *)
(** *** engine/scope1/stationary.py *)

Module StationaryCombustionCalculator.
Section WithConverter.
Variable convert : Converter.

Definition resolve (self : BaseScopeCalculator.t) (activity : ActivityRecord.t)
    : option EmissionFactor.t :=
    let fuel_type := Engine.fuel_key activity in
    if PyStr.truthy_opt fuel_type then
      FactorRegistry.find_factor (BaseScopeCalculator.registry self)
        "stationary_combustion"
        fuel_type None (Some (ActivityRecord.unit activity))
        (ActivityRecord.factor_source activity)
    else None.

Definition calculate (self : BaseScopeCalculator.t) (activity : ActivityRecord.t)
    : Outcome :=
    match ActivityRecord.custom_factor activity with
    | Some custom_factor =>
        Ok [Engine.scope1_custom_result self activity STATIONARY_COMBUSTION
                                        custom_factor NoteCustomFactor]
    | None =>
        match resolve self activity with
        | None => Err NoFactorStationary
        | Some factor =>
            Engine.combustion_with_factor convert self activity
                                          STATIONARY_COMBUSTION factor
        end
    end.
End WithConverter.
End StationaryCombustionCalculator.

(* ------------------------------------------------------------------ *)
(** *** engine/scope1/mobile.py *)

Module MobileCombustionCalculator.
Section WithConverter.
Variable convert : Converter.

Definition lookup (self : BaseScopeCalculator.t) (activity : ActivityRecord.t)
             (fuel_type : option string) : option EmissionFactor.t :=
    FactorRegistry.find_factor (BaseScopeCalculator.registry self)
      "mobile_combustion"
      fuel_type None (Some (ActivityRecord.unit activity))
      (ActivityRecord.factor_source activity).

Definition resolve (self : BaseScopeCalculator.t) (activity : ActivityRecord.t)
    : option EmissionFactor.t :=
    let fuel_type := Engine.fuel_key activity in
    let vehicle := ActivityRecord.vehicle_type activity in
    let factor :=
      if PyStr.truthy_opt vehicle then lookup self activity fuel_type else None in
    match factor with
    | None =>
        if PyStr.truthy_opt fuel_type then lookup self activity fuel_type else None
    | Some _ => factor
    end.

Definition calculate (self : BaseScopeCalculator.t) (activity : ActivityRecord.t)
    : Outcome :=
    match ActivityRecord.custom_factor activity with
    | Some custom_factor =>
        Ok [Engine.scope1_custom_result self activity MOBILE_COMBUSTION
                                        custom_factor NoteCustomFactor]
    | None =>
        match resolve self activity with
        | None => Err NoFactorMobile
        | Some factor =>
            Engine.combustion_with_factor convert self activity
                                          MOBILE_COMBUSTION factor
        end
    end.
End WithConverter.
End MobileCombustionCalculator.

(* ------------------------------------------------------------------ *)
(** *** engine/scope1/fugitive.py *)

Module FugitiveEmissionsCalculator.
Section WithConverter.
Variable convert : Converter.

  (** Lines 26-31 and 49-54: the quantity in kg. *)
Definition quantity_in_kg (activity : ActivityRecord.t) : result float :=
    if negb (String.eqb (PyStr.lower (ActivityRecord.unit activity)) "kg")
    then Engine.convert_or_raise convert (ActivityRecord.quantity activity)
                                 (ActivityRecord.unit activity) "kg"
    else Ok (ActivityRecord.quantity activity).

  (** Lines 18-46: no [refrigerant_type]. *)
Definition without_refrigerant (self : BaseScopeCalculator.t)
             (activity : ActivityRecord.t) : Outcome :=
    let factor :=
      FactorRegistry.find_factor (BaseScopeCalculator.registry self)
        "fugitive_emissions" None None (Some (ActivityRecord.unit activity))
        (ActivityRecord.factor_source activity) in
    match factor with
    | Some factor =>
        match EmissionFactor.co2e_factor factor with
        | Some co2e_factor =>
            quantity_kg <- quantity_in_kg activity ;;
            let total_co2e := (quantity_kg * co2e_factor)%float in
            Ok [EmissionResult.mk
                  (ActivityRecord.id activity) (ActivityRecord.name activity)
                  SCOPE_1 (Some FUGITIVE_EMISSIONS) None None
                  total_co2e []
                  (Some (EmissionFactor.id factor))
                  (Some (EmissionFactor.source factor))
                  (Some (ActivityRecord.quantity activity))
                  (Some (ActivityRecord.unit activity))
                  (BaseScopeCalculator.gwp_assessment self) []]
        | None => Err NoFactorFugitive
        end
    | None => Err NoFactorFugitive
    end.

  (** Lines 58-75: the GWP of the refrigerant, from the table or from the
      registry when the table raises [KeyError]. *)
Definition refrigerant_gwp (self : BaseScopeCalculator.t) (refrigerant : string)
    : result float :=
    let refrigerant_lower := PyStr.lower refrigerant in
    match get_gwp (GasStr refrigerant_lower) (BaseScopeCalculator.gwp_assessment self) with
    | Ok gwp => Ok gwp
    | Err _ =>
        let results :=
          FactorRegistry.search (BaseScopeCalculator.registry self) refrigerant
            None (Some "fugitive_emissions") None None None None None 1 in
        match results with
        | f :: _ =>
            match EmissionFactor.co2e_factor f with
            | Some v => Ok v
            | None => Err (UnknownRefrigerant refrigerant)
            end
        | [] => Err (UnknownRefrigerant refrigerant)
        end
    end.

Definition with_refrigerant (self : BaseScopeCalculator.t)
             (activity : ActivityRecord.t) (refrigerant : string) : Outcome :=
    quantity_kg <- quantity_in_kg activity ;;
    gwp <- refrigerant_gwp self refrigerant ;;
    let total_co2e := (quantity_kg * gwp)%float in
    let breakdown :=
      [GasBreakdown.mk HFC quantity_kg total_co2e gwp
                       (BaseScopeCalculator.gwp_assessment self)] in
    Ok [EmissionResult.mk
          (ActivityRecord.id activity) (ActivityRecord.name activity)
          SCOPE_1 (Some FUGITIVE_EMISSIONS) None None
          total_co2e breakdown None None
          (Some (ActivityRecord.quantity activity))
          (Some (ActivityRecord.unit activity))
          (BaseScopeCalculator.gwp_assessment self)
          [NoteRefrigerant refrigerant gwp]].

Definition calculate (self : BaseScopeCalculator.t) (activity : ActivityRecord.t)
    : Outcome :=
    match ActivityRecord.custom_factor activity with
    | Some custom_factor =>
        Ok [Engine.scope1_custom_result self activity FUGITIVE_EMISSIONS
                                        custom_factor NoteCustomFactor]
    | None =>
        match ActivityRecord.refrigerant_type activity with
        | None => without_refrigerant self activity
        | Some refrigerant => with_refrigerant self activity refrigerant
        end
    end.
End WithConverter.
End FugitiveEmissionsCalculator.

(* ------------------------------------------------------------------ *)
(** *** engine/scope1/process.py *)

Module ProcessEmissionsCalculator.

Definition calculate (self : BaseScopeCalculator.t) (activity : ActivityRecord.t)
    : Outcome :=
    match ActivityRecord.custom_factor activity with
    | Some custom_factor =>
        Ok [Engine.scope1_custom_result self activity PROCESS_EMISSIONS
                                        custom_factor NoteCustomFactorProcess]
    | None =>
        let factor :=
          FactorRegistry.find_factor (BaseScopeCalculator.registry self)
            "process_emissions" None None (Some (ActivityRecord.unit activity))
            (ActivityRecord.factor_source activity) in
        match factor with
        | None => Err NoFactorProcess
        | Some factor =>
            breakdown <- Engine.per_gas_breakdown self
                           (ActivityRecord.quantity activity) factor ;;
            let total_co2e := BaseScopeCalculator._total_co2e breakdown in
            let total_co2e :=
              match EmissionFactor.co2e_factor factor with
              | Some co2e_factor =>
                  (ActivityRecord.quantity activity * co2e_factor)%float
              | None => total_co2e
              end in
            Ok [EmissionResult.mk
                  (ActivityRecord.id activity) (ActivityRecord.name activity)
                  SCOPE_1 (Some PROCESS_EMISSIONS) None None
                  total_co2e breakdown
                  (Some (EmissionFactor.id factor))
                  (Some (EmissionFactor.source factor))
                  (Some (ActivityRecord.quantity activity))
                  (Some (ActivityRecord.unit activity))
                  (BaseScopeCalculator.gwp_assessment self) []]
        end
    end.

End ProcessEmissionsCalculator.

(* ------------------------------------------------------------------ *)
(** *** engine/scope2/electricity.py *)

Module ElectricityCalculator.
Section WithConverter.
Variable convert : Converter.

Definition _find_location_factor (self : BaseScopeCalculator.t)
           (activity : ActivityRecord.t) : option EmissionFactor.t :=
  let registry := BaseScopeCalculator.registry self in
  let by_subregion :=
    if PyStr.truthy_opt (ActivityRecord.grid_subregion activity) then
      FactorRegistry.find_factor registry "electricity" None
        (ActivityRecord.grid_subregion activity) (Some "kWh") (Some EGRID)
    else None in
  match by_subregion with
  | Some factor => Some factor
  | None =>
      let by_country :=
        if PyStr.truthy_opt (ActivityRecord.country activity) then
          FactorRegistry.find_factor registry "electricity" None
            (ActivityRecord.country activity) (Some "kWh") (Some EMBER)
        else None in
      match by_country with
      | Some factor => Some factor
      | None =>
          FactorRegistry.find_factor registry "electricity" None
            (Some "US") (Some "kWh") None
      end
  end.

Definition _find_market_factor (self : BaseScopeCalculator.t)
           (activity : ActivityRecord.t) : option EmissionFactor.t :=
  let preferred :=
    match ActivityRecord.factor_source activity with
    | Some source =>
        FactorRegistry.find_factor (BaseScopeCalculator.registry self)
          "electricity" None
          (opt_or (ActivityRecord.grid_subregion activity)
                  (ActivityRecord.country activity))
          (Some "kWh") (Some source)
    | None => None
    end in
  match preferred with
  | Some factor => Some factor
  | None => _find_location_factor self activity
  end.

(** Lines 21-27: the quantity in kWh. *)
Definition quantity_in_kwh (activity : ActivityRecord.t) : result float :=
  let unit_lower := PyStr.lower (ActivityRecord.unit activity) in
  if negb (String.eqb unit_lower "kwh" || String.eqb unit_lower "kilowatt_hour")
  then Engine.convert_or_raise convert (ActivityRecord.quantity activity)
                               (ActivityRecord.unit activity) "kWh"
  else Ok (ActivityRecord.quantity activity).

(** One of the two [results.append(...)] blocks: nothing when the factor
    is [None]. *)
Definition method_result (self : BaseScopeCalculator.t) (activity : ActivityRecord.t)
           (quantity_kwh : float) (method : Scope2Method) (notes : list Note)
           (factor : option EmissionFactor.t) : Outcome :=
  match factor with
  | None => Ok []
  | Some factor =>
      breakdown <- Engine.per_gas_breakdown self quantity_kwh factor ;;
      let total_co2e := BaseScopeCalculator._total_co2e breakdown in
      Ok [EmissionResult.mk
            (ActivityRecord.id activity) (ActivityRecord.name activity)
            SCOPE_2 None (Some method) None
            total_co2e breakdown
            (Some (EmissionFactor.id factor))
            (Some (EmissionFactor.source factor))
            (Some (ActivityRecord.quantity activity))
            (Some (ActivityRecord.unit activity))
            (BaseScopeCalculator.gwp_assessment self) notes]
  end.

Definition calculate (self : BaseScopeCalculator.t) (activity : ActivityRecord.t)
  : Outcome :=
  quantity_kwh <- quantity_in_kwh activity ;;
  match ActivityRecord.custom_factor activity with
  | Some custom_factor =>
      let total_co2e := (quantity_kwh * custom_factor)%float in
      let method :=
        match ActivityRecord.scope2_method activity with
        | Some m => m
        | None => LOCATION_BASED
        end in
      Ok [EmissionResult.mk
            (ActivityRecord.id activity) (ActivityRecord.name activity)
            SCOPE_2 None (Some method) None
            total_co2e [] None None
            (Some (ActivityRecord.quantity activity))
            (Some (ActivityRecord.unit activity))
            (BaseScopeCalculator.gwp_assessment self) [NoteCustomFactor]]
  | None =>
      location <- method_result self activity quantity_kwh LOCATION_BASED []
                    (_find_location_factor self activity) ;;
      market <- method_result self activity quantity_kwh MARKET_BASED
                  [NoteMarketProxy] (_find_market_factor self activity) ;;
      let results := location ++ market in
      match results with
      | [] => Err NoFactorElectricity
      | _ => Ok results
      end
  end.
End WithConverter.
End ElectricityCalculator.

(* ------------------------------------------------------------------ *)
(** *** engine/scope3/base.py *)

Module Scope3Calculator.
Section WithConverter.
Variable convert : Converter.

Definition _CATEGORY_MAP (c : Scope3Category) : string :=
  match c with
  | PURCHASED_GOODS_SERVICES => "purchased_goods"
  | CAPITAL_GOODS => "capital_goods"
  | FUEL_ENERGY_ACTIVITIES => "fuel_energy"
  | UPSTREAM_TRANSPORT => "transport"
  | WASTE => "waste"
  | BUSINESS_TRAVEL => "business_travel"
  | EMPLOYEE_COMMUTING => "commuting"
  | UPSTREAM_LEASED_ASSETS => "leased_assets"
  | DOWNSTREAM_TRANSPORT => "transport"
  | PROCESSING_SOLD_PRODUCTS => "processing"
  | USE_OF_SOLD_PRODUCTS => "product_use"
  | END_OF_LIFE_SOLD_PRODUCTS => "end_of_life"
  | DOWNSTREAM_LEASED_ASSETS => "leased_assets"
  | FRANCHISES => "franchises"
  | INVESTMENTS => "investments"
  end.

(** [self._CATEGORY_MAP.get(activity.scope3_category, default)] *)
Definition category_name (c : option Scope3Category) (default : string) : string :=
  match c with
  | Some c => _CATEGORY_MAP c
  | None => default
  end.

(** [results[0] if results], after a [search(..., limit=1)] *)
Definition first_hit (results : list EmissionFactor.t) : option EmissionFactor.t :=
  match results with
  | f :: _ => Some f
  | [] => None
  end.

(** The result of the factor-based Scope 3 paths without a breakdown. *)
Definition co2e_result (self : BaseScopeCalculator.t) (activity : ActivityRecord.t)
           (cat : option Scope3Category) (total_co2e : float)
           (factor : EmissionFactor.t) (quantity : float) (unit : string)
           (note : Note) : EmissionResult.t :=
  EmissionResult.mk
    (ActivityRecord.id activity) (ActivityRecord.name activity)
    SCOPE_3 None None cat
    total_co2e []
    (Some (EmissionFactor.id factor)) (Some (EmissionFactor.source factor))
    (Some quantity) (Some unit)
    (BaseScopeCalculator.gwp_assessment self) [note].

Definition _calculate_custom (self : BaseScopeCalculator.t)
           (activity : ActivityRecord.t) (custom_factor : float) : Outcome :=
  let total_co2e := (ActivityRecord.quantity activity * custom_factor)%float in
  Ok [EmissionResult.mk
        (ActivityRecord.id activity) (ActivityRecord.name activity)
        SCOPE_3 None None (ActivityRecord.scope3_category activity)
        total_co2e [] None None
        (Some (ActivityRecord.quantity activity))
        (Some (ActivityRecord.unit activity))
        (BaseScopeCalculator.gwp_assessment self) [NoteCustomFactor]].

(** Lines 86-111: USEEIO by NAICS code, USEEIO by free text, EXIOBASE. *)
Definition resolve_spend (self : BaseScopeCalculator.t)
           (activity : ActivityRecord.t) : option EmissionFactor.t :=
  let registry := BaseScopeCalculator.registry self in
  let naics_code := ActivityRecord.naics_code activity in
  let factor :=
    if PyStr.truthy_opt naics_code then
      match FactorRegistry.find_factor registry "spend_based" naics_code
                                       None None (Some USEEIO) with
      | Some factor => Some factor
      | None =>
          first_hit (FactorRegistry.search registry (PyStr.or_else naics_code "")
                       (Some USEEIO) None None None None None None 1)
      end
    else None in
  match factor with
  | Some factor => Some factor
  | None =>
      first_hit (FactorRegistry.search registry (PyStr.or_else naics_code "")
                   (Some EXIOBASE) None None None None None None 1)
  end.

(** [activity.spend_amount or activity.quantity] *)
Definition spend_of (activity : ActivityRecord.t) : float :=
  match ActivityRecord.spend_amount activity with
  | Some s => if float_truthy s then s else ActivityRecord.quantity activity
  | None => ActivityRecord.quantity activity
  end.

Definition _calculate_spend_based (self : BaseScopeCalculator.t)
           (activity : ActivityRecord.t) : Outcome :=
  match resolve_spend self activity with
  | None => Err NoFactorSpend
  | Some factor =>
      let spend := spend_of activity in
      let co2e_factor := Engine.co2e_or_co2 factor in
      let total_co2e := (spend * co2e_factor)%float in
      Ok [co2e_result self activity (ActivityRecord.scope3_category activity)
                      total_co2e factor spend "USD" (NoteSpendBased co2e_factor)]
  end.

(** [activity.transport_mode or activity.vehicle_type or "average"] *)
Definition mode_of (activity : ActivityRecord.t) : string :=
  PyStr.or_else (opt_or (ActivityRecord.transport_mode activity)
                        (ActivityRecord.vehicle_type activity)) "average".

Definition resolve_distance (self : BaseScopeCalculator.t)
           (activity : ActivityRecord.t) : option EmissionFactor.t :=
  let registry := BaseScopeCalculator.registry self in
  let mode := mode_of activity in
  let cat_name := category_name (ActivityRecord.scope3_category activity) "transport" in
  match FactorRegistry.find_factor registry cat_name (Some mode) None
          (Some (PyStr.or_else (ActivityRecord.distance_unit activity) "km"))
          None with
  | Some factor => Some factor
  | None =>
      first_hit (FactorRegistry.search registry (cat_name ++ " " ++ mode)%string
                   None None None None None None None 1)
  end.

(** Lines 166-171: the distance in the factor's unit, kept as it is
    when the conversion raises. *)
Definition distance_in_factor_unit (activity : ActivityRecord.t)
           (distance : float) (factor : EmissionFactor.t) : float :=
  match ActivityRecord.distance_unit activity with
  | Some distance_unit =>
      if PyStr.truthy distance_unit
         && negb (String.eqb (PyStr.lower distance_unit)
                             (PyStr.lower (EmissionFactor.activity_unit factor)))
      then Engine.convert_or_keep convert distance distance_unit
                                  (EmissionFactor.activity_unit factor)
      else distance
  | None => distance
  end.

(** Lines 175-180: the weight in metric tons, kept as it is when the
    conversion raises. *)
Definition weight_in_tonnes (activity : ActivityRecord.t) (weight : float) : float :=
  match ActivityRecord.weight_unit activity with
  | Some weight_unit =>
      if PyStr.truthy weight_unit
         && negb (String.eqb (PyStr.lower weight_unit) "tonne")
      then Engine.convert_or_keep convert weight weight_unit "metric_ton"
      else weight
  | None => weight
  end.

(** Lines 173-183. *)
Definition distance_quantity (activity : ActivityRecord.t) (distance : float)
           (factor : EmissionFactor.t) : float :=
  match ActivityRecord.weight activity with
  | Some weight =>
      if float_truthy weight
         && PyStr.contains "tonne_km" (PyStr.lower (EmissionFactor.activity_unit factor))
      then (distance * weight_in_tonnes activity weight)%float
      else distance
  | None => distance
  end.

(** [distance] is [activity.distance], which the caller found not [None]. *)
Definition _calculate_distance_based (self : BaseScopeCalculator.t)
           (activity : ActivityRecord.t) (distance : float) : Outcome :=
  match resolve_distance self activity with
  | None => Err NoFactorDistance
  | Some factor =>
      let distance := distance_in_factor_unit activity distance factor in
      let quantity := distance_quantity activity distance factor in
      let co2e_factor := Engine.co2e_or_co2 factor in
      let total_co2e := (quantity * co2e_factor)%float in
      Ok [co2e_result self activity (ActivityRecord.scope3_category activity)
                      total_co2e factor quantity
                      (EmissionFactor.activity_unit factor)
                      (NoteDistanceBased (mode_of activity))]
  end.

Definition _calculate_waste (self : BaseScopeCalculator.t)
           (activity : ActivityRecord.t) : Outcome :=
  let registry := BaseScopeCalculator.registry self in
  let waste_type := PyStr.or_else (ActivityRecord.waste_type activity) "mixed" in
  let disposal := PyStr.or_else (ActivityRecord.disposal_method activity) "landfill" in
  let factor :=
    match FactorRegistry.find_factor registry "waste"
            (Some (waste_type ++ "_" ++ disposal)%string) None None None with
    | Some factor => Some factor
    | None =>
        first_hit (FactorRegistry.search registry
                     ("waste " ++ waste_type ++ " " ++ disposal)%string
                     None None None None None None None 1)
    end in
  match factor with
  | None => Err NoFactorWaste
  | Some factor =>
      let quantity := ActivityRecord.quantity activity in
      let co2e_factor := Engine.co2e_or_co2 factor in
      let total_co2e := (quantity * co2e_factor)%float in
      Ok [co2e_result self activity (Some WASTE) total_co2e factor quantity
                      (ActivityRecord.unit activity) (NoteWaste waste_type disposal)]
  end.

Definition _calculate_activity_based (self : BaseScopeCalculator.t)
           (activity : ActivityRecord.t) : Outcome :=
  let registry := BaseScopeCalculator.registry self in
  let cat := ActivityRecord.scope3_category activity in
  let cat_name := category_name cat "" in
  let factor :=
    match FactorRegistry.find_factor registry cat_name None None
            (Some (ActivityRecord.unit activity))
            (ActivityRecord.factor_source activity) with
    | Some factor => Some factor
    | None =>
        first_hit (FactorRegistry.search registry cat_name
                     None None None None None
                     (Some (ActivityRecord.unit activity)) None 1)
    end in
  match factor with
  | None => Err NoFactorScope3
  | Some factor =>
      breakdown <- Engine.per_gas_breakdown self
                     (ActivityRecord.quantity activity) factor ;;
      let total_co2e := BaseScopeCalculator._total_co2e breakdown in
      let total_co2e :=
        match EmissionFactor.co2e_factor factor with
        | Some co2e_factor => (ActivityRecord.quantity activity * co2e_factor)%float
        | None => total_co2e
        end in
      Ok [EmissionResult.mk
            (ActivityRecord.id activity) (ActivityRecord.name activity)
            SCOPE_3 None None cat
            total_co2e breakdown
            (Some (EmissionFactor.id factor)) (Some (EmissionFactor.source factor))
            (Some (ActivityRecord.quantity activity))
            (Some (ActivityRecord.unit activity))
            (BaseScopeCalculator.gwp_assessment self) []]
  end.

Definition is_distance_category (c : Scope3Category) : bool :=
  match c with
  | UPSTREAM_TRANSPORT | DOWNSTREAM_TRANSPORT | BUSINESS_TRAVEL
  | EMPLOYEE_COMMUTING => true
  | _ => false
  end.

Definition is_waste (c : Scope3Category) : bool :=
  match c with
  | WASTE => true
  | _ => false
  end.

Definition calculate (self : BaseScopeCalculator.t) (activity : ActivityRecord.t)
  : Outcome :=
  match ActivityRecord.custom_factor activity with
  | Some custom_factor => _calculate_custom self activity custom_factor
  | None =>
      match ActivityRecord.scope3_category activity with
      | None => Err Scope3CategoryRequired
      | Some category =>
          match ActivityRecord.spend_amount activity with
          | Some _ => _calculate_spend_based self activity
          | None =>
              match ActivityRecord.distance activity with
              | Some distance =>
                  if is_distance_category category
                  then _calculate_distance_based self activity distance
                  else if is_waste category then _calculate_waste self activity
                  else _calculate_activity_based self activity
              | None =>
                  if is_waste category then _calculate_waste self activity
                  else _calculate_activity_based self activity
              end
          end
      end
  end.
End WithConverter.
End Scope3Calculator.

(* ------------------------------------------------------------------ *)
(** *** engine/calculator.py *)

Module GHGCalculator.
Section WithConverter.
Variable convert : Converter.

Definition _route_scope1 (self : BaseScopeCalculator.t) (activity : ActivityRecord.t)
  : Outcome :=
  match ActivityRecord.scope1_category activity with
  | Some STATIONARY_COMBUSTION =>
      StationaryCombustionCalculator.calculate convert self activity
  | Some MOBILE_COMBUSTION => MobileCombustionCalculator.calculate convert self activity
  | Some FUGITIVE_EMISSIONS => FugitiveEmissionsCalculator.calculate convert self activity
  | Some PROCESS_EMISSIONS => ProcessEmissionsCalculator.calculate self activity
  | None =>
      if PyStr.truthy_opt (ActivityRecord.refrigerant_type activity)
      then FugitiveEmissionsCalculator.calculate convert self activity
      else if match ActivityRecord.fuel_type activity with
              | Some _ => true
              | None => PyStr.truthy_opt (ActivityRecord.custom_fuel activity)
              end
      then StationaryCombustionCalculator.calculate convert self activity
      else Err CannotDetermineScope1
  end.

Definition calculate_single (self : BaseScopeCalculator.t)
           (activity : ActivityRecord.t) : Outcome :=
  match ActivityRecord.scope activity with
  | SCOPE_1 => _route_scope1 self activity
  | SCOPE_2 => ElectricityCalculator.calculate convert self activity
  | SCOPE_3 => Scope3Calculator.calculate convert self activity
  end.

(** The loop of [calculate_inventory]: the first activity that raises
    aborts the whole inventory. *)
Fixpoint fold_activities (self : BaseScopeCalculator.t)
         (inventory : InventoryResult.t) (activities : list ActivityRecord.t)
  : result InventoryResult.t :=
  match activities with
  | [] => Ok inventory
  | activity :: rest =>
      results <- calculate_single self activity ;;
      fold_activities self (InventoryResult.add_results inventory results) rest
  end.

Definition calculate_inventory (self : BaseScopeCalculator.t)
           (activities : list ActivityRecord.t) (name : string) (year : option Z)
  : result InventoryResult.t :=
  fold_activities self (InventoryResult.fresh name year) activities.
End WithConverter.
End GHGCalculator.

(* ================================================================== *)
(** ** Notions the properties are stated with *)

(** The gas identifier as the caller wrote it: the string itself, or the
    value of the enum member. *)
Definition gas_text (gas : GasId) : string :=
  match gas with
  | GasEnum g => GasType_value g
  | GasStr s => s
  end.

(** A bucket whose running total is the sum of what it holds. *)
Definition bucket_consistent (b : ScopeResult.t) : Prop :=
  ScopeResult.total_co2e_kg b = sum_co2e (ScopeResult.results b).

(** The four buckets of an inventory all keep their sums. *)
Definition inventory_consistent (inv : InventoryResult.t) : Prop :=
  bucket_consistent (InventoryResult.scope1 inv)
  /\ bucket_consistent (InventoryResult.scope2_location inv)
  /\ bucket_consistent (InventoryResult.scope2_market inv)
  /\ bucket_consistent (InventoryResult.scope3 inv).

Definition in_scope (s : Scope) (r : EmissionResult.t) : bool :=
  Scope_eqb (EmissionResult.scope r) s.

Definition is_market_result (r : EmissionResult.t) : bool :=
  in_scope SCOPE_2 r && InventoryResult.is_market (EmissionResult.scope2_method r).

Definition is_location_result (r : EmissionResult.t) : bool :=
  in_scope SCOPE_2 r
  && negb (InventoryResult.is_market (EmissionResult.scope2_method r)).

(** [needle] occurs in [hay] as a contiguous substring. *)
Definition occurs_in (needle hay : string) : Prop :=
  exists before after : string, hay = (before ++ needle ++ after)%string.

Definition points (b : bool) (n : Z) : Z := if b then n else 0%Z.

(** The score of [search] as the specification adds it up, on the
    lower-cased query: 10 for the query in the searchable text, 20 for
    the query in the name, 15 for the query being the fuel type, 5 for
    each word of the query found in the searchable text. *)
Definition score_spec (query_lower : string) (f : EmissionFactor.t) : Z :=
  let text := PyStr.lower (FactorRegistry.searchable f) in
  (points (PyStr.contains query_lower text) 10
   + points (PyStr.contains query_lower (PyStr.lower (EmissionFactor.name f))) 20
   + points (String.eqb query_lower
               (PyStr.lower (PyStr.or_else (EmissionFactor.fuel_type f) ""))) 15
   + 5 * Z.of_nat (List.length
                     (filter (fun word => PyStr.contains word text)
                             (PyStr.split query_lower))))%Z.

(** Whether a factor passes a criterion that may be unset. *)
Definition criterion_holds {C} (crit : option C)
           (keep : C -> EmissionFactor.t -> bool) (f : EmissionFactor.t) : bool :=
  match crit with
  | None => true
  | Some c => keep c f
  end.

(** Two criterion values that differ at most in the case of letters. *)
Definition same_up_to_case (a b : option string) : Prop :=
  match a, b with
  | Some x, Some y => PyStr.lower x = PyStr.lower y
  | None, None => True
  | _, _ => False
  end.



(** What the specification promises for a custom factor [f]: one result,
    its total the raw quantity times [f], no gas breakdown, no factor. *)
Definition custom_outcome (activity : ActivityRecord.t) (f : float) (o : Outcome) : Prop :=
  exists r,
    o = Ok [r]
    /\ EmissionResult.total_co2e_kg r = (ActivityRecord.quantity activity * f)%float
    /\ EmissionResult.gas_breakdown r = []
    /\ EmissionResult.factor_id r = None.

(** A result that stands on something: the factor it names, the
    activity's custom factor, or the GWP of the activity's refrigerant. *)
Definition backed (activity : ActivityRecord.t) (r : EmissionResult.t) : Prop :=
  EmissionResult.factor_id r <> None
  \/ ActivityRecord.custom_factor activity <> None
  \/ ActivityRecord.refrigerant_type activity <> None.

(** How a calculator may end: with at least one result, each of them
    backed; or with an error, which is of the no-matching-factor kind
    unless a conversion failed (unit-conversion kind) or the activity
    lacks its Scope 3 category (validation kind). *)
Definition calculator_outcome (convert : Converter) (activity : ActivityRecord.t)
           (o : Outcome) : Prop :=
  match o with
  | Ok results => results <> [] /\ Forall (backed activity) results
  | Err e =>
      match error_kind e with
      | KNoMatchingFactor => True
      | KUnitConversionError =>
          exists value from_unit to_unit, convert value from_unit to_unit = None
      | KValidationError => ActivityRecord.scope3_category activity = None
      | KUnknownGas => False
      end
  end.

(* ================================================================== *)
(** ** Sample data for the worked examples *)

Module Samples.

Inductive Dimension := Energy | Mass | Length | Volume.

Definition Dimension_eqb (a b : Dimension) : bool :=
  match a, b with
  | Energy, Energy | Mass, Mass | Length, Length | Volume, Volume => true
  | _, _ => false
  end.

(** Units by dimension and scale to the dimension's reference unit. *)
Definition unit_table : list (string * (Dimension * float)) :=
  [ ("kWh", (Energy, 1)); ("MWh", (Energy, 1000));
    ("kg", (Mass, 1)); ("metric_ton", (Mass, 1000));
    ("km", (Length, 1)); ("m", (Length, 0.001));
    ("liter", (Volume, 1)); ("gallon", (Volume, 3.785411784)) ]%float.

(** Modelled from the spec: the dimensional unit conversion service,
    which lives outside the repository.  As its contract asks, it fails on
    a unit it does not know and on units of different dimensions; this
    instance knows the few units of [unit_table]. *)
Definition table_convert : Converter :=
  fun value from_unit to_unit =>
    match dict_get unit_table from_unit, dict_get unit_table to_unit with
    | Some (d1, s1), Some (d2, s2) =>
        if Dimension_eqb d1 d2 then Some (value * s1 / s2)%float else None
    | _, _ => None
    end.

Definition factor (id name : string) (source : FactorSource) (category : string)
           (fuel_type region : option string) (activity_unit : string)
           (co2_factor : float) (co2e_factor : option float)
  : EmissionFactor.t :=
  EmissionFactor.mk id name source None co2_factor 0%float 0%float co2e_factor
                    activity_unit category "" fuel_type region None "" [].

(** An activity with every optional field unset but the listed ones. *)
Definition activity (scope : Scope) (scope3_category : option Scope3Category)
           (quantity : float) (unit : string) (custom_factor : option float)
           (country : option string) (factor_source : option FactorSource)
           (spend_amount : option float)
           (distance : option float) (distance_unit : option string)
           (weight : option float) (weight_unit : option string)
           (transport_mode : option string) : ActivityRecord.t :=
  ActivityRecord.mk None None scope None None scope3_category quantity unit
                    None None country None None custom_factor factor_source
                    spend_amount None distance distance_unit weight weight_unit
                    None transport_mode None None None.

Definition calculator (factors : list EmissionFactor.t) : BaseScopeCalculator.t :=
  BaseScopeCalculator.mk (FactorRegistry.mk factors) AR5.

Definition result_of (scope : Scope) (method : option Scope2Method)
           (total_co2e_kg : float) : EmissionResult.t :=
  EmissionResult.mk None None scope None method None total_co2e_kg [] None None
                    None None AR5 [].

Definition grid_de : EmissionFactor.t :=
  factor "defra_elec_de" "Electricity Germany" DEFRA "electricity"
         None (Some "DE") "kWh" 0.35%float None.

Definition grid_us : EmissionFactor.t :=
  factor "egrid_us" "Electricity US average" EGRID "electricity"
         None (Some "US") "kWh" 0.4%float None.

Definition freight_truck : EmissionFactor.t :=
  factor "defra_freight_truck" "Freight truck" DEFRA "transport"
         (Some "truck") None "tonne_km" 0%float (Some 0.125%float).

Definition exio_a : EmissionFactor.t :=
  factor "exio_a" "Manufacturing" EXIOBASE "spend_based"
         None None "USD" 0%float (Some 0.5%float).

Definition exio_b : EmissionFactor.t :=
  factor "exio_b" "Services" EXIOBASE "spend_based"
         None None "USD" 0.25%float None.

Definition useeio_a : EmissionFactor.t :=
  factor "useeio_a" "Paper mills" USEEIO "spend_based"
         (Some "322120") None "USD" 0%float (Some 0.75%float).

Definition diesel_gallon : EmissionFactor.t :=
  factor "epa_diesel" "Diesel fuel" EPA_HUB "stationary_combustion"
         (Some "diesel") None "gallon" 10.21%float None.

Definition natural_gas : EmissionFactor.t :=
  factor "epa_natural_gas" "Natural gas" EPA_HUB "stationary_combustion"
         (Some "natural_gas") None "therm" 5.302%float None.

Definition diesel_road : EmissionFactor.t :=
  factor "defra_diesel_car" "Car diesel" DEFRA "mobile_combustion"
         (Some "Diesel") None "km" 0.17%float None.

Definition diesel_blend : EmissionFactor.t :=
  factor "epa_blend" "Generator" EPA_HUB "stationary_combustion"
         (Some "diesel_blend") None "gallon" 9.5%float None.

(** 10 kg of refrigerant R-410A leaked. *)
Definition leak : ActivityRecord.t :=
  ActivityRecord.mk None None SCOPE_1 (Some FUGITIVE_EMISSIONS) None None
                    10%float "kg" None None None None None None None
                    None None None None None None None None None None
                    (Some "R-410A").

Definition fuels : FactorRegistry.t :=
  FactorRegistry.mk [diesel_blend; diesel_road; natural_gas; diesel_gallon].

End Samples.

(* ================================================================== *)
(** ** factors/gwp.py: [list_gases] *)

(** [sorted(...)] on strings, which Python orders by code point. *)
Fixpoint insert_string (s : string) (l : list string) : list string :=
  match l with
  | [] => [s]
  | t :: l' => if String.leb s t then s :: t :: l' else t :: insert_string s l'
  end.

Fixpoint sorted_strings (l : list string) : list string :=
  match l with
  | [] => []
  | s :: l' => insert_string s (sorted_strings l')
  end.

Definition list_gases (assessment : GWPAssessment) : list string :=
  sorted_strings (dict_keys (_GWP_TABLES assessment)).

(* ================================================================== *)
(** ** factors/registry.py: the registry object with its index *)

Module FactorVersion.
Record t := mk {
  source : FactorSource;
  version : string;
  year : Z;
  description : string;
  url : string;
  factor_count : Z;
  factors : list EmissionFactor.t
}.
End FactorVersion.

(** [table[key] = value] on a dict kept as its list of items: a key
    already there keeps its place and takes the new value. *)
Fixpoint dict_set {V} (table : list (string * V)) (key : string) (value : V)
  : list (string * V) :=
  match table with
  | [] => [(key, value)]
  | (k, v) :: rest =>
      if String.eqb k key then (k, value) :: rest
      else (k, v) :: dict_set rest key value
  end.

(** The three attributes of a [FactorRegistry] instance; [registry] is
    the part of it [search] reads. *)
Module FactorRegistryState.
Record t := mk {
  _versions : list FactorVersion.t;
  _factors : list EmissionFactor.t;
  _by_id : list (string * EmissionFactor.t)
}.

(** [__init__] *)
Definition init : t := mk [] [] [].

(** The body of the loop of [add_version]. *)
Definition add_factor (self : t) (factor : EmissionFactor.t) : t :=
  mk (_versions self) (_factors self ++ [factor])
     (dict_set (_by_id self) (EmissionFactor.id factor) factor).

Definition add_version (self : t) (version : FactorVersion.t) : t :=
  fold_left add_factor (FactorVersion.factors version)
            (mk (_versions self ++ [version]) (_factors self) (_by_id self)).

(** [load], on the versions [load_all_factors()] returned. *)
Definition load (versions : list FactorVersion.t) : t :=
  fold_left add_version versions init.

Definition get (self : t) (factor_id : string) : option EmissionFactor.t :=
  dict_get (_by_id self) factor_id.

Definition factor_count (self : t) : nat := List.length (_factors self).

Definition versions (self : t) : list FactorVersion.t := _versions self.

Definition registry (self : t) : FactorRegistry.t := FactorRegistry.mk (_factors self).
End FactorRegistryState.

(** Whether a factor carries the id looked up. *)
Definition has_id (factor_id : string) (f : EmissionFactor.t) : bool :=
  String.eqb (EmissionFactor.id f) factor_id.

(** The index answers every id with the factor loaded last under it. *)
Definition index_consistent (self : FactorRegistryState.t) : Prop :=
  forall factor_id,
    FactorRegistryState.get self factor_id
    = find (has_id factor_id) (rev (FactorRegistryState._factors self)).

(* ================================================================== *)
(** ** mcp/server.py: the Scope 3 breakdown of [generate_report] *)

Definition Scope3Category_name (c : Scope3Category) : string :=
  match c with
  | PURCHASED_GOODS_SERVICES => "PURCHASED_GOODS_SERVICES"
  | CAPITAL_GOODS => "CAPITAL_GOODS"
  | FUEL_ENERGY_ACTIVITIES => "FUEL_ENERGY_ACTIVITIES"
  | UPSTREAM_TRANSPORT => "UPSTREAM_TRANSPORT"
  | WASTE => "WASTE"
  | BUSINESS_TRAVEL => "BUSINESS_TRAVEL"
  | EMPLOYEE_COMMUTING => "EMPLOYEE_COMMUTING"
  | UPSTREAM_LEASED_ASSETS => "UPSTREAM_LEASED_ASSETS"
  | DOWNSTREAM_TRANSPORT => "DOWNSTREAM_TRANSPORT"
  | PROCESSING_SOLD_PRODUCTS => "PROCESSING_SOLD_PRODUCTS"
  | USE_OF_SOLD_PRODUCTS => "USE_OF_SOLD_PRODUCTS"
  | END_OF_LIFE_SOLD_PRODUCTS => "END_OF_LIFE_SOLD_PRODUCTS"
  | DOWNSTREAM_LEASED_ASSETS => "DOWNSTREAM_LEASED_ASSETS"
  | FRANCHISES => "FRANCHISES"
  | INVESTMENTS => "INVESTMENTS"
  end.

(** [r.scope3_category.name if r.scope3_category else "Unknown"] *)
Definition cat_name_of (r : EmissionResult.t) : string :=
  match EmissionResult.scope3_category r with
  | Some c => Scope3Category_name c
  | None => "Unknown"
  end.

(** [d[key] = d.get(key, 0) + value] *)
Definition dict_accumulate (d : list (string * float)) (key : string) (value : float)
  : list (string * float) :=
  let so_far := match dict_get d key with Some x => x | None => 0%float end in
  dict_set d key (so_far + value)%float.

(** Lines 340-343 of server.py: [scope3_by_cat]. *)
Definition scope3_by_cat (inventory : InventoryResult.t) : list (string * float) :=
  fold_left (fun d r => dict_accumulate d (cat_name_of r)
                                        (EmissionResult.total_co2e_kg r))
            (ScopeResult.results (InventoryResult.scope3 inventory)) [].

(** The dict [generate_report] returns, its "summary" entries beside the
    others; all totals in tonnes. *)
Module Report.
Record t := mk {
    title : string;
    total_co2e_tonnes : float;
    scope1_co2e_tonnes : float;
    scope2_location_co2e_tonnes : float;
    scope2_market_co2e_tonnes : float;
    scope3_co2e_tonnes : float;
    scope3_breakdown : list (string * float);
    activity_count : nat;
    result_count : nat
  }.
End Report.

(** The [total_co2e_tonnes] properties of models/results.py:
    [self.total_co2e_kg / 1000.0]. *)
Definition tonnes (total_co2e_kg : float) : float := (total_co2e_kg / 1000)%float.

(** Lines 345-357 of server.py: the returned dict; "scope3_breakdown" is
    [{k: v / 1000 for k, v in scope3_by_cat.items()}]. *)
Definition report_of (title : string) (records : list ActivityRecord.t)
           (inventory : InventoryResult.t) : Report.t :=
  Report.mk
    title
    (tonnes (InventoryResult.total_co2e_kg inventory))
    (tonnes (ScopeResult.total_co2e_kg (InventoryResult.scope1 inventory)))
    (tonnes (ScopeResult.total_co2e_kg (InventoryResult.scope2_location inventory)))
    (tonnes (ScopeResult.total_co2e_kg (InventoryResult.scope2_market inventory)))
    (tonnes (ScopeResult.total_co2e_kg (InventoryResult.scope3 inventory)))
    (map (fun item => (fst item, (snd item / 1000)%float)) (scope3_by_cat inventory))
    (List.length records)
    (List.length (InventoryResult.all_results inventory)).

(** Lines 335-357 of server.py: [generate_report], from the activity
    records the dicts were validated into; the calculator is the one
    [_get_calculator] holds. *)
Definition generate_report (convert : Converter) (calc : BaseScopeCalculator.t)
           (records : list ActivityRecord.t) (title : string) : result Report.t :=
  inventory <- GHGCalculator.calculate_inventory convert calc records title None ;;
  Ok (report_of title records inventory).

(* ================================================================== *)
(** ** Further notions the properties are stated with *)

(** The activity with another [vehicle_type]. *)
Definition with_vehicle_type (a : ActivityRecord.t) (vehicle_type : option string)
  : ActivityRecord.t :=
  ActivityRecord.mk
    (ActivityRecord.id a) (ActivityRecord.name a) (ActivityRecord.scope a)
    (ActivityRecord.scope1_category a) (ActivityRecord.scope2_method a)
    (ActivityRecord.scope3_category a) (ActivityRecord.quantity a)
    (ActivityRecord.unit a) (ActivityRecord.fuel_type a)
    (ActivityRecord.custom_fuel a) (ActivityRecord.country a)
    (ActivityRecord.region a) (ActivityRecord.grid_subregion a)
    (ActivityRecord.custom_factor a) (ActivityRecord.factor_source a)
    (ActivityRecord.spend_amount a) (ActivityRecord.naics_code a)
    (ActivityRecord.distance a) (ActivityRecord.distance_unit a)
    (ActivityRecord.weight a) (ActivityRecord.weight_unit a)
    vehicle_type (ActivityRecord.transport_mode a)
    (ActivityRecord.waste_type a) (ActivityRecord.disposal_method a)
    (ActivityRecord.refrigerant_type a).

(** Whether a factor passes all the criteria of a search. *)
Definition passes (source : option FactorSource)
           (category fuel_type region : option string) (scope : option Scope)
           (activity_unit : option string) (tags : option (list string))
           (f : EmissionFactor.t) : bool :=
  criterion_holds source FactorRegistry.source_is f
  && criterion_holds category FactorRegistry.category_is f
  && criterion_holds fuel_type FactorRegistry.fuel_type_is f
  && criterion_holds region FactorRegistry.region_is f
  && criterion_holds scope FactorRegistry.scope_is f
  && criterion_holds activity_unit FactorRegistry.activity_unit_is f
  && criterion_holds tags FactorRegistry.tags_subset f.

(** A result that echoes where it comes from: the scope [s], the
    activity's id and name, the calculator's assessment. *)
Definition echoes (self : BaseScopeCalculator.t) (activity : ActivityRecord.t)
           (s : Scope) (r : EmissionResult.t) : Prop :=
  EmissionResult.scope r = s
  /\ EmissionResult.activity_id r = ActivityRecord.id activity
  /\ EmissionResult.activity_name r = ActivityRecord.name activity
  /\ EmissionResult.gwp_assessment r = BaseScopeCalculator.gwp_assessment self.

(** A property of every result of an outcome that is a list. *)
Definition every_result (P : EmissionResult.t -> Prop) (o : Outcome) : Prop :=
  match o with
  | Ok results => Forall P results
  | Err _ => True
  end.

(** An entry of a gas breakdown as [_build_gas_breakdown] makes it. *)
Definition entry_well_formed (assessment : GWPAssessment) (g : GasBreakdown.t) : Prop :=
  dict_get (_GWP_TABLES assessment) (GasType_value (GasBreakdown.gas g))
  = Some (GasBreakdown.gwp_used g)
  /\ GasBreakdown.co2e_kg g = (GasBreakdown.mass_kg g * GasBreakdown.gwp_used g)%float
  /\ PrimFloat.ltb 0%float (GasBreakdown.mass_kg g) = true
  /\ GasBreakdown.gwp_assessment g = assessment.

(** The errors an outcome may be, if it is one. *)
Definition may_raise (allowed : Error -> Prop) (o : Outcome) : Prop :=
  match o with
  | Ok _ => True
  | Err e => allowed e
  end.

(** The no-matching-factor errors of the Scope 3 calculator. *)
Definition scope3_no_factor (e : Error) : Prop :=
  e = NoFactorSpend \/ e = NoFactorDistance \/ e = NoFactorWaste
  \/ e = NoFactorScope3.

(** More sample data. *)
Module MoreSamples.

Definition epa : FactorVersion.t :=
  FactorVersion.mk EPA_HUB "2024" 2024 "" "" 2
                   [Samples.diesel_gallon; Samples.natural_gas].

Definition defra : FactorVersion.t :=
  FactorVersion.mk DEFRA "2024" 2024 "" "" 1 [Samples.diesel_road].

(** A factor that carries a [co2e_factor] and no per-gas factor. *)
Definition biogas : EmissionFactor.t :=
  Samples.factor "defra_biogas" "Biogas" DEFRA "stationary_combustion"
                 (Some "biogas") None "m3" 0%float (Some 1.5%float).

Definition burn_biogas : ActivityRecord.t :=
  ActivityRecord.mk None None SCOPE_1 (Some STATIONARY_COMBUSTION) None None
                    200%float "m3" None (Some "biogas") None None None None None
                    None None None None None None None None None None None.

Definition office_power : ActivityRecord.t :=
  Samples.activity SCOPE_2 None 1000%float "kWh" None (Some "DE") None
                   None None None None None None.

Definition consulting : ActivityRecord.t :=
  Samples.activity SCOPE_3 (Some PURCHASED_GOODS_SERVICES) 1%float "USD" None
                   None None (Some 1000%float) None None None None None.

End MoreSamples.

(* ================================================================== *)
(** ** Sample data for the conversions *)

Module ConversionSamples.

(** A fugitive factor per gallon of gas charged. *)
Definition sf6_gallon : EmissionFactor.t :=
  Samples.factor "epa_sf6" "SF6 top-up" EPA_HUB "fugitive_emissions"
                 None None "gallon" 0%float (Some 23500%float).

(** 5 gallons charged, no refrigerant named. *)
Definition top_up : ActivityRecord.t :=
  ActivityRecord.mk None None SCOPE_1 (Some FUGITIVE_EMISSIONS) None None
                    5%float "gallon" None None None None None None None
                    None None None None None None None None None None None.

(** 5 gallons of refrigerant R-410A leaked. *)
Definition leak_gallon : ActivityRecord.t :=
  ActivityRecord.mk None None SCOPE_1 (Some FUGITIVE_EMISSIONS) None None
                    5%float "gallon" None None None None None None None
                    None None None None None None None None None None
                    (Some "R-410A").

(** 100 gallons of diesel burnt in a boiler. *)
Definition burn_diesel : ActivityRecord.t :=
  ActivityRecord.mk None None SCOPE_1 (Some STATIONARY_COMBUSTION) None None
                    100%float "Gallon" None (Some "diesel") None None None None None
                    None None None None None None None None None None None.

(** 100 km by truck, 2 tonnes. *)
Definition shipment : ActivityRecord.t :=
  Samples.activity SCOPE_3 (Some UPSTREAM_TRANSPORT) 1%float "shipment" None
                   None None None (Some 100%float) (Some "km")
                   (Some 2%float) (Some "tonne") (Some "truck").

(** The same, the weight given as 2 pallets. *)
Definition pallets : ActivityRecord.t :=
  Samples.activity SCOPE_3 (Some UPSTREAM_TRANSPORT) 1%float "shipment" None
                   None None None (Some 100%float) (Some "km")
                   (Some 2%float) (Some "pallet") (Some "truck").

(** 100 gallons entered as electricity. *)
Definition gallons : ActivityRecord.t :=
  Samples.activity SCOPE_2 None 100%float "gallon" None
                   None None None None None None None None.

End ConversionSamples.

(* ================================================================== *)
(** ** The ranking of [search] in the specification's own terms

    These definitions follow the words of the specification and use none
    of the code's helpers for the searchable text, the word split or the
    substring test. *)








(** [found P ws n]: [n] of the words [ws] satisfy [P]. *)
Inductive found (P : string -> Prop) : list string -> Z -> Prop :=
| found_none : found P [] 0
| found_yes w ws n : P w -> found P ws n -> found P (w :: ws) (n + 1)
| found_no w ws n : ~ P w -> found P ws n -> found P (w :: ws) n.






(* ================================================================== *)
(** ** The resolution chains of the calculators, in the specification's words

    What a calculator may stand a result on, and what its error says,
    told with the registry's two look-ups, the GWP table and the
    conversion service; of the calculators' own code only the static
    category table is used. *)

Module Resolution.
Section OfActivity.
Variable convert : Converter.
Variable self : BaseScopeCalculator.t.
Variable activity : ActivityRecord.t.

(** An optional text that is given: present and not empty. *)
Definition stated (o : option string) : Prop := exists s, o = Some s /\ s <> "".

(** The text if it is given, the default if not. *)
Definition given (o : option string) (default : string) : string :=
  match o with
  | None | Some EmptyString => default
  | Some s => s
  end.

(** The registry category of the activity's Scope 3 category. *)
Definition mapped (default : string) : string :=
  match ActivityRecord.scope3_category activity with
  | Some category => Scope3Calculator._CATEGORY_MAP category
  | None => default
  end.

(** Nothing is found by [P]. *)
Definition misses (P : EmissionFactor.t -> Prop) : Prop := forall f, ~ P f.

(** A chain of two steps: what [P] finds, and what [Q] finds when [P]
    finds nothing. *)
Definition or_then (P Q : EmissionFactor.t -> Prop) (f : EmissionFactor.t) : Prop :=
  P f \/ (misses P /\ Q f).

(** The exact look-up in a category, by the activity's unit and preferred
    source. *)
Definition exact (category : string) (fuel_type : option string)
           (f : EmissionFactor.t) : Prop :=
  FactorRegistry.find_factor (BaseScopeCalculator.registry self) category fuel_type
    None (Some (ActivityRecord.unit activity)) (ActivityRecord.factor_source activity)
  = Some f.

(** The top hit of a free-text search. *)
Definition top_hit (query : string) (source : option FactorSource)
           (category activity_unit : option string) (f : EmissionFactor.t) : Prop :=
  exists rest,
    FactorRegistry.search (BaseScopeCalculator.registry self) query source category
                          None None None activity_unit None 1
    = f :: rest.

(** Section 4.4: the fuel key, from the enum value or the free text. *)
Definition fuel : option string :=
  match ActivityRecord.fuel_type activity with
  | Some fuel_type => Some (FuelType_value fuel_type)
  | None => ActivityRecord.custom_fuel activity
  end.

Definition stationary_factor (f : EmissionFactor.t) : Prop :=
  stated fuel /\ exact "stationary_combustion" fuel f.

(** Mobile: a vehicle type or a fuel key must be given; both attempts are
    the same look-up. *)
Definition mobile_factor (f : EmissionFactor.t) : Prop :=
  (stated (ActivityRecord.vehicle_type activity) \/ stated fuel)
  /\ exact "mobile_combustion" fuel f.

Definition process_factor (f : EmissionFactor.t) : Prop :=
  exact "process_emissions" None f.

(** Section 4.5 (c): no refrigerant type, a factor with a co2e_factor. *)
Definition fugitive_factor (f : EmissionFactor.t) : Prop :=
  ActivityRecord.refrigerant_type activity = None
  /\ exact "fugitive_emissions" None f
  /\ EmissionFactor.co2e_factor f <> None.

(** Section 4.5 (b): the GWP of the lower-cased refrigerant in the table,
    or, when the table does not know it, the co2e_factor of the top hit
    of a search for it among the fugitive factors. *)
Definition refrigerant_gwp (refrigerant : string) (gwp : float) : Prop :=
  let table :=
    get_gwp (GasStr (PyStr.lower refrigerant))
            (BaseScopeCalculator.gwp_assessment self) in
  table = Ok gwp
  \/ ((forall v, table <> Ok v)
      /\ exists f, top_hit refrigerant None (Some "fugitive_emissions") None f
                   /\ EmissionFactor.co2e_factor f = Some gwp).

(** Section 4.6: an electricity factor per kWh for a region and source. *)
Definition grid (region : option string) (source : option FactorSource)
           (f : EmissionFactor.t) : Prop :=
  FactorRegistry.find_factor (BaseScopeCalculator.registry self) "electricity" None
    region (Some "kWh") source
  = Some f.

Definition by_subregion (f : EmissionFactor.t) : Prop :=
  stated (ActivityRecord.grid_subregion activity)
  /\ grid (ActivityRecord.grid_subregion activity) (Some EGRID) f.

Definition by_country (f : EmissionFactor.t) : Prop :=
  stated (ActivityRecord.country activity)
  /\ grid (ActivityRecord.country activity) (Some EMBER) f.

Definition us_average (f : EmissionFactor.t) : Prop := grid (Some "US") None f.

(** Subregion, then country, then the US average. *)
Definition location_factor : EmissionFactor.t -> Prop :=
  or_then by_subregion (or_then by_country us_average).

(** The region of the preferred source: the subregion if given, the
    country if not. *)
Definition preferred_region : option string :=
  match ActivityRecord.grid_subregion activity with
  | None | Some EmptyString => ActivityRecord.country activity
  | Some subregion => Some subregion
  end.

Definition by_preference (f : EmissionFactor.t) : Prop :=
  exists source,
    ActivityRecord.factor_source activity = Some source
    /\ grid preferred_region (Some source) f.

(** The preferred source, then the location-based factor. *)
Definition market_factor : EmissionFactor.t -> Prop :=
  or_then by_preference location_factor.

(** Section 4.7 (2): USEEIO by NAICS code, USEEIO by free text, EXIOBASE
    by free text. *)
Definition naics_text : string := given (ActivityRecord.naics_code activity) "".

Definition by_naics (f : EmissionFactor.t) : Prop :=
  stated (ActivityRecord.naics_code activity)
  /\ FactorRegistry.find_factor (BaseScopeCalculator.registry self) "spend_based"
       (ActivityRecord.naics_code activity) None None (Some USEEIO)
     = Some f.

Definition by_naics_text (f : EmissionFactor.t) : Prop :=
  stated (ActivityRecord.naics_code activity)
  /\ top_hit naics_text (Some USEEIO) None None f.

Definition by_exiobase (f : EmissionFactor.t) : Prop :=
  top_hit naics_text (Some EXIOBASE) None None f.

Definition spend_factor : EmissionFactor.t -> Prop :=
  or_then by_naics (or_then by_naics_text by_exiobase).

(** Section 4.7 (3): the mapped category with the mode and the distance
    unit, then a free-text search for category and mode. *)
Definition transport_name : string := mapped "transport".

(** The transport mode, else the vehicle type, else "average". *)
Definition mode : string :=
  given (ActivityRecord.transport_mode activity)
        (given (ActivityRecord.vehicle_type activity) "average").

Definition by_mode (f : EmissionFactor.t) : Prop :=
  FactorRegistry.find_factor (BaseScopeCalculator.registry self) transport_name
    (Some mode) None
    (Some (given (ActivityRecord.distance_unit activity) "km")) None
  = Some f.

Definition by_mode_text (f : EmissionFactor.t) : Prop :=
  top_hit (transport_name ++ " " ++ mode)%string None None None f.

Definition distance_factor : EmissionFactor.t -> Prop :=
  or_then by_mode by_mode_text.

(** Section 4.7 (4): the key of waste type and disposal method, then a
    free-text search. *)
Definition waste_kind : string := given (ActivityRecord.waste_type activity) "mixed".

Definition disposal : string :=
  given (ActivityRecord.disposal_method activity) "landfill".

Definition by_waste_key (f : EmissionFactor.t) : Prop :=
  FactorRegistry.find_factor (BaseScopeCalculator.registry self) "waste"
    (Some (waste_kind ++ "_" ++ disposal)%string) None None None
  = Some f.

Definition by_waste_text (f : EmissionFactor.t) : Prop :=
  top_hit ("waste " ++ waste_kind ++ " " ++ disposal)%string None None None f.

Definition waste_factor : EmissionFactor.t -> Prop :=
  or_then by_waste_key by_waste_text.

(** Section 4.7 (5): the mapped category and the unit, then a free-text
    search for the category among the factors of that unit. *)
Definition category_text : string := mapped "".

Definition by_category (f : EmissionFactor.t) : Prop := exact category_text None f.

Definition by_category_text (f : EmissionFactor.t) : Prop :=
  top_hit category_text None None (Some (ActivityRecord.unit activity)) f.

Definition generic_factor : EmissionFactor.t -> Prop :=
  or_then by_category by_category_text.

(** The categories of the distance-based path. *)
Definition travels (category : Scope3Category) : Prop :=
  In category [UPSTREAM_TRANSPORT; DOWNSTREAM_TRANSPORT; BUSINESS_TRAVEL;
               EMPLOYEE_COMMUTING].

(** Section 4.7, the dispatch: spend, distance, waste, generic; the first
    that applies. *)
Definition scope3_factor (f : EmissionFactor.t) : Prop :=
  exists category,
    ActivityRecord.scope3_category activity = Some category
    /\ let by_distance :=
         ActivityRecord.distance activity <> None /\ travels category in
       (ActivityRecord.spend_amount activity <> None /\ spend_factor f)
       \/ (ActivityRecord.spend_amount activity = None
           /\ by_distance /\ distance_factor f)
       \/ (ActivityRecord.spend_amount activity = None
           /\ ~ by_distance /\ category = WASTE /\ waste_factor f)
       \/ (ActivityRecord.spend_amount activity = None
           /\ ~ by_distance /\ category <> WASTE /\ generic_factor f).

(** The quantity in kg: as declared when the unit is kg, converted when
    it is not. *)
Definition in_kg (quantity : float) : Prop :=
  let unit := ActivityRecord.unit activity in
  (PyStr.lower unit = "kg" /\ quantity = ActivityRecord.quantity activity)
  \/ (PyStr.lower unit <> "kg"
      /\ convert (ActivityRecord.quantity activity) unit "kg" = Some quantity).

Definition in_kwh (quantity : float) : Prop :=
  let unit := ActivityRecord.unit activity in
  ((PyStr.lower unit = "kwh" \/ PyStr.lower unit = "kilowatt_hour")
   /\ quantity = ActivityRecord.quantity activity)
  \/ (PyStr.lower unit <> "kwh" /\ PyStr.lower unit <> "kilowatt_hour"
      /\ convert (ActivityRecord.quantity activity) unit "kWh" = Some quantity).

(** A result names the factor it was computed with. *)
Definition names (r : EmissionResult.t) (f : EmissionFactor.t) : Prop :=
  EmissionResult.factor_id r = Some (EmissionFactor.id f)
  /\ EmissionResult.factor_source r = Some (EmissionFactor.source f).

(** A result that stands on a factor its chain resolved. *)
Definition on_factor (resolves : EmissionFactor.t -> Prop) (r : EmissionResult.t)
  : Prop :=
  ActivityRecord.custom_factor activity = None
  /\ exists f, resolves f /\ names r f.

(** A result that stands on the custom factor: the quantity times it. *)
Definition on_custom (r : EmissionResult.t) : Prop :=
  exists custom_factor,
    ActivityRecord.custom_factor activity = Some custom_factor
    /\ EmissionResult.factor_id r = None
    /\ EmissionResult.total_co2e_kg r
       = (ActivityRecord.quantity activity * custom_factor)%float.

(** The same in the electricity calculator: the quantity in kWh times it. *)
Definition on_custom_kwh (r : EmissionResult.t) : Prop :=
  exists custom_factor quantity,
    ActivityRecord.custom_factor activity = Some custom_factor
    /\ in_kwh quantity
    /\ EmissionResult.factor_id r = None
    /\ EmissionResult.total_co2e_kg r = (quantity * custom_factor)%float.

(** A result that stands on the GWP of the refrigerant: the quantity in
    kg times it. *)
Definition on_refrigerant (r : EmissionResult.t) : Prop :=
  ActivityRecord.custom_factor activity = None
  /\ exists refrigerant gwp quantity,
      ActivityRecord.refrigerant_type activity = Some refrigerant
      /\ refrigerant_gwp refrigerant gwp
      /\ in_kg quantity
      /\ EmissionResult.factor_id r = None
      /\ EmissionResult.total_co2e_kg r = (quantity * gwp)%float.

(** An error of the no-matching-factor kind, raised when there is no
    custom factor and the chain resolves nothing. *)
Definition no_factor (resolves : EmissionFactor.t -> Prop) (e : Error) : Prop :=
  error_kind e = KNoMatchingFactor
  /\ ActivityRecord.custom_factor activity = None
  /\ misses resolves.

(** The same for a refrigerant neither the table nor the registry knows. *)
Definition no_gwp (e : Error) : Prop :=
  error_kind e = KNoMatchingFactor
  /\ ActivityRecord.custom_factor activity = None
  /\ exists refrigerant,
      ActivityRecord.refrigerant_type activity = Some refrigerant
      /\ forall gwp, ~ refrigerant_gwp refrigerant gwp.

(** An error of the unit-conversion kind: the activity's quantity could
    not be converted to [to_unit]. *)
Definition no_conversion (to_unit : string) (e : Error) : Prop :=
  error_kind e = KUnitConversionError
  /\ e = CannotConvert (ActivityRecord.unit activity) to_unit
  /\ PyStr.lower (ActivityRecord.unit activity) <> PyStr.lower to_unit
  /\ convert (ActivityRecord.quantity activity) (ActivityRecord.unit activity)
             to_unit = None.

(** An error of the validation kind: a Scope 3 activity without custom
    factor and without category. *)
Definition no_category (e : Error) : Prop :=
  error_kind e = KValidationError
  /\ ActivityRecord.custom_factor activity = None
  /\ ActivityRecord.scope3_category activity = None.

(** How a calculator ends: with at least one result, each of them
    [good], or with an error that is [bad]. *)
Definition ends (good : EmissionResult.t -> Prop) (bad : Error -> Prop)
           (o : Outcome) : Prop :=
  match o with
  | Ok results => results <> [] /\ Forall good results
  | Err e => bad e
  end.

(** Stationary, mobile and process: a result on the custom factor or on
    the factor of the chain; an error when the chain resolves nothing. *)
Definition stationary_ends : Outcome -> Prop :=
  ends (fun r => on_custom r \/ on_factor stationary_factor r)
       (no_factor stationary_factor).

Definition mobile_ends : Outcome -> Prop :=
  ends (fun r => on_custom r \/ on_factor mobile_factor r)
       (no_factor mobile_factor).

Definition process_ends : Outcome -> Prop :=
  ends (fun r => on_custom r \/ on_factor process_factor r)
       (no_factor process_factor).

(** Fugitive: also a result on the refrigerant's GWP; also an error when
    the quantity cannot be converted to kg. *)
Definition fugitive_ends : Outcome -> Prop :=
  ends (fun r => on_custom r \/ on_factor fugitive_factor r \/ on_refrigerant r)
       (fun e =>
          (ActivityRecord.refrigerant_type activity = None
           /\ no_factor fugitive_factor e)
          \/ no_gwp e
          \/ (ActivityRecord.custom_factor activity = None /\ no_conversion "kg" e)).

(** Electricity: each result is the location-based one on the location
    chain or the market-based one on the market chain; an error when the
    quantity cannot be converted to kWh, or when both chains resolve
    nothing. *)
Definition electricity_ends : Outcome -> Prop :=
  ends (fun r =>
          on_custom_kwh r
          \/ (EmissionResult.scope2_method r = Some LOCATION_BASED
              /\ on_factor location_factor r)
          \/ (EmissionResult.scope2_method r = Some MARKET_BASED
              /\ on_factor market_factor r))
       (fun e =>
          no_conversion "kWh" e
          \/ (no_factor location_factor e /\ misses market_factor)).

(** Scope 3: an error of the validation kind without category. *)
Definition scope3_ends : Outcome -> Prop :=
  ends (fun r => on_custom r \/ on_factor scope3_factor r)
       (fun e =>
          no_category e
          \/ (ActivityRecord.scope3_category activity <> None
              /\ no_factor scope3_factor e)).

End OfActivity.
End Resolution.

(* ================================================================== *)
(** * Properties *)

(** ** Strings and floats *)

Lemma Scope_eqb_eq a b : Scope_eqb a b = true <-> a = b.
Proof. destruct a, b; simpl; split; congruence. Qed.

Lemma FactorSource_eqb_eq a b : FactorSource_eqb a b = true <-> a = b.
Proof. destruct a, b; simpl; split; congruence. Qed.

(** A float the validators accepted as positive is truthy. *)
Lemma positive_truthy (x : float) :
  PrimFloat.ltb 0%float x = true -> float_truthy x = true.
Proof.
  unfold float_truthy. rewrite FloatAxioms.ltb_spec, FloatAxioms.eqb_spec.
  change (Prim2SF 0%float) with (S754_zero false).
  unfold SFltb, SFeqb.
  destruct (Prim2SF x) as [s | s | | s m e]; simpl; try discriminate; try reflexivity.
  all: destruct s; simpl; try discriminate; reflexivity.
Qed.

(* ================================================================== *)
(** ** The GWP table *)

Lemma dict_get_None {V} (table : list (string * V)) key :
  dict_get table key = None <-> ~ In key (dict_keys table).
Proof.
  induction table as [| [k v] rest IH]; simpl.
  - tauto.
  - destruct (String.eqb_spec k key) as [-> | Hne].
    + split; [discriminate | intros H; exfalso; apply H; now left].
    + rewrite IH. split.
      * intros H [Heq | Hin]; [now apply Hne | now apply H].
      * intros H Hin. apply H. now right.
Qed.

Lemma GasType_value_lower g : PyStr.lower (GasType_value g) = GasType_value g.
Proof. destruct g; reflexivity. Qed.

Lemma gas_key_lower gas : gas_key gas = PyStr.lower (gas_text gas).
Proof. destruct gas; simpl; [now rewrite GasType_value_lower | reflexivity]. Qed.

(** C6: for every gas identifier and assessment, [get_gwp] returns 1.0
    when the lower-cased identifier is "co2e", whatever the assessment and
    the tables hold; and it fails, with an unknown-gas error, exactly when
    the lower-cased identifier is neither "co2e" nor a key of the selected
    assessment's table. *)
Theorem get_gwp_contract (gas : GasId) (assessment : GWPAssessment) :
  let key := PyStr.lower (gas_text gas) in
  (key = "co2e" -> get_gwp gas assessment = Ok 1.0%float)
  /\ ((exists e, get_gwp gas assessment = Err e)
      <-> key <> "co2e" /\ ~ In key (dict_keys (_GWP_TABLES assessment)))
  /\ (forall e, get_gwp gas assessment = Err e -> error_kind e = KUnknownGas).
Proof.
  intros key. subst key. rewrite <- gas_key_lower. unfold get_gwp.
  destruct (String.eqb_spec (gas_key gas) "co2e") as [Heq | Hne].
  - split; [reflexivity |]. split.
    + split; [intros [e He]; discriminate | intros [H _]; contradiction].
    + intros e He. discriminate.
  - destruct (dict_get (_GWP_TABLES assessment) (gas_key gas)) as [v |] eqn:Hget.
    + split; [intros H; contradiction |]. split.
      * split; [intros [e He]; discriminate |].
        intros [_ Hnot]. apply dict_get_None in Hnot. congruence.
      * intros e He. discriminate.
    + apply dict_get_None in Hget.
      split; [intros H; contradiction |]. split.
      * split; [intros _; now split | intros _; eexists; reflexivity].
      * intros e He. injection He as <-. reflexivity.
Qed.

(* ================================================================== *)
(** ** Inventory aggregation *)

Lemma sum_co2e_snoc results r :
  sum_co2e (results ++ [r])
  = (sum_co2e results + EmissionResult.total_co2e_kg r)%float.
Proof. unfold sum_co2e. now rewrite fold_left_app. Qed.

Lemma bucket_add_consistent b r :
  bucket_consistent b -> bucket_consistent (ScopeResult.add_result b r).
Proof.
  unfold bucket_consistent. intros H. simpl.
  now rewrite sum_co2e_snoc, H.
Qed.

Lemma fresh_bucket_consistent s : bucket_consistent (ScopeResult.fresh s).
Proof. reflexivity. Qed.

Lemma add_result_consistent inv r :
  inventory_consistent inv -> inventory_consistent (InventoryResult.add_result inv r).
Proof.
  intros (H1 & H2 & H3 & H4). unfold InventoryResult.add_result.
  destruct (EmissionResult.scope r);
    [| destruct (InventoryResult.is_market (EmissionResult.scope2_method r)) |];
    repeat split; simpl; auto using bucket_add_consistent.
Qed.

Lemma add_results_consistent rs : forall inv,
  inventory_consistent inv -> inventory_consistent (InventoryResult.add_results inv rs).
Proof.
  unfold InventoryResult.add_results.
  induction rs as [| r rs IH]; intros inv H; simpl; [assumption |].
  apply IH. now apply add_result_consistent.
Qed.

(** Where [add_result] puts a result: at the end of exactly one bucket. *)
Lemma add_result_buckets inv r :
  let inv' := InventoryResult.add_result inv r in
  let held := fun b i => ScopeResult.results (b i) in
  let put := fun (p : EmissionResult.t -> bool) => if p r then [r] else [] in
  held InventoryResult.scope1 inv'
  = held InventoryResult.scope1 inv ++ put (in_scope SCOPE_1)
  /\ held InventoryResult.scope2_location inv'
     = held InventoryResult.scope2_location inv ++ put is_location_result
  /\ held InventoryResult.scope2_market inv'
     = held InventoryResult.scope2_market inv ++ put is_market_result
  /\ held InventoryResult.scope3 inv'
     = held InventoryResult.scope3 inv ++ put (in_scope SCOPE_3).
Proof.
  unfold InventoryResult.add_result, is_location_result, is_market_result, in_scope.
  destruct (EmissionResult.scope r); simpl;
    [| destruct (InventoryResult.is_market (EmissionResult.scope2_method r)) |];
    simpl; rewrite ?app_nil_r; auto.
Qed.

Lemma add_results_buckets rs : forall inv,
  let inv' := InventoryResult.add_results inv rs in
  let held := fun b i => ScopeResult.results (b i) in
  held InventoryResult.scope1 inv'
  = held InventoryResult.scope1 inv ++ filter (in_scope SCOPE_1) rs
  /\ held InventoryResult.scope2_location inv'
     = held InventoryResult.scope2_location inv ++ filter is_location_result rs
  /\ held InventoryResult.scope2_market inv'
     = held InventoryResult.scope2_market inv ++ filter is_market_result rs
  /\ held InventoryResult.scope3 inv'
     = held InventoryResult.scope3 inv ++ filter (in_scope SCOPE_3) rs.
Proof.
  unfold InventoryResult.add_results.
  induction rs as [| r rs IH]; intros inv; simpl.
  - now rewrite !app_nil_r.
  - destruct (IH (InventoryResult.add_result inv r)) as (E1 & E2 & E3 & E4).
    destruct (add_result_buckets inv r) as (A1 & A2 & A3 & A4). simpl in *.
    rewrite E1, E2, E3, E4, A1, A2, A3, A4.
    destruct (in_scope SCOPE_1 r), (is_location_result r), (is_market_result r),
      (in_scope SCOPE_3 r); simpl; rewrite <- ?app_assoc; simpl; auto.
Qed.

(** C7: in the inventory built from a fresh one by any sequence of
    [add_result] calls, every bucket's total is the sum of the totals of
    the results it holds (the Scope 1 results, the Scope 2 results not
    tagged market-based, the Scope 2 results tagged market-based, the
    Scope 3 results, each in the order they came), and the headline total
    is the Scope 1 sum plus the location-based Scope 2 sum plus the
    Scope 3 sum: the market-based bucket does not enter it. *)
Theorem inventory_totals (name : string) (year : option Z)
        (rs : list EmissionResult.t) :
  let inv := InventoryResult.add_results (InventoryResult.fresh name year) rs in
  let total := fun b => ScopeResult.total_co2e_kg (b inv) in
  let held := fun b => ScopeResult.results (b inv) in
  (total InventoryResult.scope1 = sum_co2e (held InventoryResult.scope1)
   /\ total InventoryResult.scope2_location
      = sum_co2e (held InventoryResult.scope2_location)
   /\ total InventoryResult.scope2_market
      = sum_co2e (held InventoryResult.scope2_market)
   /\ total InventoryResult.scope3 = sum_co2e (held InventoryResult.scope3))
  /\ (held InventoryResult.scope1 = filter (in_scope SCOPE_1) rs
      /\ held InventoryResult.scope2_location = filter is_location_result rs
      /\ held InventoryResult.scope2_market = filter is_market_result rs
      /\ held InventoryResult.scope3 = filter (in_scope SCOPE_3) rs)
  /\ InventoryResult.total_co2e_kg inv
     = (total InventoryResult.scope1 + total InventoryResult.scope2_location
        + total InventoryResult.scope3)%float
  /\ InventoryResult.total_co2e_kg inv
     = (sum_co2e (filter (in_scope SCOPE_1) rs)
        + sum_co2e (filter is_location_result rs)
        + sum_co2e (filter (in_scope SCOPE_3) rs))%float.
Proof.
  intros inv total held. subst total held.
  assert (Hc : inventory_consistent inv).
  { apply add_results_consistent. repeat split; apply fresh_bucket_consistent. }
  destruct (add_results_buckets rs (InventoryResult.fresh name year))
    as (E1 & E2 & E3 & E4).
  simpl in E1, E2, E3, E4. fold inv in E1, E2, E3, E4.
  destruct Hc as (H1 & H2 & H3 & H4). unfold bucket_consistent in *.
  repeat split; try assumption.
  unfold InventoryResult.total_co2e_kg. now rewrite H1, H2, H4, E1, E2, E4.
Qed.

(** C8: [add_result] puts a Scope 2 result into the market-based bucket
    when its [scope2_method] is market-based, and into the location-based
    bucket in every other case, the unset method included; the other
    three buckets stay as they are. *)
Theorem scope2_routing (inv : InventoryResult.t) (r : EmissionResult.t) :
  EmissionResult.scope r = SCOPE_2 ->
  let inv' := InventoryResult.add_result inv r in
  InventoryResult.scope1 inv' = InventoryResult.scope1 inv
  /\ InventoryResult.scope3 inv' = InventoryResult.scope3 inv
  /\ ((EmissionResult.scope2_method r = Some MARKET_BASED
       /\ InventoryResult.scope2_market inv'
          = ScopeResult.add_result (InventoryResult.scope2_market inv) r
       /\ InventoryResult.scope2_location inv' = InventoryResult.scope2_location inv)
      \/ (EmissionResult.scope2_method r <> Some MARKET_BASED
          /\ InventoryResult.scope2_location inv'
             = ScopeResult.add_result (InventoryResult.scope2_location inv) r
          /\ InventoryResult.scope2_market inv' = InventoryResult.scope2_market inv)).
Proof.
  intros Hs inv'. subst inv'. unfold InventoryResult.add_result. rewrite Hs.
  destruct (EmissionResult.scope2_method r) as [[|] |]; simpl;
    repeat split; auto; right; repeat split; congruence.
Qed.

(** A Scope 2 result with no method set goes to the location-based bucket. *)
Lemma scope2_routing_witness :
  let inv := InventoryResult.fresh "GHG Inventory" None in
  let r := Samples.result_of SCOPE_2 None 12.5%float in
  EmissionResult.scope r = SCOPE_2
  /\ ScopeResult.results
       (InventoryResult.scope2_location (InventoryResult.add_result inv r)) = [r]
  /\ ScopeResult.results
       (InventoryResult.scope2_market (InventoryResult.add_result inv r)) = [].
Proof.
  intros inv r. split; [reflexivity |].
  destruct (scope2_routing inv r eq_refl) as (_ & _ & [(Hm & _) | (_ & Hl & Hk)]).
  - discriminate Hm.
  - rewrite Hl, Hk. split; reflexivity.
Defined.

(* ================================================================== *)
(** ** Registry search: the unfiltered, unranked cases *)

Lemma rank_empty_query results : FactorRegistry.rank "" results = results.
Proof. reflexivity. Qed.

(** A search by source alone, without free text and with [limit=1]: the
    first factor of that source. *)
Lemma search_source_only registry source :
  FactorRegistry.search registry "" (Some source) None None None None None None 1
  = firstn 1 (filter (FactorRegistry.source_is source)
                     (FactorRegistry._factors registry)).
Proof. reflexivity. Qed.

(* ================================================================== *)
(** ** Scope 3, spend-based *)

(** C10: a Scope 3 activity with a spend amount and no NAICS code skips
    both USEEIO lookups; its factor is the first hit of the search
    restricted to source EXIOBASE with the empty query, that is the first
    EXIOBASE factor of the registry.  With such a factor the path returns
    one result whose total is the spend amount times the factor's
    [co2e_factor], or its [co2_factor] when it has no [co2e_factor]; it
    raises the no-matching-factor error only when the registry holds no
    EXIOBASE factor.  [calculate] takes this path for every activity
    without custom factor whose category is set. *)
Theorem spend_without_naics (convert : Converter) (self : BaseScopeCalculator.t)
        (activity : ActivityRecord.t) (s : float) :
  ActivityRecord.custom_factor activity = None ->
  ActivityRecord.spend_amount activity = Some s ->
  PrimFloat.ltb 0%float s = true ->
  ActivityRecord.naics_code activity = None ->
  let registry := BaseScopeCalculator.registry self in
  let exiobase :=
    filter (FactorRegistry.source_is EXIOBASE) (FactorRegistry._factors registry) in
  Scope3Calculator.resolve_spend self activity
  = Scope3Calculator.first_hit
      (FactorRegistry.search registry "" (Some EXIOBASE)
                             None None None None None None 1)
  /\ match exiobase with
     | [] => Scope3Calculator._calculate_spend_based self activity = Err NoFactorSpend
     | factor :: _ =>
         exists r,
           Scope3Calculator._calculate_spend_based self activity = Ok [r]
           /\ EmissionResult.factor_id r = Some (EmissionFactor.id factor)
           /\ EmissionResult.total_co2e_kg r
              = match EmissionFactor.co2e_factor factor with
                | Some co2e_factor => (s * co2e_factor)%float
                | None => (s * EmissionFactor.co2_factor factor)%float
                end
     end
  /\ (forall category,
        ActivityRecord.scope3_category activity = Some category ->
        Scope3Calculator.calculate convert self activity
        = Scope3Calculator._calculate_spend_based self activity).
Proof.
  intros Hcustom Hspend Hpos Hnaics registry exiobase.
  assert (Hres : Scope3Calculator.resolve_spend self activity
                 = Scope3Calculator.first_hit
                     (FactorRegistry.search registry "" (Some EXIOBASE)
                        None None None None None None 1)).
  { unfold Scope3Calculator.resolve_spend. rewrite Hnaics. reflexivity. }
  split; [exact Hres |]. split.
  - unfold Scope3Calculator._calculate_spend_based. rewrite Hres.
    rewrite search_source_only. fold exiobase.
    destruct exiobase as [| factor rest]; simpl; [reflexivity |].
    eexists. split; [reflexivity |]. split; [reflexivity |]. simpl.
    unfold Scope3Calculator.spend_of, Engine.co2e_or_co2.
    rewrite Hspend, (positive_truthy s Hpos).
    now destruct (EmissionFactor.co2e_factor factor).
  - intros category Hcat. unfold Scope3Calculator.calculate.
    now rewrite Hcustom, Hcat, Hspend.
Qed.

(** A purchase of 1000 USD without NAICS code, against a registry whose
    first EXIOBASE factor carries 0.5 kg CO2e per USD: 500 kg. *)
Lemma spend_without_naics_witness :
  let self := Samples.calculator [Samples.useeio_a; Samples.exio_a; Samples.exio_b] in
  let activity :=
    Samples.activity SCOPE_3 (Some PURCHASED_GOODS_SERVICES) 1%float "USD"
                     None None None (Some 1000%float) None None None None None in
  exists r,
    Scope3Calculator.calculate Samples.table_convert self activity = Ok [r]
    /\ EmissionResult.factor_id r = Some "exio_a"
    /\ EmissionResult.total_co2e_kg r = 500%float.
Proof.
  intros self activity.
  destruct (spend_without_naics Samples.table_convert self activity 1000%float
              eq_refl eq_refl eq_refl eq_refl) as (_ & (r & Hr & Hid & Htot) & Hcalc).
  exists r. rewrite (Hcalc PURCHASED_GOODS_SERVICES eq_refl).
  split; [exact Hr |]. split; [exact Hid |]. rewrite Htot. reflexivity.
Defined.

(* ================================================================== *)
(** ** Registry search: scoring and ranking *)

Lemma prefix_app (s1 s2 : string) :
  String.prefix s1 s2 = true <-> exists rest, s2 = (s1 ++ rest)%string.
Proof.
  revert s2. induction s1 as [| c s1 IH]; intros [| c' s2]; simpl.
  - split; [intros _; now exists ""%string | reflexivity].
  - split; [intros _; now exists (String c' s2) | reflexivity].
  - split; [discriminate | intros [rest H]; discriminate].
  - destruct (Ascii.ascii_dec c c') as [-> | Hne].
    + rewrite IH. split; intros [rest H]; exists rest; congruence.
    + split; [discriminate | intros [rest H]; congruence].
Qed.

Lemma contains_unfold (needle hay : string) :
  PyStr.contains needle hay
  = if String.prefix needle hay then true
    else match hay with
         | EmptyString => false
         | String _ hay' => PyStr.contains needle hay'
         end.
Proof. destruct hay; reflexivity. Qed.

(** Python's [needle in hay] holds exactly when [needle] is a contiguous
    substring of [hay]. *)
Lemma contains_occurs (needle hay : string) :
  PyStr.contains needle hay = true <-> occurs_in needle hay.
Proof.
  unfold occurs_in. split.
  - induction hay as [| c hay IH]; rewrite contains_unfold;
      destruct (String.prefix needle _) eqn:Hp.
    + intros _. apply prefix_app in Hp. destruct Hp as [rest H].
      now exists ""%string, rest.
    + discriminate.
    + intros _. apply prefix_app in Hp. destruct Hp as [rest H].
      now exists ""%string, rest.
    + intros H. destruct (IH H) as (before & after & ->).
      now exists (String c before), after.
  - intros (before & after & ->).
    induction before as [| c before IH]; rewrite contains_unfold.
    + assert (Hp : String.prefix needle (needle ++ after) = true)
        by (apply prefix_app; now exists after).
      change ("" ++ needle ++ after)%string with (needle ++ after)%string.
      now rewrite Hp.
    + change (String c before ++ needle ++ after)%string
        with (String c (before ++ needle ++ after)%string).
      destruct (String.prefix needle (String c (before ++ needle ++ after)));
        [reflexivity | exact IH].
Qed.

Lemma word_points_sum (p : string -> bool) (words : list string) : forall init : Z,
  fold_left (fun score word => if p word then (score + 5)%Z else score) words init
  = (init + 5 * Z.of_nat (List.length (filter p words)))%Z.
Proof.
  induction words as [| w words IH]; intros init; cbn [fold_left filter].
  - cbn [List.length]. lia.
  - rewrite IH. destruct (p w); cbn [List.length]; lia.
Qed.

(** The score the loop accumulates is the sum the specification gives. *)
Lemma score_of_spec query_lower f :
  FactorRegistry.score_of query_lower f = score_spec query_lower f.
Proof.
  unfold FactorRegistry.score_of, score_spec, points.
  rewrite word_points_sum.
  destruct (PyStr.contains query_lower (PyStr.lower (FactorRegistry.searchable f)));
    destruct (PyStr.contains query_lower (PyStr.lower (EmissionFactor.name f)));
    destruct (String.eqb query_lower
                (PyStr.lower (PyStr.or_else (EmissionFactor.fuel_type f) "")));
    lia.
Qed.

Lemma score_spec_nonneg query_lower f : (0 <= score_spec query_lower f)%Z.
Proof.
  unfold score_spec, points.
  destruct (PyStr.contains _ _), (PyStr.contains _ _), (String.eqb _ _); lia.
Qed.

(** [scored] holds the candidates of positive score, in their order. *)
Lemma score_all_filter query_lower results :
  FactorRegistry.score_all query_lower results
  = filter (fun p => (0 <? fst p)%Z)
           (map (fun f => (score_spec query_lower f, f)) results).
Proof.
  induction results as [| f rest IH]; simpl; [reflexivity |].
  rewrite score_of_spec, IH.
  now destruct (0 <? score_spec query_lower f)%Z.
Qed.

Section SortFacts.
Context {A : Type}.
Implicit Types (x : Z * A) (l : list (Z * A)).

Lemma insert_desc_perm x l : Permutation (x :: l) (insert_desc x l).
Proof.
  induction l as [| y l IH]; simpl; [reflexivity |].
  destruct (fst x <? fst y)%Z; [| reflexivity].
  rewrite perm_swap. now apply perm_skip.
Qed.

Lemma sort_desc_perm l : Permutation l (sort_desc l).
Proof.
  induction l as [| x l IH]; simpl; [reflexivity |].
  rewrite <- insert_desc_perm. now apply perm_skip.
Qed.




End SortFacts.


Lemma slice_to_firstn {A} (l : list A) (limit : Z) :
  (0 <= limit)%Z -> slice_to l limit = firstn (Z.to_nat limit) l.
Proof.
  intros H. unfold slice_to. destruct (Z.leb_spec 0 limit); [reflexivity | lia].
Qed.

Lemma truthy_nonempty (s : string) : s <> "" -> PyStr.truthy s = true.
Proof. destruct s; [congruence | reflexivity]. Qed.






















(** "Diesel" against four fuels: the two factors named and keyed diesel
    score 50 each and keep their order, the blend scores 15, natural gas
    scores 0 and is dropped. *)
Example search_diesel :
  map (score_spec "diesel") (FactorRegistry._factors Samples.fuels) = [15; 50; 0; 50]%Z
  /\ FactorRegistry.search Samples.fuels "Diesel" None None None None None None None 50
     = [Samples.diesel_road; Samples.diesel_gallon; Samples.diesel_blend]
  /\ FactorRegistry.search Samples.fuels "Diesel" None None None None None None None 2
     = [Samples.diesel_road; Samples.diesel_gallon].
Proof. repeat split; reflexivity. Qed.



(* ================================================================== *)
(** ** Registry search: the filters *)

Lemma filter_twice {A} (p q : A -> bool) (l : list A) :
  filter q (filter p l) = filter (fun x => p x && q x) l.
Proof.
  induction l as [| x l IH]; simpl; [reflexivity |].
  destruct (p x); simpl; [destruct (q x) |]; now rewrite IH.
Qed.

Lemma filter_all {A} (l : list A) : filter (fun _ => true) l = l.
Proof. induction l as [| x l IH]; simpl; congruence. Qed.

Lemma narrow_filter {C} (crit : option C) keep results :
  FactorRegistry.narrow crit keep results = filter (criterion_holds crit keep) results.
Proof. destruct crit; simpl; [reflexivity | now rewrite filter_all]. Qed.

Lemma narrow_tags_filter tags results :
  FactorRegistry.narrow_tags tags results
  = filter (criterion_holds tags FactorRegistry.tags_subset) results.
Proof.
  destruct tags as [[| t ts] |]; simpl; try reflexivity; now rewrite filter_all.
Qed.

(** The filters of [search] keep the factors that pass every supplied
    criterion, in the order of the collection. *)
Lemma apply_filters_filter registry source category fuel_type region scope
      activity_unit tags :
  FactorRegistry.apply_filters registry source category fuel_type region scope
                               activity_unit tags
  = filter (fun f =>
              criterion_holds source FactorRegistry.source_is f
              && criterion_holds category FactorRegistry.category_is f
              && criterion_holds fuel_type FactorRegistry.fuel_type_is f
              && criterion_holds region FactorRegistry.region_is f
              && criterion_holds scope FactorRegistry.scope_is f
              && criterion_holds activity_unit FactorRegistry.activity_unit_is f
              && criterion_holds tags FactorRegistry.tags_subset f)
           (FactorRegistry._factors registry).
Proof.
  unfold FactorRegistry.apply_filters.
  rewrite narrow_tags_filter, !narrow_filter, !filter_twice.
  apply filter_ext. intros f. now rewrite !andb_assoc.
Qed.

Lemma apply_filters_In registry source category fuel_type region scope
      activity_unit tags f :
  In f (FactorRegistry.apply_filters registry source category fuel_type region
                                     scope activity_unit tags)
  <-> In f (FactorRegistry._factors registry)
      /\ criterion_holds source FactorRegistry.source_is f = true
      /\ criterion_holds category FactorRegistry.category_is f = true
      /\ criterion_holds fuel_type FactorRegistry.fuel_type_is f = true
      /\ criterion_holds region FactorRegistry.region_is f = true
      /\ criterion_holds scope FactorRegistry.scope_is f = true
      /\ criterion_holds activity_unit FactorRegistry.activity_unit_is f = true
      /\ criterion_holds tags FactorRegistry.tags_subset f = true.
Proof.
  rewrite apply_filters_filter, filter_In, !andb_true_iff. tauto.
Qed.

Lemma opt_lower_is_case field w1 w2 :
  PyStr.lower w1 = PyStr.lower w2 ->
  FactorRegistry.opt_lower_is field w1 = FactorRegistry.opt_lower_is field w2.
Proof. intros H. unfold FactorRegistry.opt_lower_is. now rewrite H. Qed.

(** The fuel type, the region and the activity unit are compared without
    regard to case: two searches that differ in the case of these three
    criteria pass the same factors. *)
Lemma apply_filters_case registry source category scope tags
      fuel1 fuel2 region1 region2 unit1 unit2 :
  same_up_to_case fuel1 fuel2 ->
  same_up_to_case region1 region2 ->
  same_up_to_case unit1 unit2 ->
  FactorRegistry.apply_filters registry source category fuel1 region1 scope unit1 tags
  = FactorRegistry.apply_filters registry source category fuel2 region2 scope unit2 tags.
Proof.
  intros Hf Hr Hu. rewrite !apply_filters_filter.
  apply filter_ext. intros f.
  assert (Ef : criterion_holds fuel1 FactorRegistry.fuel_type_is f
               = criterion_holds fuel2 FactorRegistry.fuel_type_is f).
  { destruct fuel1, fuel2; simpl in *; try contradiction; try reflexivity.
    now apply opt_lower_is_case. }
  assert (Er : criterion_holds region1 FactorRegistry.region_is f
               = criterion_holds region2 FactorRegistry.region_is f).
  { destruct region1, region2; simpl in *; try contradiction; try reflexivity.
    now apply opt_lower_is_case. }
  assert (Eu : criterion_holds unit1 FactorRegistry.activity_unit_is f
               = criterion_holds unit2 FactorRegistry.activity_unit_is f).
  { destruct unit1, unit2; simpl in *; try contradiction; try reflexivity.
    unfold FactorRegistry.activity_unit_is. now rewrite Hu. }
  now rewrite Ef, Er, Eu.
Qed.

(** C4, at the input where the code departs from it: the category is
    compared with [==], case and all.  Against two electricity factors,
    the search for category "electricity" returns both and the search
    for "Electricity", which differs in the case of one letter only,
    returns none. *)
Theorem search_category_case :
  let registry := FactorRegistry.mk [Samples.grid_us; Samples.grid_de] in
  same_up_to_case (Some "electricity") (Some "Electricity")
  /\ FactorRegistry.search registry "" None (Some "electricity")
                           None None None None None FactorRegistry.default_limit
     = [Samples.grid_us; Samples.grid_de]
  /\ FactorRegistry.search registry "" None (Some "Electricity")
                           None None None None None FactorRegistry.default_limit
     = [].
Proof. repeat split. Qed.

(* ================================================================== *)
(** ** The calculators: gas breakdown *)

(** CO2, CH4 and N2O are keys of both tables. *)
Lemma get_gwp_core self gas :
  gas = CO2 \/ gas = CH4 \/ gas = N2O ->
  exists gwp, get_gwp (GasEnum gas) (BaseScopeCalculator.gwp_assessment self) = Ok gwp.
Proof.
  destruct (BaseScopeCalculator.gwp_assessment self);
    intros [-> | [-> | ->]]; eexists; reflexivity.
Qed.

Lemma gas_entry_ok self gas mass :
  gas = CO2 \/ gas = CH4 \/ gas = N2O ->
  exists b, BaseScopeCalculator.gas_entry self gas mass = Ok b.
Proof.
  intros Hgas. unfold BaseScopeCalculator.gas_entry, to_co2e.
  destruct (PrimFloat.ltb 0 mass); [| now eexists].
  destruct (get_gwp_core self gas Hgas) as [gwp ->]. simpl. now eexists.
Qed.

(** [_build_gas_breakdown] never raises. *)
Lemma build_gas_breakdown_ok self co2_kg ch4_kg n2o_kg :
  exists b, BaseScopeCalculator._build_gas_breakdown self co2_kg ch4_kg n2o_kg = Ok b.
Proof.
  unfold BaseScopeCalculator._build_gas_breakdown.
  destruct (gas_entry_ok self CO2 co2_kg) as [b1 ->]; [auto |].
  destruct (gas_entry_ok self CH4 ch4_kg) as [b2 ->]; [auto |].
  destruct (gas_entry_ok self N2O n2o_kg) as [b3 ->]; [auto |].
  simpl. now eexists.
Qed.

Lemma per_gas_breakdown_ok self quantity factor :
  exists b, Engine.per_gas_breakdown self quantity factor = Ok b.
Proof. apply build_gas_breakdown_ok. Qed.

(** The worked scenarios of the specification: 10 kg of R-410A under AR5
    is 10 * 2088 kg CO2e, tagged as an F-gas; 100 gallons with custom
    factor 10 is 1000 kg CO2e. *)
Example fugitive_r410a :
  exists r,
    FugitiveEmissionsCalculator.calculate Samples.table_convert
      (Samples.calculator []) Samples.leak = Ok [r]
    /\ EmissionResult.total_co2e_kg r = 20880%float
    /\ map GasBreakdown.gas (EmissionResult.gas_breakdown r) = [HFC].
Proof. eexists. repeat split. Qed.

Example stationary_custom_factor :
  exists r,
    StationaryCombustionCalculator.calculate Samples.table_convert
      (Samples.calculator [])
      (Samples.activity SCOPE_1 None 100%float "gallon" (Some 10%float)
                        None None None None None None None None) = Ok [r]
    /\ EmissionResult.total_co2e_kg r = 1000%float.
Proof. eexists. repeat split. Qed.

(* ================================================================== *)
(** ** The custom factor *)

(** The Scope 1 and Scope 3 calculators look at the custom factor before
    anything else: whatever the registry, the converter, the unit and the
    other fields, the outcome is the one promised. *)
Lemma custom_factor_first (convert : Converter) (self : BaseScopeCalculator.t)
      (activity : ActivityRecord.t) (f : float) :
  ActivityRecord.custom_factor activity = Some f ->
  custom_outcome activity f (StationaryCombustionCalculator.calculate convert self activity)
  /\ custom_outcome activity f (MobileCombustionCalculator.calculate convert self activity)
  /\ custom_outcome activity f (FugitiveEmissionsCalculator.calculate convert self activity)
  /\ custom_outcome activity f (ProcessEmissionsCalculator.calculate self activity)
  /\ custom_outcome activity f (Scope3Calculator.calculate convert self activity).
Proof.
  intros H.
  unfold StationaryCombustionCalculator.calculate, MobileCombustionCalculator.calculate,
    FugitiveEmissionsCalculator.calculate, ProcessEmissionsCalculator.calculate,
    Scope3Calculator.calculate, Scope3Calculator._calculate_custom, custom_outcome.
  rewrite H. repeat split; eexists; repeat split; reflexivity.
Qed.

(** The electricity calculator converts the quantity to kWh before it
    looks at the custom factor: the total is the converted quantity times
    the factor, and a failed conversion ends the calculation. *)
Lemma electricity_custom_factor (convert : Converter) (self : BaseScopeCalculator.t)
      (activity : ActivityRecord.t) (f : float) :
  ActivityRecord.custom_factor activity = Some f ->
  match ElectricityCalculator.quantity_in_kwh convert activity with
  | Err e => ElectricityCalculator.calculate convert self activity = Err e
  | Ok quantity_kwh =>
      exists r,
        ElectricityCalculator.calculate convert self activity = Ok [r]
        /\ EmissionResult.total_co2e_kg r = (quantity_kwh * f)%float
        /\ EmissionResult.gas_breakdown r = []
        /\ EmissionResult.factor_id r = None
        /\ EmissionResult.scope2_method r
           = Some match ActivityRecord.scope2_method activity with
                  | Some m => m
                  | None => LOCATION_BASED
                  end
  end.
Proof.
  intros H. unfold ElectricityCalculator.calculate.
  destruct (ElectricityCalculator.quantity_in_kwh convert activity) as [q | e]; simpl.
  - rewrite H. eexists. repeat split; reflexivity.
  - reflexivity.
Qed.

(** Declared in kWh (in any case of letters) the quantity is not
    converted, and the electricity calculator gives the promised outcome. *)
Lemma electricity_custom_factor_kwh (convert : Converter) (self : BaseScopeCalculator.t)
      (activity : ActivityRecord.t) (f : float) :
  ActivityRecord.custom_factor activity = Some f ->
  PyStr.lower (ActivityRecord.unit activity) = "kwh" ->
  custom_outcome activity f (ElectricityCalculator.calculate convert self activity).
Proof.
  intros H Hu. pose proof (electricity_custom_factor convert self activity f H) as E.
  unfold ElectricityCalculator.quantity_in_kwh in E. rewrite Hu in E. simpl in E.
  destruct E as (r & Hr & Ht & Hb & Hf & _). exists r. auto.
Qed.

(** C1, at the inputs where the code departs from it.  A Scope 2
    activity of 100 gallons with custom factor 10 does not yield
    100 * 10: gallons do not convert to kWh and the calculation raises.
    One of 2 MWh with custom factor 0.5 yields the converted
    2000 kWh * 0.5 = 1000, not 2 * 0.5 = 1. *)
Theorem electricity_custom_factor_unit :
  let self := Samples.calculator [] in
  let gallons :=
    Samples.activity SCOPE_2 None 100%float "gallon" (Some 10%float)
                     None None None None None None None None in
  let megawatt_hours :=
    Samples.activity SCOPE_2 None 2%float "MWh" (Some 0.5%float)
                     None None None None None None None None in
  ElectricityCalculator.calculate Samples.table_convert self gallons
  = Err (CannotConvert "gallon" "kWh")
  /\ (exists r,
        ElectricityCalculator.calculate Samples.table_convert self megawatt_hours
        = Ok [r]
        /\ EmissionResult.total_co2e_kg r = 1000%float
        /\ (ActivityRecord.quantity megawatt_hours * 0.5 = 1)%float).
Proof.
  split; [reflexivity |]. eexists. repeat split.
Qed.

(* ================================================================== *)
(** ** Electricity: one result or two *)

Lemma method_result_some self activity quantity_kwh method notes factor :
  exists r,
    ElectricityCalculator.method_result self activity quantity_kwh method notes
                                        (Some factor) = Ok [r]
    /\ EmissionResult.scope r = SCOPE_2
    /\ EmissionResult.scope2_method r = Some method
    /\ EmissionResult.factor_id r = Some (EmissionFactor.id factor).
Proof.
  unfold ElectricityCalculator.method_result.
  destruct (per_gas_breakdown_ok self quantity_kwh factor) as [b ->]. simpl.
  eexists. repeat split; reflexivity.
Qed.

(** Market-based resolution ends in the location-based one: where a
    location-based factor resolves, a market-based factor resolves too. *)
Lemma market_resolves_with_location self activity location :
  ElectricityCalculator._find_location_factor self activity = Some location ->
  exists market, ElectricityCalculator._find_market_factor self activity = Some market.
Proof.
  intros H. unfold ElectricityCalculator._find_market_factor. rewrite H.
  destruct (ActivityRecord.factor_source activity) as [source |]; [| now eexists].
  destruct (FactorRegistry.find_factor _ _ _ _ _ _); now eexists.
Qed.

(** Without custom factor, once the quantity is in kWh and a
    location-based factor resolves, [calculate] returns exactly two
    results, the location-based one first. *)
Lemma electricity_two_results convert self activity quantity_kwh location :
  ActivityRecord.custom_factor activity = None ->
  ElectricityCalculator.quantity_in_kwh convert activity = Ok quantity_kwh ->
  ElectricityCalculator._find_location_factor self activity = Some location ->
  exists r1 r2,
    ElectricityCalculator.calculate convert self activity = Ok [r1; r2]
    /\ EmissionResult.scope2_method r1 = Some LOCATION_BASED
    /\ EmissionResult.scope2_method r2 = Some MARKET_BASED.
Proof.
  intros Hc Hq Hl. unfold ElectricityCalculator.calculate.
  rewrite Hq, Hc. simpl. rewrite Hl.
  destruct (market_resolves_with_location self activity location Hl) as [market ->].
  destruct (method_result_some self activity quantity_kwh LOCATION_BASED [] location)
    as (r1 & -> & _ & H1 & _).
  destruct (method_result_some self activity quantity_kwh MARKET_BASED
              [NoteMarketProxy] market) as (r2 & -> & _ & H2 & _).
  simpl. now exists r1, r2.
Qed.

(** C2, at the input where the code departs from it.  The registry holds
    one electricity factor, from DEFRA for region "DE"; the activity
    names country "DE" and prefers source DEFRA.  No location-based factor
    resolves (the country is looked up in EMBER only, and there is no US
    factor), the market-based lookup by preferred source finds the DEFRA
    factor, and [calculate] returns a single result, tagged market-based. *)
Theorem electricity_single_market_result :
  let self := Samples.calculator [Samples.grid_de] in
  let activity :=
    Samples.activity SCOPE_2 None 1000%float "kWh" None
                     (Some "DE") (Some DEFRA) None None None None None None in
  ElectricityCalculator._find_location_factor self activity = None
  /\ ElectricityCalculator._find_market_factor self activity = Some Samples.grid_de
  /\ exists r,
      ElectricityCalculator.calculate Samples.table_convert self activity = Ok [r]
      /\ EmissionResult.scope2_method r = Some MARKET_BASED
      /\ EmissionResult.factor_id r = Some "defra_elec_de".
Proof.
  split; [reflexivity |]. split; [reflexivity |].
  eexists. repeat split.
Qed.

(* ================================================================== *)
(** ** Unit conversion failures *)

Lemma find_factor_In registry category fuel_type region activity_unit source f :
  FactorRegistry.find_factor registry category fuel_type region activity_unit source
  = Some f ->
  In f (FactorRegistry.apply_filters registry source (Some category) fuel_type
                                     region None activity_unit None).
Proof.
  unfold FactorRegistry.find_factor, FactorRegistry.search.
  rewrite rank_empty_query.
  destruct (FactorRegistry.apply_filters _ _ _ _ _ _ _ _) as [| g rest]; simpl.
  - discriminate.
  - intros H. injection H as ->. now left.
Qed.

(** A factor found by unit is expressed in that unit, case aside. *)
Lemma find_factor_unit registry category fuel_type region unit source f :
  FactorRegistry.find_factor registry category fuel_type region (Some unit) source
  = Some f ->
  PyStr.lower (EmissionFactor.activity_unit f) = PyStr.lower unit.
Proof.
  intros H. apply find_factor_In, apply_filters_In in H.
  destruct H as (_ & _ & _ & _ & _ & _ & Hu & _).
  now apply String.eqb_eq in Hu.
Qed.

(** The combustion calculators resolve their factor by the activity's
    unit, so the resolved factor never needs a conversion. *)
Lemma combustion_resolved_unit self activity f :
  StationaryCombustionCalculator.resolve self activity = Some f
  \/ MobileCombustionCalculator.resolve self activity = Some f ->
  PyStr.lower (ActivityRecord.unit activity)
  = PyStr.lower (EmissionFactor.activity_unit f).
Proof.
  unfold StationaryCombustionCalculator.resolve, MobileCombustionCalculator.resolve,
    MobileCombustionCalculator.lookup.
  intros [H | H].
  - destruct (PyStr.truthy_opt (Engine.fuel_key activity)); [| discriminate].
    symmetry. eapply find_factor_unit, H.
  - destruct (PyStr.truthy_opt (ActivityRecord.vehicle_type activity)).
    + destruct (FactorRegistry.find_factor _ _ _ _ _ _) as [g |] eqn:Hg.
      * injection H as ->. symmetry. eapply find_factor_unit, Hg.
      * destruct (PyStr.truthy_opt (Engine.fuel_key activity)); congruence.
    + destruct (PyStr.truthy_opt (Engine.fuel_key activity)); [| discriminate].
      symmetry. eapply find_factor_unit, H.
Qed.

(* ================================================================== *)
(** ** The calculators never return an empty list *)

Ltac backed_by :=
  unfold backed; simpl;
  first [ left; discriminate | right; left; congruence | right; right; congruence ].

Ltac by_factor :=
  repeat (apply Forall_cons; [left; congruence |]); apply Forall_nil.

Ltac one_result :=
  simpl; split; [discriminate | constructor; [backed_by | constructor]].

Lemma convert_or_raise_outcome convert activity value from_unit to_unit
      (k : float -> Outcome) :
  (forall v, calculator_outcome convert activity (k v)) ->
  calculator_outcome convert activity
    (bind (Engine.convert_or_raise convert value from_unit to_unit) k).
Proof.
  intros Hk. unfold Engine.convert_or_raise.
  destruct (convert value from_unit to_unit) eqn:Hc; simpl; [apply Hk |].
  now exists value, from_unit, to_unit.
Qed.

Lemma combustion_with_factor_outcome convert self activity cat factor :
  calculator_outcome convert activity
    (Engine.combustion_with_factor convert self activity cat factor).
Proof.
  unfold Engine.combustion_with_factor.
  assert (Hk : forall quantity,
             calculator_outcome convert activity
               (breakdown <- Engine.per_gas_breakdown self quantity factor ;;
                Ok [EmissionResult.mk
                      (ActivityRecord.id activity) (ActivityRecord.name activity)
                      SCOPE_1 (Some cat) None None
                      (BaseScopeCalculator._total_co2e breakdown) breakdown
                      (Some (EmissionFactor.id factor))
                      (Some (EmissionFactor.source factor))
                      (Some (ActivityRecord.quantity activity))
                      (Some (ActivityRecord.unit activity))
                      (BaseScopeCalculator.gwp_assessment self) []])).
  { intros quantity. destruct (per_gas_breakdown_ok self quantity factor) as [b ->].
    one_result. }
  destruct (negb _); [now apply convert_or_raise_outcome | apply Hk].
Qed.

Lemma stationary_outcome convert self activity :
  calculator_outcome convert activity
    (StationaryCombustionCalculator.calculate convert self activity).
Proof.
  unfold StationaryCombustionCalculator.calculate.
  destruct (ActivityRecord.custom_factor activity) eqn:Hc; [one_result |].
  destruct (StationaryCombustionCalculator.resolve self activity);
    [apply combustion_with_factor_outcome | exact I].
Qed.

Lemma mobile_outcome convert self activity :
  calculator_outcome convert activity
    (MobileCombustionCalculator.calculate convert self activity).
Proof.
  unfold MobileCombustionCalculator.calculate.
  destruct (ActivityRecord.custom_factor activity) eqn:Hc; [one_result |].
  destruct (MobileCombustionCalculator.resolve self activity);
    [apply combustion_with_factor_outcome | exact I].
Qed.

Lemma fugitive_outcome convert self activity :
  calculator_outcome convert activity
    (FugitiveEmissionsCalculator.calculate convert self activity).
Proof.
  unfold FugitiveEmissionsCalculator.calculate.
  destruct (ActivityRecord.custom_factor activity) eqn:Hc; [one_result |].
  destruct (ActivityRecord.refrigerant_type activity) as [refrigerant |] eqn:Hr.
  - unfold FugitiveEmissionsCalculator.with_refrigerant,
      FugitiveEmissionsCalculator.quantity_in_kg.
    assert (Hk : forall quantity_kg,
               calculator_outcome convert activity
                 (gwp <- FugitiveEmissionsCalculator.refrigerant_gwp self refrigerant ;;
                  Ok [EmissionResult.mk
                        (ActivityRecord.id activity) (ActivityRecord.name activity)
                        SCOPE_1 (Some FUGITIVE_EMISSIONS) None None
                        (quantity_kg * gwp)%float
                        [GasBreakdown.mk HFC quantity_kg (quantity_kg * gwp)%float gwp
                                         (BaseScopeCalculator.gwp_assessment self)]
                        None None
                        (Some (ActivityRecord.quantity activity))
                        (Some (ActivityRecord.unit activity))
                        (BaseScopeCalculator.gwp_assessment self)
                        [NoteRefrigerant refrigerant gwp]])).
    { intros quantity_kg. unfold FugitiveEmissionsCalculator.refrigerant_gwp.
      destruct (get_gwp _ _); [one_result |].
      destruct (FactorRegistry.search _ _ _ _ _ _ _ _ _ _) as [| f rest];
        [exact I |].
      destruct (EmissionFactor.co2e_factor f); [one_result | exact I]. }
    destruct (negb _); [now apply convert_or_raise_outcome | apply Hk].
  - unfold FugitiveEmissionsCalculator.without_refrigerant,
      FugitiveEmissionsCalculator.quantity_in_kg.
    destruct (FactorRegistry.find_factor _ _ _ _ _ _) as [factor |]; [| exact I].
    destruct (EmissionFactor.co2e_factor factor); [| exact I].
    destruct (negb _); [apply convert_or_raise_outcome; intros v |]; one_result.
Qed.

Lemma process_outcome convert self activity :
  calculator_outcome convert activity
    (ProcessEmissionsCalculator.calculate self activity).
Proof.
  unfold ProcessEmissionsCalculator.calculate.
  destruct (ActivityRecord.custom_factor activity) eqn:Hc; [one_result |].
  destruct (FactorRegistry.find_factor _ _ _ _ _ _) as [factor |]; [| exact I].
  destruct (per_gas_breakdown_ok self (ActivityRecord.quantity activity) factor)
    as [b ->].
  one_result.
Qed.

Lemma electricity_outcome convert self activity :
  calculator_outcome convert activity
    (ElectricityCalculator.calculate convert self activity).
Proof.
  unfold ElectricityCalculator.calculate, ElectricityCalculator.quantity_in_kwh.
  assert (Hk : forall quantity_kwh,
             calculator_outcome convert activity
               (match ActivityRecord.custom_factor activity with
                | Some custom_factor =>
                    Ok [EmissionResult.mk
                          (ActivityRecord.id activity) (ActivityRecord.name activity)
                          SCOPE_2 None
                          (Some match ActivityRecord.scope2_method activity with
                                | Some m => m
                                | None => LOCATION_BASED
                                end) None
                          (quantity_kwh * custom_factor)%float [] None None
                          (Some (ActivityRecord.quantity activity))
                          (Some (ActivityRecord.unit activity))
                          (BaseScopeCalculator.gwp_assessment self) [NoteCustomFactor]]
                | None =>
                    location <- ElectricityCalculator.method_result self activity
                                  quantity_kwh LOCATION_BASED []
                                  (ElectricityCalculator._find_location_factor
                                     self activity) ;;
                    market <- ElectricityCalculator.method_result self activity
                                quantity_kwh MARKET_BASED [NoteMarketProxy]
                                (ElectricityCalculator._find_market_factor
                                   self activity) ;;
                    match location ++ market with
                    | [] => Err NoFactorElectricity
                    | _ => Ok (location ++ market)
                    end
                end)).
  { intros quantity_kwh.
    destruct (ActivityRecord.custom_factor activity) eqn:Hc; [one_result |].
    destruct (ElectricityCalculator._find_location_factor self activity)
      as [location |];
      destruct (ElectricityCalculator._find_market_factor self activity)
        as [market |].
    - destruct (method_result_some self activity quantity_kwh LOCATION_BASED []
                  location) as (r1 & -> & _ & _ & H1).
      destruct (method_result_some self activity quantity_kwh MARKET_BASED
                  [NoteMarketProxy] market) as (r2 & -> & _ & _ & H2).
      simpl. split; [discriminate |]. by_factor.
    - destruct (method_result_some self activity quantity_kwh LOCATION_BASED []
                  location) as (r1 & -> & _ & _ & H1).
      simpl. split; [discriminate |]. by_factor.
    - destruct (method_result_some self activity quantity_kwh MARKET_BASED
                  [NoteMarketProxy] market) as (r2 & -> & _ & _ & H2).
      simpl. split; [discriminate |]. by_factor.
    - exact I. }
  destruct (negb _); [now apply convert_or_raise_outcome | apply Hk].
Qed.

Lemma scope3_outcome convert self activity :
  calculator_outcome convert activity
    (Scope3Calculator.calculate convert self activity).
Proof.
  assert (Hwaste : calculator_outcome convert activity
                     (Scope3Calculator._calculate_waste self activity)).
  { unfold Scope3Calculator._calculate_waste.
    destruct (FactorRegistry.find_factor _ _ _ _ _ _); [one_result |].
    destruct (Scope3Calculator.first_hit _); [one_result | exact I]. }
  assert (Hact : calculator_outcome convert activity
                   (Scope3Calculator._calculate_activity_based self activity)).
  { unfold Scope3Calculator._calculate_activity_based.
    destruct (FactorRegistry.find_factor _ _ _ _ _ _) as [factor |].
    - destruct (per_gas_breakdown_ok self (ActivityRecord.quantity activity) factor)
        as [b ->].
      one_result.
    - destruct (Scope3Calculator.first_hit _) as [factor |]; [| exact I].
      destruct (per_gas_breakdown_ok self (ActivityRecord.quantity activity) factor)
        as [b ->].
      one_result. }
  unfold Scope3Calculator.calculate.
  destruct (ActivityRecord.custom_factor activity) eqn:Hc; [one_result |].
  destruct (ActivityRecord.scope3_category activity) as [category |] eqn:Hcat;
    [| exact Hcat].
  destruct (ActivityRecord.spend_amount activity).
  - unfold Scope3Calculator._calculate_spend_based.
    destruct (Scope3Calculator.resolve_spend self activity); [one_result | exact I].
  - destruct (ActivityRecord.distance activity) as [distance |].
    + destruct (Scope3Calculator.is_distance_category category).
      * unfold Scope3Calculator._calculate_distance_based.
        destruct (Scope3Calculator.resolve_distance self activity);
          [one_result | exact I].
      * destruct (Scope3Calculator.is_waste category); assumption.
    + destruct (Scope3Calculator.is_waste category); assumption.
Qed.

(** C9 fails on a Scope 3 activity without category and without custom
    factor: [calculate] returns no list and the error it raises is not of
    the no-matching-factor kind; it says that [scope3_category] is
    required.  Nor is the error of the electricity calculator on a
    quantity in gallons of that kind. *)
Lemma scope3_category_required :
  let self := Samples.calculator [Samples.exio_a] in
  let uncategorised :=
    Samples.activity SCOPE_3 None 100%float "kg" None
                     None None None None None None None None in
  let gallons :=
    Samples.activity SCOPE_2 None 100%float "gallon" None
                     None None None None None None None None in
  Scope3Calculator.calculate Samples.table_convert self uncategorised
  = Err Scope3CategoryRequired
  /\ error_kind Scope3CategoryRequired <> KNoMatchingFactor
  /\ ElectricityCalculator.calculate Samples.table_convert self gallons
     = Err (CannotConvert "gallon" "kWh")
  /\ error_kind (CannotConvert "gallon" "kWh") <> KNoMatchingFactor.
Proof. repeat split; discriminate. Qed.

(* ================================================================== *)
(** ** Registry search: what it returns, whatever the arguments *)

Lemma In_firstn {A} (x : A) n l : In x (firstn n l) -> In x l.
Proof.
  revert l. induction n as [| n IH]; intros [| y l]; simpl; try tauto.
  intros [-> | H]; [now left | right; now apply IH].
Qed.

Lemma In_slice_to {A} (x : A) l limit : In x (slice_to l limit) -> In x l.
Proof. unfold slice_to. destruct (0 <=? limit)%Z; apply In_firstn. Qed.

Lemma apply_filters_passes registry source category fuel_type region scope
      activity_unit tags :
  FactorRegistry.apply_filters registry source category fuel_type region scope
                               activity_unit tags
  = filter (passes source category fuel_type region scope activity_unit tags)
           (FactorRegistry._factors registry).
Proof. apply apply_filters_filter. Qed.

Lemma In_score_all query_lower f results :
  In f (map snd (FactorRegistry.score_all query_lower results))
  <-> In f results /\ (0 < score_spec query_lower f)%Z.
Proof.
  rewrite score_all_filter. induction results as [| g rest IH]; simpl.
  - tauto.
  - destruct (Z.ltb_spec 0 (score_spec query_lower g)) as [Hp | Hp]; simpl;
      rewrite IH; split.
    + intros [-> | [H1 H2]]; auto.
    + intros [[-> | H1] H2]; auto.
    + intros [H1 H2]; auto.
    + intros [[-> | H1] H2]; [lia | auto].
Qed.

Lemma In_rank query f results :
  In f (FactorRegistry.rank query results) -> In f results.
Proof.
  unfold FactorRegistry.rank. destruct (PyStr.truthy query); [| tauto].
  intros H.
  apply (Permutation_in f (Permutation_map snd (Permutation_sym (sort_desc_perm _))))
    in H.
  now apply In_score_all in H.
Qed.

(** Whatever the query and the limit, [search] returns only factors of
    the registry, and only factors that pass every supplied criterion. *)
Theorem search_sound (registry : FactorRegistry.t) (query : string)
        (source : option FactorSource) (category fuel_type region : option string)
        (scope : option Scope) (activity_unit : option string)
        (tags : option (list string)) (limit : Z) (f : EmissionFactor.t) :
  In f (FactorRegistry.search registry query source category fuel_type region
                              scope activity_unit tags limit) ->
  In f (FactorRegistry._factors registry)
  /\ passes source category fuel_type region scope activity_unit tags f = true.
Proof.
  unfold FactorRegistry.search. intros H.
  apply In_slice_to, In_rank in H.
  rewrite apply_filters_passes in H. now apply filter_In in H.
Qed.

Lemma search_sound_witness :
  In Samples.diesel_road
     (FactorRegistry.search Samples.fuels "Diesel" None None (Some "DIESEL") None
                            None (Some "KM") None 5)
  /\ passes None None (Some "DIESEL") None None (Some "KM") None Samples.diesel_road
     = true.
Proof.
  assert (H : In Samples.diesel_road
                (FactorRegistry.search Samples.fuels "Diesel" None None
                   (Some "DIESEL") None None (Some "KM") None 5))
    by (now left).
  split; [exact H |].
  exact (proj2 (search_sound Samples.fuels "Diesel" None None (Some "DIESEL") None
                             None (Some "KM") None 5 Samples.diesel_road H)).
Defined.

(** Without free text, [search] keeps the load order: for a non-negative
    limit it returns the first [limit] factors that pass every criterion,
    and with no criterion and a limit that reaches the size of the
    collection, the whole collection. *)
Theorem search_without_query (registry : FactorRegistry.t)
        (source : option FactorSource) (category fuel_type region : option string)
        (scope : option Scope) (activity_unit : option string)
        (tags : option (list string)) (limit : Z) :
  (0 <= limit)%Z ->
  FactorRegistry.search registry "" source category fuel_type region scope
                        activity_unit tags limit
  = firstn (Z.to_nat limit)
           (filter (passes source category fuel_type region scope activity_unit tags)
                   (FactorRegistry._factors registry))
  /\ ((Z.of_nat (List.length (FactorRegistry._factors registry)) <= limit)%Z ->
      FactorRegistry.search registry "" None None None None None None None limit
      = FactorRegistry._factors registry).
Proof.
  intros Hl. unfold FactorRegistry.search. rewrite !rank_empty_query.
  rewrite !slice_to_firstn by assumption. rewrite !apply_filters_passes.
  split; [reflexivity |].
  intros Hall. unfold passes. simpl. rewrite filter_all.
  apply firstn_all2. lia.
Qed.

Lemma search_without_query_witness :
  (0 <= 50)%Z
  /\ FactorRegistry.search Samples.fuels "" None None None None None None None 50
     = FactorRegistry._factors Samples.fuels.
Proof.
  split; [lia |].
  apply (search_without_query Samples.fuels None None None None None None None 50);
    simpl; lia.
Defined.

Lemma slice_to_length {A} (l : list A) (limit : Z) :
  Z.of_nat (List.length (slice_to l limit))
  = if (0 <=? limit)%Z then Z.min limit (Z.of_nat (List.length l))
    else Z.max 0 (Z.of_nat (List.length l) + limit).
Proof.
  unfold slice_to. destruct (Z.leb_spec 0 limit); rewrite length_firstn; lia.
Qed.

(** The size of a search result, for any integer limit: with [n] ranked
    candidates, a limit of 0 or more gives the smaller of [limit] and
    [n]; a negative limit does not give an empty result, it drops the
    last [-limit] candidates and gives [n + limit] of them, if any are
    left. *)
Theorem search_length (registry : FactorRegistry.t) (query : string)
        (source : option FactorSource) (category fuel_type region : option string)
        (scope : option Scope) (activity_unit : option string)
        (tags : option (list string)) (limit : Z) :
  let ranked :=
    FactorRegistry.rank query
      (FactorRegistry.apply_filters registry source category fuel_type region
                                    scope activity_unit tags) in
  let n := Z.of_nat (List.length ranked) in
  let result :=
    FactorRegistry.search registry query source category fuel_type region scope
                          activity_unit tags limit in
  Z.of_nat (List.length result)
  = (if (0 <=? limit)%Z then Z.min limit n else Z.max 0 (n + limit))
  /\ (limit < 0 -> result = firstn (Z.to_nat (n + limit)) ranked)%Z.
Proof.
  intros ranked n result. subst result n. unfold FactorRegistry.search.
  fold ranked. split; [apply slice_to_length |].
  intros Hneg. unfold slice_to. destruct (Z.leb_spec 0 limit); [lia |].
  f_equal. lia.
Qed.

Lemma find_first {A} (p : A -> bool) (l : list A) :
  match firstn 1 (filter p l) with
  | x :: _ => Some x
  | [] => None
  end = find p l.
Proof.
  induction l as [| y l IH]; simpl; [reflexivity |].
  destruct (p y); simpl; [reflexivity | exact IH].
Qed.

Lemma find_split {A} (p : A -> bool) (l : list A) x :
  find p l = Some x ->
  exists before after,
    l = before ++ x :: after /\ p x = true /\ forall y, In y before -> p y = false.
Proof.
  induction l as [| y l IH]; simpl; [discriminate |].
  destruct (p y) eqn:Hy.
  - intros H. injection H as ->. exists [], l. simpl. tauto.
  - intros H. destruct (IH H) as (before & after & -> & Hx & Hb).
    exists (y :: before), after. simpl. repeat split; auto.
    intros z [-> | Hz]; auto.
Qed.

(** [find_factor] returns the first factor, in load order, that passes
    the criteria it is given, and [None] exactly when no factor of the
    registry passes them. *)
Theorem find_factor_first (registry : FactorRegistry.t) (category : string)
        (fuel_type region activity_unit : option string)
        (source : option FactorSource) :
  let pass := passes source (Some category) fuel_type region None activity_unit None in
  let found := FactorRegistry.find_factor registry category fuel_type region
                                          activity_unit source in
  (found = None
   <-> forall f, In f (FactorRegistry._factors registry) -> pass f = false)
  /\ (forall f,
        found = Some f ->
        exists before after,
          FactorRegistry._factors registry = before ++ f :: after
          /\ pass f = true
          /\ forall g, In g before -> pass g = false).
Proof.
  intros pass found.
  assert (E : found = find pass (FactorRegistry._factors registry)).
  { subst found. unfold FactorRegistry.find_factor, FactorRegistry.search.
    rewrite rank_empty_query, apply_filters_passes.
    rewrite slice_to_firstn by lia. apply (find_first pass). }
  rewrite E. split.
  - split.
    + intros H f Hf. destruct (pass f) eqn:Hp; [| reflexivity].
      now rewrite (find_none _ _ H f Hf) in Hp.
    + intros H. destruct (find pass _) as [f |] eqn:Hfind; [| reflexivity].
      apply find_some in Hfind. destruct Hfind as [Hf Hp].
      rewrite (H f Hf) in Hp. discriminate.
  - intros f. apply find_split.
Qed.

Lemma mem_In s l : FactorRegistry.mem s l = true <-> In s l.
Proof.
  unfold FactorRegistry.mem. rewrite existsb_exists. split.
  - intros (x & Hx & He). apply String.eqb_eq in He. now subst.
  - intros H. exists s. split; [assumption | apply String.eqb_refl].
Qed.

(** The tag filter: a search by tags keeps a factor exactly when each
    requested tag equals, case aside, one of the factor's tags; an empty
    list of tags filters nothing, like no list at all. *)
Theorem search_by_tags (registry : FactorRegistry.t) (tags : list string)
        (f : EmissionFactor.t) :
  (In f (FactorRegistry.apply_filters registry None None None None None None
                                      (Some tags))
   <-> In f (FactorRegistry._factors registry)
       /\ forall t, In t tags ->
                    exists t', In t' (EmissionFactor.tags f)
                               /\ PyStr.lower t' = PyStr.lower t)
  /\ FactorRegistry.apply_filters registry None None None None None None (Some [])
     = FactorRegistry.apply_filters registry None None None None None None None.
Proof.
  split; [| reflexivity].
  rewrite apply_filters_passes, filter_In. unfold passes. simpl.
  unfold FactorRegistry.tags_subset. rewrite forallb_forall.
  split; intros [Hf Ht]; (split; [exact Hf |]); intros t Hin.
  - apply Ht, mem_In, in_map_iff in Hin. destruct Hin as (t' & He & Hin').
    now exists t'.
  - destruct (Ht t Hin) as (t' & Hin' & He). apply mem_In, in_map_iff.
    now exists t'.
Qed.

Lemma lower_app (a b : string) :
  PyStr.lower (a ++ b) = (PyStr.lower a ++ PyStr.lower b)%string.
Proof. induction a as [| c a IH]; simpl; [reflexivity | now rewrite IH]. Qed.

Lemma string_app_assoc (a b c : string) :
  ((a ++ b) ++ c = a ++ b ++ c)%string.
Proof. induction a as [| x a IH]; simpl; [reflexivity | now rewrite IH]. Qed.

(** What occurs in the name occurs in the searchable text, which begins
    with the name. *)
Lemma name_in_searchable query_lower f :
  PyStr.contains query_lower (PyStr.lower (EmissionFactor.name f)) = true ->
  PyStr.contains query_lower (PyStr.lower (FactorRegistry.searchable f)) = true.
Proof.
  rewrite !contains_occurs. intros (before & after & H).
  unfold FactorRegistry.searchable. rewrite lower_app, H.
  exists before. eexists. rewrite !string_app_assoc. reflexivity.
Qed.

Lemma filter_nonempty {A} (p : A -> bool) (l : list A) :
  (0 < List.length (filter p l))%nat <-> exists x, In x l /\ p x = true.
Proof.
  induction l as [| y l IH]; simpl.
  - split; [lia | intros (x & [] & _)].
  - destruct (p y) eqn:Hy; simpl.
    + split; [intros _; exists y; auto | lia].
    + rewrite IH. split; intros (x & Hx & Hp); exists x; [auto |].
      destruct Hx as [-> | Hx]; [congruence | auto].
Qed.

(** Which candidates a free-text search keeps: for a non-empty query,
    a candidate stays exactly when the lower-cased query occurs in its
    lower-cased searchable text, or is its lower-cased fuel type, or has a
    whitespace-separated word that occurs in the text.  A match in the name
    adds nothing to this: it is a match in the text.  And a candidate whose
    name holds the query scores at least 30. *)
Theorem search_keeps (query : string) (candidates : list EmissionFactor.t)
        (f : EmissionFactor.t) :
  query <> "" ->
  let q := PyStr.lower query in
  let text := PyStr.lower (FactorRegistry.searchable f) in
  (In f (FactorRegistry.rank query candidates)
   <-> In f candidates
       /\ (occurs_in q text
           \/ q = PyStr.lower (PyStr.or_else (EmissionFactor.fuel_type f) "")
           \/ exists word, In word (PyStr.split q) /\ occurs_in word text))
  /\ (occurs_in q (PyStr.lower (EmissionFactor.name f)) ->
      (30 <= FactorRegistry.score_of q f)%Z).
Proof.
  intros Hq q text. split.
  - unfold FactorRegistry.rank. rewrite (truthy_nonempty query Hq). fold q.
    assert (Hperm : forall l : list (Z * EmissionFactor.t),
               In f (map snd (sort_desc l)) <-> In f (map snd l)).
    { intros l. split; apply Permutation_in, Permutation_map;
        [symmetry |]; apply sort_desc_perm. }
    rewrite Hperm, In_score_all.
    assert (Hs : (0 < score_spec q f)%Z
                 <-> occurs_in q text
                     \/ q = PyStr.lower (PyStr.or_else (EmissionFactor.fuel_type f) "")
                     \/ exists word, In word (PyStr.split q) /\ occurs_in word text).
    { unfold score_spec. fold text.
      pose proof (name_in_searchable q f) as Hname. fold text in Hname.
      pose proof (filter_nonempty (fun word => PyStr.contains word text)
                                  (PyStr.split q)) as Hw.
      set (hits := List.length (filter (fun word => PyStr.contains word text)
                                       (PyStr.split q))) in *.
      rewrite <- contains_occurs. unfold points. split.
      - intros Hpos.
        destruct (PyStr.contains q text) eqn:Ht; [now left |].
        destruct (PyStr.contains q (PyStr.lower (EmissionFactor.name f)));
          [specialize (Hname eq_refl); discriminate |].
        destruct (String.eqb_spec q
                    (PyStr.lower (PyStr.or_else (EmissionFactor.fuel_type f) "")))
          as [He | He]; [right; now left |].
        right. right.
        assert (Hlen : (0 < hits)%nat) by lia.
        apply Hw in Hlen. destruct Hlen as (w & Hin & Hc).
        exists w. split; [assumption | now apply contains_occurs].
      - assert (Hnonneg : (0 <= Z.of_nat hits)%Z) by lia.
        intros [H | [H | (w & Hin & Hc)]].
        + rewrite H.
          destruct (PyStr.contains q (PyStr.lower (EmissionFactor.name f)));
            destruct (String.eqb _ _); lia.
        + apply String.eqb_eq in H. rewrite H.
          destruct (PyStr.contains q text);
            destruct (PyStr.contains q (PyStr.lower (EmissionFactor.name f))); lia.
        + assert (Hlen : (0 < hits)%nat).
          { apply Hw. exists w. split; [assumption | now apply contains_occurs]. }
          destruct (PyStr.contains q text);
            destruct (PyStr.contains q (PyStr.lower (EmissionFactor.name f)));
            destruct (String.eqb _ _); lia. }
    now rewrite Hs.
  - intros Hn. rewrite score_of_spec. unfold score_spec.
    apply contains_occurs in Hn. rewrite Hn, (name_in_searchable q f Hn).
    unfold points. destruct (String.eqb _ _); lia.
Qed.

Lemma search_keeps_witness :
  "Diesel" <> ""
  /\ In Samples.diesel_blend
        (FactorRegistry.rank "Diesel" (FactorRegistry._factors Samples.fuels))
  /\ ~ In Samples.natural_gas
         (FactorRegistry.rank "Diesel" (FactorRegistry._factors Samples.fuels)).
Proof.
  assert (Hq : "Diesel" <> "") by discriminate.
  split; [exact Hq |]. split.
  - apply (proj1 (search_keeps "Diesel" (FactorRegistry._factors Samples.fuels)
                               Samples.diesel_blend Hq)).
    split; [simpl; tauto |]. left. apply contains_occurs. reflexivity.
  - intros H.
    apply (proj1 (search_keeps "Diesel" (FactorRegistry._factors Samples.fuels)
                               Samples.natural_gas Hq)) in H.
    destruct H as [_ [H | [H | (w & Hw & H)]]].
    + apply contains_occurs in H. discriminate H.
    + discriminate H.
    + destruct Hw as [<- | []]. apply contains_occurs in H. discriminate H.
Defined.

(* ================================================================== *)
(** ** The registry object: loading and lookup by id *)

Lemma dict_get_set {V} (d : list (string * V)) k v k' :
  dict_get (dict_set d k v) k' = if String.eqb k k' then Some v else dict_get d k'.
Proof.
  induction d as [| [j x] d IH]; simpl.
  - reflexivity.
  - destruct (String.eqb_spec j k) as [-> | Hjk]; simpl.
    + now destruct (String.eqb k k').
    + rewrite IH. destruct (String.eqb_spec j k') as [-> | Hjk'];
        [| reflexivity].
      destruct (String.eqb_spec k k') as [-> | _]; [contradiction | reflexivity].
Qed.

Lemma add_factor_consistent self f :
  index_consistent self -> index_consistent (FactorRegistryState.add_factor self f).
Proof.
  intros H factor_id. unfold FactorRegistryState.get, FactorRegistryState.add_factor.
  simpl. rewrite dict_get_set, rev_app_distr. simpl. unfold has_id at 1.
  destruct (String.eqb _ _); [reflexivity | apply H].
Qed.

Lemma add_factors_state fs : forall self,
  index_consistent self ->
  let self' := fold_left FactorRegistryState.add_factor fs self in
  index_consistent self'
  /\ FactorRegistryState._factors self' = FactorRegistryState._factors self ++ fs
  /\ FactorRegistryState._versions self' = FactorRegistryState._versions self.
Proof.
  induction fs as [| f fs IH]; intros self H; simpl.
  - now rewrite app_nil_r.
  - destruct (IH (FactorRegistryState.add_factor self f)
                 (add_factor_consistent self f H)) as (H1 & H2 & H3).
    split; [exact H1 |]. split; [| exact H3].
    rewrite H2. simpl. now rewrite <- app_assoc.
Qed.

Lemma add_version_state self version :
  index_consistent self ->
  let self' := FactorRegistryState.add_version self version in
  index_consistent self'
  /\ FactorRegistryState._factors self'
     = FactorRegistryState._factors self ++ FactorVersion.factors version
  /\ FactorRegistryState._versions self'
     = FactorRegistryState._versions self ++ [version].
Proof.
  intros H. unfold FactorRegistryState.add_version.
  apply (add_factors_state (FactorVersion.factors version)
           (FactorRegistryState.mk (FactorRegistryState._versions self ++ [version])
                                   (FactorRegistryState._factors self)
                                   (FactorRegistryState._by_id self))).
  exact H.
Qed.

Lemma load_state versions : forall self,
  index_consistent self ->
  let self' := fold_left FactorRegistryState.add_version versions self in
  index_consistent self'
  /\ FactorRegistryState._factors self'
     = FactorRegistryState._factors self
       ++ List.concat (map FactorVersion.factors versions)
  /\ FactorRegistryState._versions self'
     = FactorRegistryState._versions self ++ versions.
Proof.
  induction versions as [| v versions IH]; intros self H; simpl.
  - now rewrite !app_nil_r.
  - destruct (add_version_state self v H) as (H1 & H2 & H3).
    destruct (IH _ H1) as (G1 & G2 & G3).
    split; [exact G1 |]. rewrite G2, G3, H2, H3, <- !app_assoc. now split.
Qed.

(** Loading: the registry built from any list of versions holds their
    factors in order, duplicates included, so [factor_count] is the sum
    of the versions' sizes; and [get] answers an id with the factor loaded
    last under that id, [None] exactly when no loaded factor carries it. *)
Theorem registry_load_get (versions : list FactorVersion.t) :
  let self := FactorRegistryState.load versions in
  let loaded := List.concat (map FactorVersion.factors versions) in
  FactorRegistryState._factors self = loaded
  /\ FactorRegistryState.versions self = versions
  /\ FactorRegistryState.factor_count self
     = list_sum (map (fun v => List.length (FactorVersion.factors v)) versions)
  /\ (forall factor_id,
        FactorRegistryState.get self factor_id = None
        <-> forall f, In f loaded -> EmissionFactor.id f <> factor_id)
  /\ (forall factor_id f,
        FactorRegistryState.get self factor_id = Some f ->
        EmissionFactor.id f = factor_id
        /\ exists before after,
            loaded = before ++ f :: after
            /\ forall g, In g after -> EmissionFactor.id g <> factor_id).
Proof.
  intros self loaded.
  destruct (load_state versions FactorRegistryState.init) as (Hi & Hf & Hv);
    [intros factor_id; reflexivity |].
  change (fold_left FactorRegistryState.add_version versions FactorRegistryState.init)
    with self in Hi, Hf, Hv.
  simpl in Hf, Hv. fold loaded in Hf.
  split; [exact Hf |]. split; [exact Hv |]. split.
  { unfold FactorRegistryState.factor_count. rewrite Hf. subst loaded.
    clear. induction versions as [| v versions IH]; simpl; [reflexivity |].
    now rewrite length_app, IH. }
  split.
  - intros factor_id. rewrite (Hi factor_id), Hf. split.
    + intros H f Hin Hid. apply in_rev in Hin.
      pose proof (find_none _ _ H f Hin) as Hn. unfold has_id in Hn.
      rewrite Hid, String.eqb_refl in Hn. discriminate.
    + intros H. destruct (find _ _) as [f |] eqn:Hfind; [| reflexivity].
      apply find_some in Hfind. destruct Hfind as [Hin Hid].
      apply in_rev in Hin. apply String.eqb_eq in Hid. now apply H in Hin.
  - intros factor_id f Hget. rewrite (Hi factor_id), Hf in Hget.
    destruct (find_split _ _ _ Hget) as (b & a & Hrev & Hid & Hb).
    split; [now apply String.eqb_eq in Hid |].
    exists (rev a), (rev b). split.
    + rewrite <- (rev_involutive loaded), Hrev, rev_app_distr. simpl.
      now rewrite <- app_assoc.
    + intros g Hg Hgid. apply in_rev in Hg. specialize (Hb g Hg).
      unfold has_id in Hb. rewrite Hgid, String.eqb_refl in Hb. discriminate.
Qed.

Lemma find_unique {A} (p : A -> bool) (key : A -> string) (l : list A) x :
  (forall y, p y = String.eqb (key y) (key x)) ->
  NoDup (map key l) -> In x l -> find p l = Some x.
Proof.
  intros Hp. induction l as [| y l IH]; simpl; [tauto |].
  intros Hnd [-> | Hin].
  - now rewrite Hp, String.eqb_refl.
  - inversion Hnd as [| ? ? Hnot Hnd']; subst.
    rewrite Hp. destruct (String.eqb_spec (key y) (key x)) as [He | _].
    + exfalso. apply Hnot. rewrite He. now apply in_map.
    + now apply IH.
Qed.

(** Round trip: when the loaded factors carry pairwise different ids,
    every loaded factor, hence every factor a search returns, is the one
    [get] returns for its id. *)
Theorem registry_get_loaded (versions : list FactorVersion.t) (f : EmissionFactor.t) :
  let self := FactorRegistryState.load versions in
  NoDup (map EmissionFactor.id (FactorRegistryState._factors self)) ->
  In f (FactorRegistryState._factors self) ->
  FactorRegistryState.get self (EmissionFactor.id f) = Some f.
Proof.
  intros self Hnd Hin.
  destruct (load_state versions FactorRegistryState.init) as (Hi & _ & _);
    [intros factor_id; reflexivity |].
  change (fold_left FactorRegistryState.add_version versions FactorRegistryState.init)
    with self in Hi.
  rewrite (Hi (EmissionFactor.id f)).
  apply (find_unique _ EmissionFactor.id).
  - reflexivity.
  - rewrite map_rev. apply NoDup_rev. exact Hnd.
  - now apply in_rev in Hin.
Qed.

(* ================================================================== *)
(** ** The GWP table: which identifiers resolve *)

Lemma insert_string_perm s l : Permutation (s :: l) (insert_string s l).
Proof.
  induction l as [| t l IH]; simpl; [reflexivity |].
  destruct (String.leb s t); [reflexivity |].
  rewrite perm_swap. now apply perm_skip.
Qed.

Lemma sorted_strings_perm l : Permutation l (sorted_strings l).
Proof.
  induction l as [| s l IH]; simpl; [reflexivity |].
  rewrite <- insert_string_perm. now apply perm_skip.
Qed.

Lemma insert_string_sorted s l :
  Sorted (fun a b => String.leb a b = true) l ->
  Sorted (fun a b => String.leb a b = true) (insert_string s l).
Proof.
  induction l as [| t l IH]; intros Hs; simpl.
  - repeat constructor.
  - destruct (String.leb s t) eqn:Hst.
    + constructor; [assumption | now constructor].
    + inversion Hs as [| ? ? Hl Hhd]; subst.
      constructor; [now apply IH |].
      destruct l as [| u l]; simpl.
      * constructor. destruct (String.leb_total s t); congruence.
      * destruct (String.leb s u).
        -- constructor. destruct (String.leb_total s t); congruence.
        -- inversion Hhd; subst. now constructor.
Qed.

Lemma sorted_strings_sorted l :
  Sorted (fun a b => String.leb a b = true) (sorted_strings l).
Proof.
  induction l as [| s l IH]; simpl; [constructor | now apply insert_string_sorted].
Qed.

(** Which gases are known.  [get_gwp] resolves an identifier exactly when
    its lower-cased form is "co2e" or one of the names [list_gases]
    reports for the assessment; [list_gases] is in ascending order and
    without repetition; and the two assessments know the same gases, so
    an identifier that resolves under one resolves under the other. *)
Theorem known_gases (gas : GasId) (assessment : GWPAssessment) :
  let key := PyStr.lower (gas_text gas) in
  ((exists gwp, get_gwp gas assessment = Ok gwp)
   <-> key = "co2e" \/ In key (list_gases assessment))
  /\ Sorted (fun a b => String.leb a b = true) (list_gases assessment)
  /\ NoDup (list_gases assessment)
  /\ list_gases AR5 = list_gases AR6
  /\ ((exists gwp, get_gwp gas AR5 = Ok gwp) <-> (exists gwp, get_gwp gas AR6 = Ok gwp)).
Proof.
  intros key.
  assert (Hok : forall a,
             (exists gwp, get_gwp gas a = Ok gwp)
             <-> key = "co2e" \/ In key (list_gases a)).
  { intros a. subst key. rewrite <- gas_key_lower. unfold get_gwp, list_gases.
    assert (Hin : In (gas_key gas) (sorted_strings (dict_keys (_GWP_TABLES a)))
                  <-> In (gas_key gas) (dict_keys (_GWP_TABLES a))).
    { split; apply Permutation_in;
        [symmetry |]; apply sorted_strings_perm. }
    rewrite Hin.
    destruct (String.eqb_spec (gas_key gas) "co2e") as [He | Hne].
    - split; [now left | intros _; now eexists].
    - destruct (dict_get (_GWP_TABLES a) (gas_key gas)) eqn:Hget.
      + split; [| intros _; now eexists].
        intros _. right.
        destruct (in_dec String.string_dec (gas_key gas) (dict_keys (_GWP_TABLES a)))
          as [H | H]; [exact H |].
        apply dict_get_None in H. congruence.
      + apply dict_get_None in Hget. split.
        * intros [gwp H]. discriminate.
        * intros [H | H]; contradiction. }
  assert (Hsame : list_gases AR5 = list_gases AR6) by reflexivity.
  split; [apply Hok |]. split; [apply sorted_strings_sorted |]. split.
  - unfold list_gases.
    apply (Permutation_NoDup (sorted_strings_perm _)).
    destruct assessment; simpl;
      repeat (constructor; [simpl; intuition discriminate |]); constructor.
  - split; [exact Hsame |]. rewrite !Hok, Hsame. tauto.
Qed.

(** The enum members [get_gwp] cannot resolve: under either assessment
    it raises for the generic [HFC] and [PFC], the tag the fugitive
    calculator writes into its breakdown, and for no other member. *)
Theorem get_gwp_enum (g : GasType) (assessment : GWPAssessment) :
  (exists e, get_gwp (GasEnum g) assessment = Err e) <-> g = HFC \/ g = PFC.
Proof.
  split.
  - intros [e H]. destruct g, assessment; try discriminate H; auto.
  - intros [-> | ->]; destruct assessment; eexists; reflexivity.
Qed.

(* ================================================================== *)
(** ** The gas breakdown *)

(** The shape of a breakdown: [_build_gas_breakdown] never raises; it
    lists CO2, CH4 and N2O in this order, leaving out every gas whose mass
    is not above zero (zero, negative or NaN); each entry keeps its mass,
    carries the GWP of the calculator's assessment and has
    [co2e_kg = mass_kg * gwp_used]. *)
Theorem gas_breakdown_shape (self : BaseScopeCalculator.t) (co2_kg ch4_kg n2o_kg : float) :
  let present :=
    filter (fun p => PrimFloat.ltb 0%float (snd p))
           [(CO2, co2_kg); (CH4, ch4_kg); (N2O, n2o_kg)] in
  exists breakdown,
    BaseScopeCalculator._build_gas_breakdown self co2_kg ch4_kg n2o_kg = Ok breakdown
    /\ map (fun g => (GasBreakdown.gas g, GasBreakdown.mass_kg g)) breakdown = present
    /\ Forall (entry_well_formed (BaseScopeCalculator.gwp_assessment self)) breakdown.
Proof.
  intros present. subst present.
  unfold BaseScopeCalculator._build_gas_breakdown, BaseScopeCalculator.gas_entry,
    to_co2e, entry_well_formed.
  destruct (BaseScopeCalculator.gwp_assessment self); simpl;
    destruct (PrimFloat.ltb 0 co2_kg) eqn:H1;
    destruct (PrimFloat.ltb 0 ch4_kg) eqn:H2;
    destruct (PrimFloat.ltb 0 n2o_kg) eqn:H3; simpl;
    eexists; (split; [reflexivity |]); (split; [reflexivity |]);
    repeat (apply Forall_cons; [simpl; auto |]); apply Forall_nil.
Qed.

(** Nothing times zero is above zero. *)
Lemma times_zero_not_positive (q : float) :
  PrimFloat.ltb 0%float (q * 0)%float = false.
Proof.
  rewrite FloatAxioms.ltb_spec, FloatAxioms.mul_spec.
  change (Prim2SF 0%float) with (S754_zero false).
  unfold SF64mul, SFmul, SFltb.
  destruct (Prim2SF q) as [s | s | | s m e]; simpl; try reflexivity.
Qed.

Lemma per_gas_breakdown_zero self quantity factor :
  EmissionFactor.co2_factor factor = 0%float ->
  EmissionFactor.ch4_factor factor = 0%float ->
  EmissionFactor.n2o_factor factor = 0%float ->
  Engine.per_gas_breakdown self quantity factor = Ok [].
Proof.
  intros H1 H2 H3.
  unfold Engine.per_gas_breakdown, BaseScopeCalculator._build_gas_breakdown,
    BaseScopeCalculator.gas_entry.
  rewrite H1, H2, H3, !times_zero_not_positive. reflexivity.
Qed.

(** A silent zero: the stationary and mobile calculators read only the
    three per-gas factors.  When the factor they resolve has all three
    at zero, as a factor that carries only a [co2e_factor] has, they
    return one result of 0 kg CO2e with an empty breakdown, for whatever
    quantity; the [co2e_factor] is not read. *)
Theorem combustion_zero_factors (convert : Converter) (self : BaseScopeCalculator.t)
        (activity : ActivityRecord.t) (factor : EmissionFactor.t) :
  ActivityRecord.custom_factor activity = None ->
  EmissionFactor.co2_factor factor = 0%float ->
  EmissionFactor.ch4_factor factor = 0%float ->
  EmissionFactor.n2o_factor factor = 0%float ->
  let zero := fun o =>
    exists r, o = Ok [r]
              /\ EmissionResult.total_co2e_kg r = 0%float
              /\ EmissionResult.gas_breakdown r = []
              /\ EmissionResult.factor_id r = Some (EmissionFactor.id factor) in
  (StationaryCombustionCalculator.resolve self activity = Some factor ->
   zero (StationaryCombustionCalculator.calculate convert self activity))
  /\ (MobileCombustionCalculator.resolve self activity = Some factor ->
      zero (MobileCombustionCalculator.calculate convert self activity)).
Proof.
  intros Hc H1 H2 H3 zero. subst zero.
  assert (Hk : forall cat,
             PyStr.lower (ActivityRecord.unit activity)
             = PyStr.lower (EmissionFactor.activity_unit factor) ->
             exists r, Engine.combustion_with_factor convert self activity cat factor
                       = Ok [r]
                       /\ EmissionResult.total_co2e_kg r = 0%float
                       /\ EmissionResult.gas_breakdown r = []
                       /\ EmissionResult.factor_id r = Some (EmissionFactor.id factor)).
  { intros cat Hu. unfold Engine.combustion_with_factor.
    rewrite Hu, String.eqb_refl. simpl.
    rewrite (per_gas_breakdown_zero self _ factor H1 H2 H3). simpl.
    eexists. repeat split. }
  split; intros Hres.
  - unfold StationaryCombustionCalculator.calculate. rewrite Hc, Hres.
    apply Hk, (combustion_resolved_unit self). now left.
  - unfold MobileCombustionCalculator.calculate. rewrite Hc, Hres.
    apply Hk, (combustion_resolved_unit self). now right.
Qed.

(* ================================================================== *)
(** ** The inventory: nothing lost, nothing twice *)

Lemma buckets_partition rs :
  Permutation (filter (in_scope SCOPE_1) rs ++ filter is_location_result rs
               ++ filter is_market_result rs ++ filter (in_scope SCOPE_3) rs) rs.
Proof.
  induction rs as [| r rs IH]; simpl; [constructor |].
  destruct (in_scope SCOPE_1 r) eqn:H1, (is_location_result r) eqn:H2,
    (is_market_result r) eqn:H3, (in_scope SCOPE_3 r) eqn:H4;
    try solve [ exfalso;
                unfold is_location_result, is_market_result, in_scope in *;
                destruct (EmissionResult.scope r);
                destruct (InventoryResult.is_market (EmissionResult.scope2_method r));
                simpl in *; congruence ].
  - simpl. now apply perm_skip.
  - symmetry. simpl. apply Permutation_cons_app. now symmetry.
  - symmetry. rewrite app_assoc. simpl. apply Permutation_cons_app.
    rewrite <- app_assoc. now symmetry.
  - symmetry. rewrite !app_assoc. apply Permutation_cons_app.
    rewrite <- !app_assoc. now symmetry.
Qed.

(** [all_results] of an inventory built by [add_result] calls lists the
    Scope 1 results, then the location-based, the market-based and the
    Scope 3 ones, each group in the order it came: every result added is
    there exactly once. *)
Theorem all_results_complete (name : string) (year : option Z)
        (rs : list EmissionResult.t) :
  let inv := InventoryResult.add_results (InventoryResult.fresh name year) rs in
  InventoryResult.all_results inv
  = filter (in_scope SCOPE_1) rs ++ filter is_location_result rs
    ++ filter is_market_result rs ++ filter (in_scope SCOPE_3) rs
  /\ Permutation (InventoryResult.all_results inv) rs
  /\ List.length (InventoryResult.all_results inv) = List.length rs.
Proof.
  intros inv.
  destruct (add_results_buckets rs (InventoryResult.fresh name year))
    as (E1 & E2 & E3 & E4).
  simpl in E1, E2, E3, E4. fold inv in E1, E2, E3, E4.
  assert (E : InventoryResult.all_results inv
              = filter (in_scope SCOPE_1) rs ++ filter is_location_result rs
                ++ filter is_market_result rs ++ filter (in_scope SCOPE_3) rs).
  { unfold InventoryResult.all_results. now rewrite E1, E2, E3, E4. }
  split; [exact E |]. rewrite E.
  split; [apply buckets_partition | apply Permutation_length, buckets_partition].
Qed.

(* ================================================================== *)
(** ** What the calculators echo and what they raise *)

Ltac echo_one := simpl; apply Forall_cons; [repeat split | apply Forall_nil].

Lemma convert_or_raise_every P convert value from_unit to_unit (k : float -> Outcome) :
  (forall v, every_result P (k v)) ->
  every_result P (bind (Engine.convert_or_raise convert value from_unit to_unit) k).
Proof.
  intros Hk. unfold Engine.convert_or_raise.
  destruct (convert value from_unit to_unit); simpl; [apply Hk | exact I].
Qed.

Lemma combustion_echo convert self activity cat factor :
  every_result (echoes self activity SCOPE_1)
    (Engine.combustion_with_factor convert self activity cat factor).
Proof.
  unfold Engine.combustion_with_factor.
  assert (Hk : forall quantity,
             every_result (echoes self activity SCOPE_1)
               (breakdown <- Engine.per_gas_breakdown self quantity factor ;;
                Ok [EmissionResult.mk
                      (ActivityRecord.id activity) (ActivityRecord.name activity)
                      SCOPE_1 (Some cat) None None
                      (BaseScopeCalculator._total_co2e breakdown) breakdown
                      (Some (EmissionFactor.id factor))
                      (Some (EmissionFactor.source factor))
                      (Some (ActivityRecord.quantity activity))
                      (Some (ActivityRecord.unit activity))
                      (BaseScopeCalculator.gwp_assessment self) []])).
  { intros quantity. destruct (per_gas_breakdown_ok self quantity factor) as [b ->].
    echo_one. }
  destruct (negb _); [now apply convert_or_raise_every | apply Hk].
Qed.

Lemma scope1_echo convert self activity :
  every_result (echoes self activity SCOPE_1)
    (StationaryCombustionCalculator.calculate convert self activity)
  /\ every_result (echoes self activity SCOPE_1)
       (MobileCombustionCalculator.calculate convert self activity)
  /\ every_result (echoes self activity SCOPE_1)
       (FugitiveEmissionsCalculator.calculate convert self activity)
  /\ every_result (echoes self activity SCOPE_1)
       (ProcessEmissionsCalculator.calculate self activity).
Proof.
  unfold StationaryCombustionCalculator.calculate, MobileCombustionCalculator.calculate,
    FugitiveEmissionsCalculator.calculate, ProcessEmissionsCalculator.calculate.
  destruct (ActivityRecord.custom_factor activity);
    [repeat split; echo_one |].
  split; [| split; [| split]].
  - destruct (StationaryCombustionCalculator.resolve self activity);
      [apply combustion_echo | exact I].
  - destruct (MobileCombustionCalculator.resolve self activity);
      [apply combustion_echo | exact I].
  - destruct (ActivityRecord.refrigerant_type activity) as [refrigerant |].
    + unfold FugitiveEmissionsCalculator.with_refrigerant,
        FugitiveEmissionsCalculator.quantity_in_kg.
      assert (Hk : forall quantity_kg,
                 every_result (echoes self activity SCOPE_1)
                   (gwp <- FugitiveEmissionsCalculator.refrigerant_gwp self refrigerant ;;
                    Ok [EmissionResult.mk
                          (ActivityRecord.id activity) (ActivityRecord.name activity)
                          SCOPE_1 (Some FUGITIVE_EMISSIONS) None None
                          (quantity_kg * gwp)%float
                          [GasBreakdown.mk HFC quantity_kg (quantity_kg * gwp)%float gwp
                                           (BaseScopeCalculator.gwp_assessment self)]
                          None None
                          (Some (ActivityRecord.quantity activity))
                          (Some (ActivityRecord.unit activity))
                          (BaseScopeCalculator.gwp_assessment self)
                          [NoteRefrigerant refrigerant gwp]])).
      { intros quantity_kg.
        destruct (FugitiveEmissionsCalculator.refrigerant_gwp self refrigerant);
          [echo_one | exact I]. }
      destruct (negb _); [now apply convert_or_raise_every | apply Hk].
    + unfold FugitiveEmissionsCalculator.without_refrigerant,
        FugitiveEmissionsCalculator.quantity_in_kg.
      destruct (FactorRegistry.find_factor _ _ _ _ _ _) as [factor |]; [| exact I].
      destruct (EmissionFactor.co2e_factor factor); [| exact I].
      destruct (negb _); [apply convert_or_raise_every; intros v |]; echo_one.
  - destruct (FactorRegistry.find_factor _ _ _ _ _ _) as [factor |]; [| exact I].
    destruct (per_gas_breakdown_ok self (ActivityRecord.quantity activity) factor)
      as [b ->].
    echo_one.
Qed.

Lemma method_result_echo self activity quantity_kwh method notes factor :
  every_result (echoes self activity SCOPE_2)
    (ElectricityCalculator.method_result self activity quantity_kwh method notes factor).
Proof.
  unfold ElectricityCalculator.method_result.
  destruct factor as [factor |]; [| apply Forall_nil].
  destruct (per_gas_breakdown_ok self quantity_kwh factor) as [b ->]. echo_one.
Qed.

Lemma electricity_echo convert self activity :
  every_result (echoes self activity SCOPE_2)
    (ElectricityCalculator.calculate convert self activity).
Proof.
  unfold ElectricityCalculator.calculate, ElectricityCalculator.quantity_in_kwh.
  assert (Hk : forall quantity_kwh,
             every_result (echoes self activity SCOPE_2)
               (match ActivityRecord.custom_factor activity with
                | Some custom_factor =>
                    Ok [EmissionResult.mk
                          (ActivityRecord.id activity) (ActivityRecord.name activity)
                          SCOPE_2 None
                          (Some match ActivityRecord.scope2_method activity with
                                | Some m => m
                                | None => LOCATION_BASED
                                end) None
                          (quantity_kwh * custom_factor)%float [] None None
                          (Some (ActivityRecord.quantity activity))
                          (Some (ActivityRecord.unit activity))
                          (BaseScopeCalculator.gwp_assessment self) [NoteCustomFactor]]
                | None =>
                    location <- ElectricityCalculator.method_result self activity
                                  quantity_kwh LOCATION_BASED []
                                  (ElectricityCalculator._find_location_factor
                                     self activity) ;;
                    market <- ElectricityCalculator.method_result self activity
                                quantity_kwh MARKET_BASED [NoteMarketProxy]
                                (ElectricityCalculator._find_market_factor
                                   self activity) ;;
                    match location ++ market with
                    | [] => Err NoFactorElectricity
                    | _ => Ok (location ++ market)
                    end
                end)).
  { intros quantity_kwh.
    destruct (ActivityRecord.custom_factor activity); [echo_one |].
    pose proof (method_result_echo self activity quantity_kwh LOCATION_BASED []
                  (ElectricityCalculator._find_location_factor self activity)) as H1.
    pose proof (method_result_echo self activity quantity_kwh MARKET_BASED
                  [NoteMarketProxy]
                  (ElectricityCalculator._find_market_factor self activity)) as H2.
    destruct (ElectricityCalculator.method_result self activity quantity_kwh
                LOCATION_BASED [] _) as [location |]; [| exact I].
    destruct (ElectricityCalculator.method_result self activity quantity_kwh
                MARKET_BASED [NoteMarketProxy] _) as [market |]; [| exact I].
    simpl in *. destruct (location ++ market) eqn:E; [exact I |].
    simpl. rewrite <- E. apply Forall_app. now split. }
  destruct (negb _); [now apply convert_or_raise_every | apply Hk].
Qed.

Lemma scope3_echo convert self activity :
  every_result (echoes self activity SCOPE_3)
    (Scope3Calculator.calculate convert self activity).
Proof.
  assert (Hwaste : every_result (echoes self activity SCOPE_3)
                     (Scope3Calculator._calculate_waste self activity)).
  { unfold Scope3Calculator._calculate_waste.
    destruct (FactorRegistry.find_factor _ _ _ _ _ _); [echo_one |].
    destruct (Scope3Calculator.first_hit _); [echo_one | exact I]. }
  assert (Hact : every_result (echoes self activity SCOPE_3)
                   (Scope3Calculator._calculate_activity_based self activity)).
  { unfold Scope3Calculator._calculate_activity_based.
    destruct (FactorRegistry.find_factor _ _ _ _ _ _) as [factor |].
    - destruct (per_gas_breakdown_ok self (ActivityRecord.quantity activity) factor)
        as [b ->].
      echo_one.
    - destruct (Scope3Calculator.first_hit _) as [factor |]; [| exact I].
      destruct (per_gas_breakdown_ok self (ActivityRecord.quantity activity) factor)
        as [b ->].
      echo_one. }
  unfold Scope3Calculator.calculate.
  destruct (ActivityRecord.custom_factor activity); [echo_one |].
  destruct (ActivityRecord.scope3_category activity) as [category |]; [| exact I].
  destruct (ActivityRecord.spend_amount activity).
  - unfold Scope3Calculator._calculate_spend_based.
    destruct (Scope3Calculator.resolve_spend self activity); [echo_one | exact I].
  - destruct (ActivityRecord.distance activity) as [distance |].
    + destruct (Scope3Calculator.is_distance_category category).
      * unfold Scope3Calculator._calculate_distance_based.
        destruct (Scope3Calculator.resolve_distance self activity);
          [echo_one | exact I].
      * destruct (Scope3Calculator.is_waste category); assumption.
    + destruct (Scope3Calculator.is_waste category); assumption.
Qed.

(** Every result [calculate_single] returns carries the scope of its
    activity, so that the inventory files it under that scope, and
    echoes the activity's id and name and the calculator's GWP assessment. *)
Theorem calculate_single_echoes (convert : Converter) (self : BaseScopeCalculator.t)
        (activity : ActivityRecord.t) (results : list EmissionResult.t) :
  GHGCalculator.calculate_single convert self activity = Ok results ->
  Forall (echoes self activity (ActivityRecord.scope activity)) results.
Proof.
  intros H.
  assert (E : every_result (echoes self activity (ActivityRecord.scope activity))
                (GHGCalculator.calculate_single convert self activity)).
  { unfold GHGCalculator.calculate_single, GHGCalculator._route_scope1.
    destruct (scope1_echo convert self activity) as (H1 & H2 & H3 & H4).
    destruct (ActivityRecord.scope activity).
    - destruct (ActivityRecord.scope1_category activity) as [[| | |] |]; auto.
      destruct (PyStr.truthy_opt (ActivityRecord.refrigerant_type activity)); auto.
      destruct (match ActivityRecord.fuel_type activity with
                | Some _ => true
                | None => PyStr.truthy_opt (ActivityRecord.custom_fuel activity)
                end); [auto | exact I].
    - apply electricity_echo.
    - apply scope3_echo. }
  now rewrite H in E.
Qed.

Lemma calculate_single_echoes_witness :
  exists r,
    GHGCalculator.calculate_single Samples.table_convert
      (Samples.calculator [Samples.exio_a]) MoreSamples.consulting = Ok [r]
    /\ EmissionResult.scope r = SCOPE_3.
Proof.
  eexists. split; [reflexivity |].
  pose proof (calculate_single_echoes Samples.table_convert
                (Samples.calculator [Samples.exio_a]) MoreSamples.consulting _
                eq_refl) as H.
  apply Forall_inv in H. exact (proj1 H).
Defined.

Lemma combustion_same_unit convert self activity cat factor :
  PyStr.lower (ActivityRecord.unit activity)
  = PyStr.lower (EmissionFactor.activity_unit factor) ->
  exists r, Engine.combustion_with_factor convert self activity cat factor = Ok [r].
Proof.
  intros Hu. unfold Engine.combustion_with_factor.
  rewrite Hu, String.eqb_refl. simpl.
  destruct (per_gas_breakdown_ok self (ActivityRecord.quantity activity) factor)
    as [b ->].
  simpl. now eexists.
Qed.

Lemma stationary_errors convert self activity :
  may_raise (fun e => e = NoFactorStationary)
    (StationaryCombustionCalculator.calculate convert self activity).
Proof.
  unfold StationaryCombustionCalculator.calculate.
  destruct (ActivityRecord.custom_factor activity); [exact I |].
  destruct (StationaryCombustionCalculator.resolve self activity) as [f |] eqn:Hr;
    [| reflexivity].
  destruct (combustion_same_unit convert self activity STATIONARY_COMBUSTION f)
    as [r ->]; [| exact I].
  apply (combustion_resolved_unit self). now left.
Qed.

Lemma mobile_errors convert self activity :
  may_raise (fun e => e = NoFactorMobile)
    (MobileCombustionCalculator.calculate convert self activity).
Proof.
  unfold MobileCombustionCalculator.calculate.
  destruct (ActivityRecord.custom_factor activity); [exact I |].
  destruct (MobileCombustionCalculator.resolve self activity) as [f |] eqn:Hr;
    [| reflexivity].
  destruct (combustion_same_unit convert self activity MOBILE_COMBUSTION f)
    as [r ->]; [| exact I].
  apply (combustion_resolved_unit self). now right.
Qed.

Lemma convert_or_raise_errors (allowed : Error -> Prop) convert value from_unit to_unit
      (k : float -> Outcome) :
  allowed (CannotConvert from_unit to_unit) ->
  (forall v, may_raise allowed (k v)) ->
  may_raise allowed (bind (Engine.convert_or_raise convert value from_unit to_unit) k).
Proof.
  intros Ha Hk. unfold Engine.convert_or_raise.
  destruct (convert value from_unit to_unit); simpl; [apply Hk | exact Ha].
Qed.

Lemma fugitive_errors convert self activity :
  may_raise (fun e =>
               e = NoFactorFugitive
               \/ e = CannotConvert (ActivityRecord.unit activity) "kg"
               \/ exists refrigerant,
                   ActivityRecord.refrigerant_type activity = Some refrigerant
                   /\ e = UnknownRefrigerant refrigerant)
    (FugitiveEmissionsCalculator.calculate convert self activity).
Proof.
  unfold FugitiveEmissionsCalculator.calculate.
  destruct (ActivityRecord.custom_factor activity); [exact I |].
  destruct (ActivityRecord.refrigerant_type activity) as [refrigerant |].
  - unfold FugitiveEmissionsCalculator.with_refrigerant,
      FugitiveEmissionsCalculator.quantity_in_kg.
    match goal with
    | |- may_raise ?allowed (bind _ ?k) =>
        assert (Hk : forall v, may_raise allowed (k v))
    end.
    { intros v. unfold FugitiveEmissionsCalculator.refrigerant_gwp.
      destruct (get_gwp _ _); [exact I |].
      destruct (FactorRegistry.search _ _ _ _ _ _ _ _ _ _) as [| f rest]; simpl.
      - right. right. now exists refrigerant.
      - destruct (EmissionFactor.co2e_factor f); simpl; [exact I |].
        right. right. now exists refrigerant. }
    destruct (negb _); [| apply Hk].
    apply convert_or_raise_errors; [right; now left | exact Hk].
  - unfold FugitiveEmissionsCalculator.without_refrigerant,
      FugitiveEmissionsCalculator.quantity_in_kg.
    destruct (FactorRegistry.find_factor _ _ _ _ _ _) as [factor |]; [| now left].
    destruct (EmissionFactor.co2e_factor factor); [| now left].
    destruct (negb _); [| exact I].
    apply convert_or_raise_errors; [right; now left | intros v; exact I].
Qed.

Lemma process_errors self activity :
  may_raise (fun e => e = NoFactorProcess)
    (ProcessEmissionsCalculator.calculate self activity).
Proof.
  unfold ProcessEmissionsCalculator.calculate.
  destruct (ActivityRecord.custom_factor activity); [exact I |].
  destruct (FactorRegistry.find_factor _ _ _ _ _ _) as [factor |]; [| reflexivity].
  destruct (per_gas_breakdown_ok self (ActivityRecord.quantity activity) factor)
    as [b ->].
  exact I.
Qed.

Lemma electricity_errors convert self activity :
  may_raise (fun e =>
               e = NoFactorElectricity
               \/ e = CannotConvert (ActivityRecord.unit activity) "kWh")
    (ElectricityCalculator.calculate convert self activity).
Proof.
  unfold ElectricityCalculator.calculate, ElectricityCalculator.quantity_in_kwh.
  match goal with
  | |- may_raise ?allowed (bind _ ?k) =>
      assert (Hk : forall v, may_raise allowed (k v))
  end.
  { intros quantity_kwh.
    destruct (ActivityRecord.custom_factor activity); [exact I |].
    unfold ElectricityCalculator.method_result.
    destruct (ElectricityCalculator._find_location_factor self activity)
      as [location |];
      [destruct (per_gas_breakdown_ok self quantity_kwh location) as [b1 ->] |];
      (destruct (ElectricityCalculator._find_market_factor self activity)
         as [market |];
       [destruct (per_gas_breakdown_ok self quantity_kwh market) as [b2 ->] |]);
      simpl; auto. }
  destruct (negb _); [| apply Hk].
  apply convert_or_raise_errors; [now right | exact Hk].
Qed.

Lemma scope3_errors convert self activity :
  may_raise (fun e =>
               (e = Scope3CategoryRequired
                /\ ActivityRecord.custom_factor activity = None
                /\ ActivityRecord.scope3_category activity = None)
               \/ scope3_no_factor e)
    (Scope3Calculator.calculate convert self activity).
Proof.
  unfold scope3_no_factor.
  assert (Hwaste : may_raise (fun e => e = NoFactorWaste)
                     (Scope3Calculator._calculate_waste self activity)).
  { unfold Scope3Calculator._calculate_waste.
    destruct (FactorRegistry.find_factor _ _ _ _ _ _); [exact I |].
    destruct (Scope3Calculator.first_hit _); [exact I | reflexivity]. }
  assert (Hact : may_raise (fun e => e = NoFactorScope3)
                   (Scope3Calculator._calculate_activity_based self activity)).
  { unfold Scope3Calculator._calculate_activity_based.
    destruct (FactorRegistry.find_factor _ _ _ _ _ _) as [factor |].
    - destruct (per_gas_breakdown_ok self (ActivityRecord.quantity activity) factor)
        as [b ->].
      exact I.
    - destruct (Scope3Calculator.first_hit _) as [factor |]; [| reflexivity].
      destruct (per_gas_breakdown_ok self (ActivityRecord.quantity activity) factor)
        as [b ->].
      exact I. }
  assert (Hrest : forall category : Scope3Category,
             may_raise (fun e => e = NoFactorWaste \/ e = NoFactorScope3)
               (if Scope3Calculator.is_waste category
                then Scope3Calculator._calculate_waste self activity
                else Scope3Calculator._calculate_activity_based self activity)).
  { intros category. destruct (Scope3Calculator.is_waste category).
    - destruct (Scope3Calculator._calculate_waste self activity); simpl in *; auto.
    - destruct (Scope3Calculator._calculate_activity_based self activity);
        simpl in *; auto. }
  unfold Scope3Calculator.calculate.
  destruct (ActivityRecord.custom_factor activity) eqn:Hc; [exact I |].
  destruct (ActivityRecord.scope3_category activity) as [category |] eqn:Hcat;
    [| left; auto].
  destruct (ActivityRecord.spend_amount activity).
  - unfold Scope3Calculator._calculate_spend_based.
    destruct (Scope3Calculator.resolve_spend self activity); simpl; auto.
  - specialize (Hrest category).
    destruct (ActivityRecord.distance activity) as [distance |].
    + destruct (Scope3Calculator.is_distance_category category).
      * unfold Scope3Calculator._calculate_distance_based.
        destruct (Scope3Calculator.resolve_distance self activity); simpl; auto.
      * destruct (if Scope3Calculator.is_waste category then _ else _);
          simpl in *; [exact I | tauto].
    + destruct (if Scope3Calculator.is_waste category then _ else _);
        simpl in *; [exact I | tauto].
Qed.

(** The errors each calculator can raise.  The stationary, mobile and
    process calculators raise nothing but their own no-matching-factor
    error: the conversion error of the combustion calculators is never
    reached, because the factor is resolved by the activity's unit.  The
    fugitive calculator can also fail to convert to kg or to know the
    refrigerant, the electricity calculator to convert to kWh; the Scope 3
    calculator never raises a conversion error, only the missing category
    or one of its four no-matching-factor errors.  None raises an
    unknown-gas error. *)
Theorem calculator_errors (convert : Converter) (self : BaseScopeCalculator.t)
        (activity : ActivityRecord.t) :
  may_raise (fun e => e = NoFactorStationary)
    (StationaryCombustionCalculator.calculate convert self activity)
  /\ may_raise (fun e => e = NoFactorMobile)
       (MobileCombustionCalculator.calculate convert self activity)
  /\ may_raise (fun e => e = NoFactorProcess)
       (ProcessEmissionsCalculator.calculate self activity)
  /\ may_raise (fun e =>
                  e = NoFactorFugitive
                  \/ e = CannotConvert (ActivityRecord.unit activity) "kg"
                  \/ exists refrigerant,
                      ActivityRecord.refrigerant_type activity = Some refrigerant
                      /\ e = UnknownRefrigerant refrigerant)
       (FugitiveEmissionsCalculator.calculate convert self activity)
  /\ may_raise (fun e =>
                  e = NoFactorElectricity
                  \/ e = CannotConvert (ActivityRecord.unit activity) "kWh")
       (ElectricityCalculator.calculate convert self activity)
  /\ may_raise (fun e =>
                  (e = Scope3CategoryRequired
                   /\ ActivityRecord.custom_factor activity = None
                   /\ ActivityRecord.scope3_category activity = None)
                  \/ scope3_no_factor e)
       (Scope3Calculator.calculate convert self activity).
Proof.
  repeat split;
    auto using stationary_errors, mobile_errors, process_errors, fugitive_errors,
      electricity_errors, scope3_errors.
Qed.

(** The two validation errors of [calculate_single], exactly.  It
    raises "Cannot determine Scope 1 category" when, and only when, a
    Scope 1 activity has no category, no refrigerant and no fuel, custom
    factor or not; it raises "scope3_category is required" when, and only
    when, a Scope 3 activity has neither custom factor nor category. *)
Theorem validation_errors (convert : Converter) (self : BaseScopeCalculator.t)
        (activity : ActivityRecord.t) :
  (GHGCalculator.calculate_single convert self activity = Err CannotDetermineScope1
   <-> ActivityRecord.scope activity = SCOPE_1
       /\ ActivityRecord.scope1_category activity = None
       /\ PyStr.truthy_opt (ActivityRecord.refrigerant_type activity) = false
       /\ ActivityRecord.fuel_type activity = None
       /\ PyStr.truthy_opt (ActivityRecord.custom_fuel activity) = false)
  /\ (GHGCalculator.calculate_single convert self activity = Err Scope3CategoryRequired
      <-> ActivityRecord.scope activity = SCOPE_3
          /\ ActivityRecord.custom_factor activity = None
          /\ ActivityRecord.scope3_category activity = None).
Proof.
  pose proof (stationary_errors convert self activity) as Hs.
  pose proof (mobile_errors convert self activity) as Hm.
  pose proof (fugitive_errors convert self activity) as Hf.
  pose proof (process_errors self activity) as Hp.
  pose proof (electricity_errors convert self activity) as He.
  pose proof (scope3_errors convert self activity) as H3.
  unfold GHGCalculator.calculate_single, GHGCalculator._route_scope1.
  split; split.
  - intros H. destruct (ActivityRecord.scope activity).
    + destruct (ActivityRecord.scope1_category activity) as [[| | |] |].
      * rewrite H in Hs. discriminate Hs.
      * rewrite H in Hm. discriminate Hm.
      * rewrite H in Hf. simpl in Hf.
        destruct Hf as [Hf | [Hf | (x & _ & Hf)]]; discriminate Hf.
      * rewrite H in Hp. discriminate Hp.
      * destruct (PyStr.truthy_opt (ActivityRecord.refrigerant_type activity)).
        { rewrite H in Hf. simpl in Hf.
          destruct Hf as [Hf | [Hf | (x & _ & Hf)]]; discriminate Hf. }
        destruct (ActivityRecord.fuel_type activity).
        { rewrite H in Hs. discriminate Hs. }
        destruct (PyStr.truthy_opt (ActivityRecord.custom_fuel activity)).
        { rewrite H in Hs. discriminate Hs. }
        auto.
    + rewrite H in He. simpl in He. destruct He as [He | He]; discriminate He.
    + rewrite H in H3. simpl in H3. unfold scope3_no_factor in H3.
      destruct H3 as [(H3 & _) | [H3 | [H3 | [H3 | H3]]]]; discriminate H3.
  - intros (-> & -> & -> & -> & ->). reflexivity.
  - intros H. destruct (ActivityRecord.scope activity).
    + destruct (ActivityRecord.scope1_category activity) as [[| | |] |].
      * rewrite H in Hs. discriminate Hs.
      * rewrite H in Hm. discriminate Hm.
      * rewrite H in Hf. simpl in Hf.
        destruct Hf as [Hf | [Hf | (x & _ & Hf)]]; discriminate Hf.
      * rewrite H in Hp. discriminate Hp.
      * destruct (PyStr.truthy_opt (ActivityRecord.refrigerant_type activity)).
        { rewrite H in Hf. simpl in Hf.
          destruct Hf as [Hf | [Hf | (x & _ & Hf)]]; discriminate Hf. }
        destruct (match ActivityRecord.fuel_type activity with
                  | Some _ => true
                  | None => PyStr.truthy_opt (ActivityRecord.custom_fuel activity)
                  end).
        { rewrite H in Hs. discriminate Hs. }
        discriminate H.
    + rewrite H in He. simpl in He. destruct He as [He | He]; discriminate He.
    + rewrite H in H3. simpl in H3. unfold scope3_no_factor in H3.
      destruct H3 as [(_ & H3) | [H3 | [H3 | [H3 | H3]]]];
        [auto | discriminate H3 ..].
  - intros (-> & Hc & Hcat). unfold Scope3Calculator.calculate.
    now rewrite Hc, Hcat.
Qed.

(* ================================================================== *)
(** ** The inventory of a list of activities *)

Lemma add_results_app inv rs1 rs2 :
  InventoryResult.add_results inv (rs1 ++ rs2)
  = InventoryResult.add_results (InventoryResult.add_results inv rs1) rs2.
Proof. unfold InventoryResult.add_results. apply fold_left_app. Qed.

Lemma fold_activities_ok convert self activities : forall inventory inv',
  GHGCalculator.fold_activities convert self inventory activities = Ok inv'
  <-> exists rss,
      Forall2 (fun a rs => GHGCalculator.calculate_single convert self a = Ok rs)
              activities rss
      /\ inv' = InventoryResult.add_results inventory (List.concat rss).
Proof.
  induction activities as [| a rest IH]; intros inventory inv'; simpl.
  - split.
    + intros H. injection H as <-. exists []. split; [constructor | reflexivity].
    + intros (rss & H & ->). inversion H; subst. reflexivity.
  - destruct (GHGCalculator.calculate_single convert self a) as [rs | e] eqn:Ha;
      simpl.
    + rewrite IH. split.
      * intros (rss & H & ->). exists (rs :: rss).
        split; [now constructor |]. simpl. now rewrite add_results_app.
      * intros (rss & H & ->). inversion H as [| ? rs' ? rss' Hrs Hrest]; subst.
        rewrite Ha in Hrs. injection Hrs as <-.
        exists rss'. split; [assumption |]. simpl. now rewrite add_results_app.
    + split; [discriminate |].
      intros (rss & H & _). inversion H as [| ? rs' ? rss' Hrs Hrest]; subst.
      rewrite Ha in Hrs. discriminate.
Qed.

Lemma fold_activities_err convert self activities : forall inventory e,
  GHGCalculator.fold_activities convert self inventory activities = Err e
  <-> exists done a rest,
      activities = done ++ a :: rest
      /\ Forall (fun a => exists rs,
                     GHGCalculator.calculate_single convert self a = Ok rs) done
      /\ GHGCalculator.calculate_single convert self a = Err e.
Proof.
  induction activities as [| a rest IH]; intros inventory e; simpl.
  - split; [discriminate |]. intros (done & b & rest & H & _).
    destruct done; discriminate.
  - destruct (GHGCalculator.calculate_single convert self a) as [rs | e'] eqn:Ha;
      simpl.
    + rewrite IH. split.
      * intros (done & b & rest' & -> & Hd & Hb).
        exists (a :: done), b, rest'. split; [reflexivity |].
        split; [constructor; [now exists rs | assumption] | assumption].
      * intros (done & b & rest' & Heq & Hd & Hb).
        destruct done as [| d done]; simpl in Heq; injection Heq as <- ->.
        -- rewrite Ha in Hb. discriminate.
        -- inversion Hd; subst. now exists done, b, rest'.
    + split.
      * intros H. injection H as <-. exists [], a, rest. repeat split; auto.
      * intros (done & b & rest' & Heq & Hd & Hb).
        destruct done as [| d done]; simpl in Heq; injection Heq as <- ->.
        -- congruence.
        -- inversion Hd as [| ? ? [rs Hrs] ?]; subst. rewrite Ha in Hrs. discriminate.
Qed.

(** [calculate_inventory] is all or nothing.  It returns an inventory
    exactly when every activity calculates, and the inventory is then the
    fresh one with all results added in input order; it raises exactly
    the error of the first activity that fails, whatever the activities
    before it produced. *)
Theorem calculate_inventory_all_or_nothing (convert : Converter)
        (self : BaseScopeCalculator.t) (activities : list ActivityRecord.t)
        (name : string) (year : option Z) :
  (forall inventory,
      GHGCalculator.calculate_inventory convert self activities name year
      = Ok inventory
      <-> exists rss,
          Forall2 (fun a rs => GHGCalculator.calculate_single convert self a = Ok rs)
                  activities rss
          /\ inventory
             = InventoryResult.add_results (InventoryResult.fresh name year)
                                           (List.concat rss))
  /\ (forall e,
        GHGCalculator.calculate_inventory convert self activities name year = Err e
        <-> exists done a rest,
            activities = done ++ a :: rest
            /\ Forall (fun a => exists rs,
                           GHGCalculator.calculate_single convert self a = Ok rs) done
            /\ GHGCalculator.calculate_single convert self a = Err e).
Proof.
  unfold GHGCalculator.calculate_inventory. split.
  - intros inventory. apply fold_activities_ok.
  - intros e. apply fold_activities_err.
Qed.

(** Every inventory [calculate_inventory] returns is consistent: each
    bucket's total is the sum of the results it holds, its name and year
    are those asked for, and it holds as many results as the activities
    produced. *)
Theorem calculate_inventory_consistent (convert : Converter)
        (self : BaseScopeCalculator.t) (activities : list ActivityRecord.t)
        (name : string) (year : option Z) (inventory : InventoryResult.t) :
  GHGCalculator.calculate_inventory convert self activities name year = Ok inventory ->
  inventory_consistent inventory
  /\ InventoryResult.name inventory = name
  /\ InventoryResult.year inventory = year
  /\ InventoryResult.total_co2e_kg inventory
     = (sum_co2e (ScopeResult.results (InventoryResult.scope1 inventory))
        + sum_co2e (ScopeResult.results (InventoryResult.scope2_location inventory))
        + sum_co2e (ScopeResult.results (InventoryResult.scope3 inventory)))%float
  /\ (List.length activities <= List.length (InventoryResult.all_results inventory))%nat.
Proof.
  intros H. apply fold_activities_ok in H. destruct H as (rss & Hall & ->).
  assert (Hc : inventory_consistent
                 (InventoryResult.add_results (InventoryResult.fresh name year)
                                              (List.concat rss))).
  { apply add_results_consistent. repeat split; apply fresh_bucket_consistent. }
  split; [exact Hc |].
  assert (Hkeep : forall rs inv,
             InventoryResult.name (InventoryResult.add_results inv rs)
             = InventoryResult.name inv
             /\ InventoryResult.year (InventoryResult.add_results inv rs)
                = InventoryResult.year inv).
  { unfold InventoryResult.add_results.
    induction rs as [| r rs IH]; intros inv; simpl; [auto |].
    destruct (IH (InventoryResult.add_result inv r)) as [-> ->].
    unfold InventoryResult.add_result.
    destruct (EmissionResult.scope r);
      [| destruct (InventoryResult.is_market _) |]; auto. }
  destruct (Hkeep (List.concat rss) (InventoryResult.fresh name year)) as [Hn Hy].
  split; [exact Hn |]. split; [exact Hy |]. split.
  - destruct Hc as (H1 & H2 & _ & H4). unfold bucket_consistent in *.
    unfold InventoryResult.total_co2e_kg. now rewrite H1, H2, H4.
  - destruct (add_results_buckets (List.concat rss) (InventoryResult.fresh name year))
      as (E1 & E2 & E3 & E4).
    unfold InventoryResult.all_results. simpl in E1, E2, E3, E4.
    rewrite E1, E2, E3, E4.
    rewrite (Permutation_length (buckets_partition (List.concat rss))).
    clear - Hall. induction Hall as [| a rs acts rss' Ha Hrest IH]; simpl; [lia |].
    rewrite length_app.
    assert (Hne : rs <> []).
    { pose proof (stationary_outcome convert self a) as Hs.
      pose proof (mobile_outcome convert self a) as Hm.
      pose proof (fugitive_outcome convert self a) as Hf.
      pose proof (process_outcome convert self a) as Hp.
      pose proof (electricity_outcome convert self a) as He.
      pose proof (scope3_outcome convert self a) as H3.
      unfold GHGCalculator.calculate_single, GHGCalculator._route_scope1 in Ha.
      destruct (ActivityRecord.scope a).
      - destruct (ActivityRecord.scope1_category a) as [[| | |] |].
        + rewrite Ha in Hs. apply Hs.
        + rewrite Ha in Hm. apply Hm.
        + rewrite Ha in Hf. apply Hf.
        + rewrite Ha in Hp. apply Hp.
        + destruct (PyStr.truthy_opt (ActivityRecord.refrigerant_type a)).
          * rewrite Ha in Hf. apply Hf.
          * destruct (match ActivityRecord.fuel_type a with
                      | Some _ => true
                      | None => PyStr.truthy_opt (ActivityRecord.custom_fuel a)
                      end); [| discriminate Ha].
            rewrite Ha in Hs. apply Hs.
      - rewrite Ha in He. apply He.
      - rewrite Ha in H3. apply H3. }
    destruct rs; [contradiction | simpl; lia].
Qed.

Lemma calculate_inventory_consistent_witness :
  let self := Samples.calculator [Samples.grid_us; Samples.exio_a] in
  exists inventory,
    GHGCalculator.calculate_inventory Samples.table_convert self
      [MoreSamples.office_power; MoreSamples.consulting] "Test Corp" (Some 2024%Z)
    = Ok inventory
    /\ inventory_consistent inventory
    /\ List.length (InventoryResult.all_results inventory) = 3%nat.
Proof.
  intros self. eexists. split; [reflexivity |].
  split; [| reflexivity].
  exact (proj1 (calculate_inventory_consistent Samples.table_convert self
                  [MoreSamples.office_power; MoreSamples.consulting]
                  "Test Corp" (Some 2024%Z) _ eq_refl)).
Defined.

(* ================================================================== *)
(** ** The combustion calculators *)

Lemma combustion_converter_free convert convert' self activity cat factor :
  PyStr.lower (ActivityRecord.unit activity)
  = PyStr.lower (EmissionFactor.activity_unit factor) ->
  Engine.combustion_with_factor convert self activity cat factor
  = Engine.combustion_with_factor convert' self activity cat factor.
Proof.
  intros Hu. unfold Engine.combustion_with_factor.
  now rewrite Hu, String.eqb_refl.
Qed.

(** The stationary and mobile calculators never convert a unit: their
    outcome is the same under any two conversion services.  A quantity
    declared in a unit for which the registry has no factor is therefore
    not converted to the unit of another factor of the same fuel; the
    calculation ends in the no-matching-factor error. *)
Theorem combustion_never_converts (convert convert' : Converter)
        (self : BaseScopeCalculator.t) (activity : ActivityRecord.t) :
  StationaryCombustionCalculator.calculate convert self activity
  = StationaryCombustionCalculator.calculate convert' self activity
  /\ MobileCombustionCalculator.calculate convert self activity
     = MobileCombustionCalculator.calculate convert' self activity.
Proof.
  unfold StationaryCombustionCalculator.calculate, MobileCombustionCalculator.calculate.
  destruct (ActivityRecord.custom_factor activity); [split; reflexivity |].
  split.
  - destruct (StationaryCombustionCalculator.resolve self activity) as [f |] eqn:Hr;
      [| reflexivity].
    apply combustion_converter_free, (combustion_resolved_unit self). now left.
  - destruct (MobileCombustionCalculator.resolve self activity) as [f |] eqn:Hr;
      [| reflexivity].
    apply combustion_converter_free, (combustion_resolved_unit self). now right.
Qed.

(** Natural gas declared in MMBtu against a registry that has it per
    therm: no conversion is tried. *)
Example stationary_other_unit :
  StationaryCombustionCalculator.calculate Samples.table_convert
    (Samples.calculator [Samples.natural_gas])
    (ActivityRecord.mk None None SCOPE_1 (Some STATIONARY_COMBUSTION) None None
                       100%float "MMBtu" (Some NATURAL_GAS) None None None None
                       None None None None None None None None None None None
                       None None)
  = Err NoFactorStationary.
Proof. reflexivity. Qed.

(** The vehicle type in mobile combustion.  When the activity names a
    fuel, its [vehicle_type] has no effect: the calculation gives the same
    outcome for any vehicle type, or none.  When it names no fuel, a
    vehicle type makes the calculator take the first mobile-combustion
    factor for the unit (and preferred source), whatever its fuel. *)
Theorem mobile_vehicle_type (convert : Converter) (self : BaseScopeCalculator.t)
        (activity : ActivityRecord.t) (vehicle_type : option string) :
  (PyStr.truthy_opt (Engine.fuel_key activity) = true ->
   MobileCombustionCalculator.calculate convert self
     (with_vehicle_type activity vehicle_type)
   = MobileCombustionCalculator.calculate convert self activity)
  /\ (Engine.fuel_key activity = None ->
      PyStr.truthy_opt (ActivityRecord.vehicle_type activity) = true ->
      MobileCombustionCalculator.resolve self activity
      = FactorRegistry.find_factor (BaseScopeCalculator.registry self)
          "mobile_combustion" None None (Some (ActivityRecord.unit activity))
          (ActivityRecord.factor_source activity)).
Proof.
  split.
  - intros Hfuel.
    assert (Hres : forall a,
               Engine.fuel_key a = Engine.fuel_key activity ->
               ActivityRecord.unit a = ActivityRecord.unit activity ->
               ActivityRecord.factor_source a = ActivityRecord.factor_source activity ->
               MobileCombustionCalculator.resolve self a
               = MobileCombustionCalculator.lookup self activity
                                                   (Engine.fuel_key activity)).
    { intros a Hk Hu Hs. unfold MobileCombustionCalculator.resolve.
      rewrite Hk, Hfuel. unfold MobileCombustionCalculator.lookup. rewrite Hu, Hs.
      destruct (PyStr.truthy_opt (ActivityRecord.vehicle_type a)); [| reflexivity].
      now destruct (FactorRegistry.find_factor _ _ _ _ _ _). }
    unfold MobileCombustionCalculator.calculate.
    rewrite (Hres activity eq_refl eq_refl eq_refl).
    rewrite (Hres (with_vehicle_type activity vehicle_type) eq_refl eq_refl eq_refl).
    reflexivity.
  - intros Hfuel Hv. unfold MobileCombustionCalculator.resolve,
      MobileCombustionCalculator.lookup.
    rewrite Hfuel, Hv. simpl.
    now destruct (FactorRegistry.find_factor _ _ _ _ _ _).
Qed.

(* ================================================================== *)
(** ** Electricity: the market-based result and the US fallback *)

(** Without a preferred factor source the market-based result mirrors
    the location-based one: if the electricity calculator returns at all
    (no custom factor given), it returns exactly two results with the
    same factor, the same gas breakdown and the same total, one tagged
    location-based and one market-based. *)
Theorem electricity_market_mirrors (convert : Converter) (self : BaseScopeCalculator.t)
        (activity : ActivityRecord.t) (results : list EmissionResult.t) :
  ActivityRecord.custom_factor activity = None ->
  ActivityRecord.factor_source activity = None ->
  ElectricityCalculator.calculate convert self activity = Ok results ->
  exists r1 r2,
    results = [r1; r2]
    /\ EmissionResult.scope2_method r1 = Some LOCATION_BASED
    /\ EmissionResult.scope2_method r2 = Some MARKET_BASED
    /\ EmissionResult.factor_id r1 = EmissionResult.factor_id r2
    /\ EmissionResult.gas_breakdown r1 = EmissionResult.gas_breakdown r2
    /\ EmissionResult.total_co2e_kg r1 = EmissionResult.total_co2e_kg r2.
Proof.
  intros Hc Hs. unfold ElectricityCalculator.calculate.
  destruct (ElectricityCalculator.quantity_in_kwh convert activity) as [q | e];
    simpl; [| discriminate].
  rewrite Hc.
  assert (Hm : ElectricityCalculator._find_market_factor self activity
               = ElectricityCalculator._find_location_factor self activity).
  { unfold ElectricityCalculator._find_market_factor. rewrite Hs.
    now destruct (ElectricityCalculator._find_location_factor self activity). }
  rewrite Hm. unfold ElectricityCalculator.method_result.
  destruct (ElectricityCalculator._find_location_factor self activity) as [f |];
    simpl; [| discriminate].
  destruct (per_gas_breakdown_ok self q f) as [b ->]. simpl.
  intros H. injection H as <-. eexists. eexists. repeat split.
Qed.

Lemma electricity_market_mirrors_witness :
  exists r1 r2,
    ElectricityCalculator.calculate Samples.table_convert
      (Samples.calculator [Samples.grid_us]) MoreSamples.office_power = Ok [r1; r2]
    /\ EmissionResult.total_co2e_kg r1 = EmissionResult.total_co2e_kg r2.
Proof.
  destruct (electricity_market_mirrors Samples.table_convert
              (Samples.calculator [Samples.grid_us]) MoreSamples.office_power
              _ eq_refl eq_refl eq_refl)
    as (r1 & r2 & E & _ & _ & _ & _ & Ht).
  exists r1, r2. split; [| exact Ht].
  rewrite <- E. reflexivity.
Defined.

Lemma find_factor_find registry category fuel_type region activity_unit source :
  FactorRegistry.find_factor registry category fuel_type region activity_unit source
  = find (passes source (Some category) fuel_type region None activity_unit None)
         (FactorRegistry._factors registry).
Proof.
  unfold FactorRegistry.find_factor, FactorRegistry.search.
  rewrite rank_empty_query, apply_filters_passes.
  rewrite slice_to_firstn by lia. apply find_first.
Qed.

(** The US fallback.  If the registry holds an electricity factor per
    kWh for region "US" (case aside), the location-based lookup always
    finds a factor, whatever the subregion and country of the activity:
    every activity without custom factor whose quantity is, or converts
    to, kWh gets exactly two results. *)
Theorem electricity_us_fallback (convert : Converter) (self : BaseScopeCalculator.t)
        (activity : ActivityRecord.t) (us : EmissionFactor.t) (region : string)
        (quantity_kwh : float) :
  In us (FactorRegistry._factors (BaseScopeCalculator.registry self)) ->
  EmissionFactor.category us = "electricity" ->
  EmissionFactor.region us = Some region ->
  PyStr.lower region = "us" ->
  PyStr.lower (EmissionFactor.activity_unit us) = "kwh" ->
  ActivityRecord.custom_factor activity = None ->
  ElectricityCalculator.quantity_in_kwh convert activity = Ok quantity_kwh ->
  exists r1 r2,
    ElectricityCalculator.calculate convert self activity = Ok [r1; r2]
    /\ EmissionResult.scope2_method r1 = Some LOCATION_BASED
    /\ EmissionResult.scope2_method r2 = Some MARKET_BASED.
Proof.
  intros Hin Hcat Hreg Hlow Hunit Hc Hq.
  assert (Hloc : exists f,
             ElectricityCalculator._find_location_factor self activity = Some f).
  { unfold ElectricityCalculator._find_location_factor.
    destruct (if PyStr.truthy_opt (ActivityRecord.grid_subregion activity)
              then _ else None); [now eexists |].
    destruct (if PyStr.truthy_opt (ActivityRecord.country activity)
              then _ else None); [now eexists |].
    destruct (FactorRegistry.find_factor _ _ _ _ _ _) as [f |] eqn:Hf;
      [now eexists |].
    exfalso. rewrite find_factor_find in Hf.
    pose proof (find_none _ _ Hf us Hin) as Hp. clear Hf. rename Hp into Hf.
    unfold passes in Hf. simpl in Hf.
    unfold FactorRegistry.category_is, FactorRegistry.region_is,
      FactorRegistry.opt_lower_is, FactorRegistry.activity_unit_is in Hf.
    rewrite Hcat, Hreg, Hlow, Hunit in Hf.
    destruct region; [discriminate Hlow | discriminate Hf]. }
  destruct Hloc as [f Hf].
  exact (electricity_two_results convert self activity quantity_kwh f Hc Hq Hf).
Qed.

Lemma electricity_us_fallback_witness :
  exists r1 r2,
    ElectricityCalculator.calculate Samples.table_convert
      (Samples.calculator [Samples.grid_de; Samples.grid_us])
      MoreSamples.office_power = Ok [r1; r2]
    /\ EmissionResult.factor_id r1 = Some "egrid_us".
Proof.
  destruct (electricity_us_fallback Samples.table_convert
              (Samples.calculator [Samples.grid_de; Samples.grid_us])
              MoreSamples.office_power Samples.grid_us "US" 1000%float)
    as (r1 & r2 & E & _); try reflexivity.
  - simpl. tauto.
  - exists r1, r2. split; [exact E |].
    assert (H : ElectricityCalculator.calculate Samples.table_convert
                  (Samples.calculator [Samples.grid_de; Samples.grid_us])
                  MoreSamples.office_power
                = Ok [r1; r2]) by exact E.
    vm_compute in H. injection H as <- _. reflexivity.
Defined.

(* ================================================================== *)
(** ** Fugitive emissions: a refrigerant the GWP table knows *)

Lemma lower_ascii_idempotent c : PyStr.lower_ascii (PyStr.lower_ascii c) = PyStr.lower_ascii c.
Proof. destruct c as [[] [] [] [] [] [] [] []]; reflexivity. Qed.

Lemma lower_idempotent s : PyStr.lower (PyStr.lower s) = PyStr.lower s.
Proof.
  induction s as [| c s IH]; simpl; [reflexivity |].
  now rewrite lower_ascii_idempotent, IH.
Qed.

(** For a refrigerant [get_gwp] knows, in any case of letters, and a
    quantity in kg, the fugitive calculator does not consult the registry:
    under every registry and conversion service it returns one result of
    quantity times GWP, with a single breakdown entry tagged HFC that
    carries the whole quantity, and no factor id. *)
Theorem fugitive_known_refrigerant (convert : Converter) (self : BaseScopeCalculator.t)
        (activity : ActivityRecord.t) (refrigerant : string) (gwp : float) :
  ActivityRecord.custom_factor activity = None ->
  ActivityRecord.refrigerant_type activity = Some refrigerant ->
  PyStr.lower (ActivityRecord.unit activity) = "kg" ->
  get_gwp (GasStr refrigerant) (BaseScopeCalculator.gwp_assessment self) = Ok gwp ->
  let quantity := ActivityRecord.quantity activity in
  exists r,
    FugitiveEmissionsCalculator.calculate convert self activity = Ok [r]
    /\ EmissionResult.total_co2e_kg r = (quantity * gwp)%float
    /\ EmissionResult.gas_breakdown r
       = [GasBreakdown.mk HFC quantity (quantity * gwp)%float gwp
                          (BaseScopeCalculator.gwp_assessment self)]
    /\ EmissionResult.factor_id r = None.
Proof.
  intros Hc Hr Hu Hg quantity. subst quantity.
  unfold FugitiveEmissionsCalculator.calculate. rewrite Hc, Hr.
  unfold FugitiveEmissionsCalculator.with_refrigerant,
    FugitiveEmissionsCalculator.quantity_in_kg,
    FugitiveEmissionsCalculator.refrigerant_gwp.
  rewrite Hu. simpl.
  assert (E : get_gwp (GasStr (PyStr.lower refrigerant))
                      (BaseScopeCalculator.gwp_assessment self) = Ok gwp).
  { unfold get_gwp in *. simpl in *. now rewrite lower_idempotent. }
  rewrite E. simpl. eexists. repeat split.
Qed.

Lemma fugitive_known_refrigerant_witness :
  exists r,
    FugitiveEmissionsCalculator.calculate Samples.table_convert
      (Samples.calculator [Samples.grid_us]) Samples.leak = Ok [r]
    /\ EmissionResult.total_co2e_kg r = (10 * 2088)%float.
Proof.
  destruct (fugitive_known_refrigerant Samples.table_convert
              (Samples.calculator [Samples.grid_us]) Samples.leak "R-410A"
              2088%float eq_refl eq_refl eq_refl eq_refl)
    as (r & E & Ht & _).
  exists r. split; [exact E | exact Ht].
Defined.

(* ================================================================== *)
(** ** The report's Scope 3 breakdown *)

Lemma dict_set_keys {V} (d : list (string * V)) k v :
  dict_keys (dict_set d k v)
  = if FactorRegistry.mem k (dict_keys d) then dict_keys d else dict_keys d ++ [k].
Proof.
  unfold dict_keys, FactorRegistry.mem.
  induction d as [| [j x] d IH]; simpl; [reflexivity |].
  rewrite (String.eqb_sym k j).
  destruct (String.eqb j k); simpl; [reflexivity |].
  rewrite IH. now destruct (existsb (String.eqb k) (map fst d)).
Qed.

Lemma dict_set_NoDup {V} (d : list (string * V)) k v :
  NoDup (dict_keys d) -> NoDup (dict_keys (dict_set d k v)).
Proof.
  intros H. rewrite dict_set_keys.
  destruct (FactorRegistry.mem k (dict_keys d)) eqn:Hm; [assumption |].
  apply NoDup_app; [assumption | repeat constructor; simpl; tauto |].
  intros x Hx. simpl. intros [<- | []].
  apply mem_In in Hx. congruence.
Qed.

Lemma scope3_by_cat_fold rs : forall (d : list (string * float)) k,
  NoDup (dict_keys d) ->
  let d' := fold_left (fun d r => dict_accumulate d (cat_name_of r)
                                                 (EmissionResult.total_co2e_kg r))
                      rs d in
  NoDup (dict_keys d')
  /\ dict_get d' k
     = match filter (fun r => String.eqb (cat_name_of r) k) rs with
       | [] => dict_get d k
       | group =>
           Some (fold_left (fun acc r => (acc + EmissionResult.total_co2e_kg r)%float)
                           group
                           match dict_get d k with Some x => x | None => 0%float end)
       end.
Proof.
  induction rs as [| r rs IH]; intros d k Hnd; simpl; [auto |].
  destruct (IH (dict_accumulate d (cat_name_of r) (EmissionResult.total_co2e_kg r)) k
               (dict_set_NoDup d _ _ Hnd)) as [Hnd' Hget].
  split; [exact Hnd' |]. rewrite Hget. unfold dict_accumulate.
  rewrite dict_get_set.
  destruct (String.eqb_spec (cat_name_of r) k) as [-> | Hne]; simpl.
  - now destruct (filter _ rs).
  - reflexivity.
Qed.

Lemma dict_get_map {V W} (g : V -> W) (d : list (string * V)) k :
  dict_get (map (fun item => (fst item, g (snd item))) d) k
  = option_map g (dict_get d k).
Proof.
  induction d as [| [j v] d IH]; simpl; [reflexivity |].
  destruct (String.eqb j k); [reflexivity | exact IH].
Qed.

(** The Scope 3 breakdown [generate_report] returns: it has one entry
    for each category name that occurs among the Scope 3 results of the
    inventory ("Unknown" for results without category), and the entry is
    the sum of that category's results, added in kg in the order they
    were filed, starting from zero, and then divided by 1000, so in
    tonnes; a category without results has no entry. *)
Theorem scope3_breakdown_in_tonnes (title : string) (records : list ActivityRecord.t)
        (inventory : InventoryResult.t) (cat_name : string) :
  let held := ScopeResult.results (InventoryResult.scope3 inventory) in
  let breakdown := Report.scope3_breakdown (report_of title records inventory) in
  dict_get breakdown cat_name
  = match filter (fun r => String.eqb (cat_name_of r) cat_name) held with
    | [] => None
    | group => Some (sum_co2e group / 1000)%float
    end
  /\ NoDup (dict_keys breakdown).
Proof.
  intros held breakdown. subst breakdown. simpl.
  unfold scope3_by_cat. fold held.
  destruct (scope3_by_cat_fold held [] cat_name) as [Hnd Hget]; [constructor |].
  split.
  - rewrite (dict_get_map (fun v => (v / 1000)%float)), Hget. simpl.
    now destruct (filter _ held).
  - unfold dict_keys in *. rewrite map_map. simpl. exact Hnd.
Qed.

(** 1000 USD of purchased services against a factor of 0.5 kg CO2e per
    USD: the report holds 0.5 tonnes under the category's name. *)
Example report_consulting :
  exists report,
    generate_report Samples.table_convert (Samples.calculator [Samples.exio_a])
                    [MoreSamples.consulting] "GHG Emissions Report" = Ok report
    /\ Report.scope3_breakdown report = [("PURCHASED_GOODS_SERVICES", 0.5%float)]
    /\ Report.scope3_co2e_tonnes report = 0.5%float
    /\ Report.activity_count report = 1%nat
    /\ Report.result_count report = 1%nat.
Proof. eexists. repeat split. Qed.

(* ================================================================== *)
(** ** Worked examples for the properties with preconditions *)

Lemma registry_get_loaded_witness :
  let self := FactorRegistryState.load [MoreSamples.epa; MoreSamples.defra] in
  FactorRegistryState.get self "defra_diesel_car" = Some Samples.diesel_road
  /\ FactorRegistryState.factor_count self = 3%nat.
Proof.
  intros self. split; [| reflexivity].
  apply (registry_get_loaded [MoreSamples.epa; MoreSamples.defra] Samples.diesel_road).
  - simpl. repeat (constructor; [simpl; intuition discriminate |]). constructor.
  - simpl. tauto.
Defined.

Lemma combustion_zero_factors_witness :
  exists r,
    StationaryCombustionCalculator.calculate Samples.table_convert
      (Samples.calculator [MoreSamples.biogas]) MoreSamples.burn_biogas = Ok [r]
    /\ EmissionResult.total_co2e_kg r = 0%float
    /\ EmissionFactor.co2e_factor MoreSamples.biogas = Some 1.5%float.
Proof.
  destruct (combustion_zero_factors Samples.table_convert
              (Samples.calculator [MoreSamples.biogas]) MoreSamples.burn_biogas
              MoreSamples.biogas eq_refl eq_refl eq_refl eq_refl) as [Hs _].
  destruct (Hs eq_refl) as (r & E & Ht & _).
  exists r. repeat split; assumption.
Defined.

(** [search] is blind to the case of three of its criteria: two calls
    that differ only in the letter case of the fuel type, the region or
    the activity unit return the same list, for any query and limit. *)
Theorem search_case_insensitive (registry : FactorRegistry.t) (query : string)
        (source : option FactorSource) (category : option string)
        (scope : option Scope) (tags : option (list string)) (limit : Z)
        (fuel1 fuel2 region1 region2 unit1 unit2 : option string) :
  same_up_to_case fuel1 fuel2 ->
  same_up_to_case region1 region2 ->
  same_up_to_case unit1 unit2 ->
  FactorRegistry.search registry query source category fuel1 region1 scope unit1
                        tags limit
  = FactorRegistry.search registry query source category fuel2 region2 scope unit2
                          tags limit.
Proof.
  intros Hf Hr Hu. unfold FactorRegistry.search.
  now rewrite (apply_filters_case registry source category scope tags
                 fuel1 fuel2 region1 region2 unit1 unit2 Hf Hr Hu).
Qed.

Lemma search_case_insensitive_witness :
  FactorRegistry.search Samples.fuels "" None None (Some "DIESEL") None None
                        (Some "Gallon") None 50
  = [Samples.diesel_gallon].
Proof.
  rewrite (search_case_insensitive Samples.fuels "" None None None None 50
             (Some "DIESEL") (Some "diesel") None None
             (Some "Gallon") (Some "gallon")); reflexivity.
Defined.

(* ================================================================== *)
(** ** Where a failed conversion raises and where it does not *)

(** C5 as the code has it.  A conversion that fails raises a
    unit-conversion error in the electricity calculator (declared unit
    not kWh), in the fugitive calculator (declared unit not kg, be it
    with a refrigerant type or with a registry factor that carries a
    co2e_factor) and in the combustion arithmetic of the stationary and
    mobile calculators (factor in another unit than the declared one);
    those two calculators never get there, since the factor they resolve
    is in the declared unit.  The distance-based Scope 3 path alone
    substitutes silently: with a resolved factor it always returns a
    result, a failed conversion of the distance leaves the distance as
    declared, and a failed conversion of the weight leaves the weight as
    declared. *)
Theorem failed_conversion (convert : Converter) (self : BaseScopeCalculator.t)
        (activity : ActivityRecord.t) :
  let quantity := ActivityRecord.quantity activity in
  let unit := ActivityRecord.unit activity in
  (PyStr.lower unit <> "kwh" -> PyStr.lower unit <> "kilowatt_hour" ->
   convert quantity unit "kWh" = None ->
   ElectricityCalculator.calculate convert self activity
   = Err (CannotConvert unit "kWh"))
  /\ (ActivityRecord.custom_factor activity = None ->
      ActivityRecord.refrigerant_type activity <> None ->
      PyStr.lower unit <> "kg" ->
      convert quantity unit "kg" = None ->
      FugitiveEmissionsCalculator.calculate convert self activity
      = Err (CannotConvert unit "kg"))
  /\ (forall factor co2e_factor,
        ActivityRecord.custom_factor activity = None ->
        ActivityRecord.refrigerant_type activity = None ->
        FactorRegistry.find_factor (BaseScopeCalculator.registry self)
          "fugitive_emissions" None None (Some unit)
          (ActivityRecord.factor_source activity) = Some factor ->
        EmissionFactor.co2e_factor factor = Some co2e_factor ->
        PyStr.lower unit <> "kg" ->
        convert quantity unit "kg" = None ->
        FugitiveEmissionsCalculator.calculate convert self activity
        = Err (CannotConvert unit "kg"))
  /\ (forall cat factor,
        PyStr.lower unit <> PyStr.lower (EmissionFactor.activity_unit factor) ->
        convert quantity unit (EmissionFactor.activity_unit factor) = None ->
        Engine.combustion_with_factor convert self activity cat factor
        = Err (CannotConvert unit (EmissionFactor.activity_unit factor)))
  /\ (forall factor,
        StationaryCombustionCalculator.resolve self activity = Some factor
        \/ MobileCombustionCalculator.resolve self activity = Some factor ->
        PyStr.lower unit = PyStr.lower (EmissionFactor.activity_unit factor))
  /\ (forall from_unit to_unit,
        error_kind (CannotConvert from_unit to_unit) = KUnitConversionError
        /\ StationaryCombustionCalculator.calculate convert self activity
           <> Err (CannotConvert from_unit to_unit)
        /\ MobileCombustionCalculator.calculate convert self activity
           <> Err (CannotConvert from_unit to_unit))
  /\ (forall distance factor,
        Scope3Calculator.resolve_distance self activity = Some factor ->
        exists r,
          Scope3Calculator._calculate_distance_based convert self activity distance
          = Ok [r]
          /\ EmissionResult.total_co2e_kg r
             = (Scope3Calculator.distance_quantity convert activity
                  (Scope3Calculator.distance_in_factor_unit convert activity
                                                            distance factor) factor
                * Engine.co2e_or_co2 factor)%float)
  /\ (forall distance factor distance_unit,
        ActivityRecord.distance_unit activity = Some distance_unit ->
        convert distance distance_unit (EmissionFactor.activity_unit factor) = None ->
        Scope3Calculator.distance_in_factor_unit convert activity distance factor
        = distance)
  /\ (forall weight weight_unit,
        ActivityRecord.weight_unit activity = Some weight_unit ->
        convert weight weight_unit "metric_ton" = None ->
        Scope3Calculator.weight_in_tonnes convert activity weight = weight).
Proof.
  intros quantity unit. subst quantity unit.
  split.
  { intros H1 H2 Hc. unfold ElectricityCalculator.calculate,
      ElectricityCalculator.quantity_in_kwh.
    apply String.eqb_neq in H1, H2. rewrite H1, H2. simpl.
    unfold Engine.convert_or_raise. now rewrite Hc. }
  split.
  { intros Hcustom Href Hu Hc. unfold FugitiveEmissionsCalculator.calculate.
    rewrite Hcustom.
    destruct (ActivityRecord.refrigerant_type activity) as [ref |]; [| congruence].
    unfold FugitiveEmissionsCalculator.with_refrigerant,
      FugitiveEmissionsCalculator.quantity_in_kg.
    apply String.eqb_neq in Hu. rewrite Hu. simpl.
    unfold Engine.convert_or_raise. now rewrite Hc. }
  split.
  { intros factor co2e_factor Hcustom Href Hf Hco2e Hu Hc.
    unfold FugitiveEmissionsCalculator.calculate. rewrite Hcustom, Href.
    unfold FugitiveEmissionsCalculator.without_refrigerant. rewrite Hf, Hco2e.
    unfold FugitiveEmissionsCalculator.quantity_in_kg.
    apply String.eqb_neq in Hu. rewrite Hu. simpl.
    unfold Engine.convert_or_raise. now rewrite Hc. }
  split.
  { intros cat factor Hu Hc. unfold Engine.combustion_with_factor.
    apply String.eqb_neq in Hu. rewrite Hu. simpl.
    unfold Engine.convert_or_raise. now rewrite Hc. }
  split.
  { intros factor. apply combustion_resolved_unit. }
  split.
  { intros from_unit to_unit. split; [reflexivity |].
    split; intros H.
    - pose proof (stationary_errors convert self activity) as E.
      rewrite H in E. discriminate E.
    - pose proof (mobile_errors convert self activity) as E.
      rewrite H in E. discriminate E. }
  split.
  { intros distance factor Hres.
    unfold Scope3Calculator._calculate_distance_based. rewrite Hres.
    eexists. split; reflexivity. }
  split.
  { intros distance factor distance_unit Hdu Hc.
    unfold Scope3Calculator.distance_in_factor_unit. rewrite Hdu.
    destruct (_ && _); [| reflexivity].
    unfold Engine.convert_or_keep. now rewrite Hc. }
  intros weight weight_unit Hwu Hc.
  unfold Scope3Calculator.weight_in_tonnes. rewrite Hwu.
  destruct (_ && _); [| reflexivity].
  unfold Engine.convert_or_keep. now rewrite Hc.
Qed.

(** C5 fails on the distance-based Scope 3 path.  100 km of upstream
    transport by truck, 2 tonnes, against a freight factor per
    "tonne_km": the factor's unit differs from the declared distance
    unit, the conversion from "km" to "tonne_km" fails, and the
    calculation raises nothing; it multiplies the unconverted 100 by the
    weight and the factor. *)
Lemma distance_conversion_swallowed :
  let self := Samples.calculator [Samples.freight_truck] in
  let activity :=
    Samples.activity SCOPE_3 (Some UPSTREAM_TRANSPORT) 1%float "shipment" None
                     None None None (Some 100%float) (Some "km")
                     (Some 2%float) (Some "tonne") (Some "truck") in
  Scope3Calculator.resolve_distance self activity = Some Samples.freight_truck
  /\ PyStr.lower "km" <> PyStr.lower (EmissionFactor.activity_unit Samples.freight_truck)
  /\ Samples.table_convert 100%float "km" "tonne_km" = None
  /\ exists r,
      Scope3Calculator.calculate Samples.table_convert self activity = Ok [r]
      /\ EmissionResult.activity_quantity r = Some 200%float
      /\ EmissionResult.total_co2e_kg r = 25%float.
Proof.
  split; [reflexivity |]. split; [discriminate |]. split; [reflexivity |].
  eexists. repeat split.
Qed.

Lemma failed_conversion_witness :
  let convert := Samples.table_convert in
  let freight := Samples.calculator [Samples.freight_truck] in
  let gases := Samples.calculator [ConversionSamples.sf6_gallon] in
  let boiler := Samples.calculator (FactorRegistry._factors Samples.fuels) in
  ElectricityCalculator.calculate convert freight ConversionSamples.gallons
  = Err (CannotConvert "gallon" "kWh")
  /\ FugitiveEmissionsCalculator.calculate convert gases ConversionSamples.leak_gallon
     = Err (CannotConvert "gallon" "kg")
  /\ FugitiveEmissionsCalculator.calculate convert gases ConversionSamples.top_up
     = Err (CannotConvert "gallon" "kg")
  /\ Engine.combustion_with_factor convert boiler ConversionSamples.burn_diesel
       STATIONARY_COMBUSTION Samples.natural_gas
     = Err (CannotConvert "Gallon" "therm")
  /\ PyStr.lower "Gallon"
     = PyStr.lower (EmissionFactor.activity_unit Samples.diesel_gallon)
  /\ (exists r,
        Scope3Calculator._calculate_distance_based convert freight
          ConversionSamples.shipment 100%float = Ok [r]
        /\ EmissionResult.total_co2e_kg r = 25%float)
  /\ Scope3Calculator.distance_in_factor_unit convert ConversionSamples.shipment
       100%float Samples.freight_truck = 100%float
  /\ Scope3Calculator.weight_in_tonnes convert ConversionSamples.pallets 2%float
     = 2%float.
Proof.
  intros convert freight gases boiler.
  split.
  { destruct (failed_conversion convert freight ConversionSamples.gallons)
      as (H & _).
    apply H; [discriminate | discriminate | reflexivity]. }
  split.
  { destruct (failed_conversion convert gases ConversionSamples.leak_gallon)
      as (_ & H & _).
    apply H; [reflexivity | discriminate | discriminate | reflexivity]. }
  split.
  { destruct (failed_conversion convert gases ConversionSamples.top_up)
      as (_ & _ & H & _).
    apply (H ConversionSamples.sf6_gallon 23500%float);
      [reflexivity | reflexivity | reflexivity | reflexivity | discriminate
       | reflexivity]. }
  split.
  { destruct (failed_conversion convert boiler ConversionSamples.burn_diesel)
      as (_ & _ & _ & H & _).
    apply (H STATIONARY_COMBUSTION Samples.natural_gas);
      [discriminate | reflexivity]. }
  split.
  { destruct (failed_conversion convert boiler ConversionSamples.burn_diesel)
      as (_ & _ & _ & _ & H & _).
    apply (H Samples.diesel_gallon). left. reflexivity. }
  split.
  { destruct (failed_conversion convert freight ConversionSamples.shipment)
      as (_ & _ & _ & _ & _ & _ & H & _).
    destruct (H 100%float Samples.freight_truck eq_refl) as (r & Hr & Ht).
    exists r. split; [exact Hr |]. rewrite Ht. reflexivity. }
  split.
  { destruct (failed_conversion convert freight ConversionSamples.shipment)
      as (_ & _ & _ & _ & _ & _ & _ & H & _).
    apply (H 100%float Samples.freight_truck "km"); reflexivity. }
  destruct (failed_conversion convert freight ConversionSamples.pallets)
    as (_ & _ & _ & _ & _ & _ & _ & _ & H).
  apply (H 2%float "pallet"); reflexivity.
Defined.

(* ================================================================== *)
(** ** Every result stands on a resolution, every error on a failure *)

Lemma given_or_else o default : Resolution.given o default = PyStr.or_else o default.
Proof. destruct o as [[| c s] |]; reflexivity. Qed.

Lemma stated_truthy o : Resolution.stated o <-> PyStr.truthy_opt o = true.
Proof.
  unfold Resolution.stated. destruct o as [[| c s] |]; simpl; split.
  - intros (s & H & Hs). injection H as <-. congruence.
  - discriminate.
  - reflexivity.
  - intros _. eexists. split; [reflexivity | discriminate].
  - intros (s & H & _). discriminate.
  - discriminate.
Qed.

Lemma first_hit_spec results f :
  Scope3Calculator.first_hit results = Some f <-> exists rest, results = f :: rest.
Proof.
  destruct results as [| g rest]; simpl; split.
  - discriminate.
  - intros (r & H). discriminate.
  - intros H. injection H as ->. now exists rest.
  - intros (r & H). injection H as -> _. reflexivity.
Qed.

Lemma or_then_iff (P P' Q Q' : EmissionFactor.t -> Prop) :
  (forall f, P f <-> P' f) -> (forall f, Q f <-> Q' f) ->
  forall f, Resolution.or_then P Q f <-> Resolution.or_then P' Q' f.
Proof.
  intros HP HQ f. unfold Resolution.or_then, Resolution.misses.
  split; intros [H | [Hm H]].
  - left. now apply HP.
  - right. split; [| now apply HQ]. intros g Hg. apply (Hm g). now apply HP.
  - left. now apply HP.
  - right. split; [| now apply HQ]. intros g Hg. apply (Hm g). now apply HP.
Qed.

(** [a if a is not None else b] as a chain of two steps. *)
Lemma chain2 (a b : option EmissionFactor.t) (P Q : EmissionFactor.t -> Prop) :
  (forall f, a = Some f <-> P f) -> (forall f, b = Some f <-> Q f) ->
  forall f,
    match a with Some g => Some g | None => b end = Some f
    <-> Resolution.or_then P Q f.
Proof.
  intros HP HQ f. unfold Resolution.or_then, Resolution.misses.
  destruct a as [g |]; split.
  - intros H. left. now apply HP.
  - intros [H | [Hm _]]; [now apply HP |].
    exfalso. apply (Hm g). now apply HP.
  - intros H. right. split; [| now apply HQ].
    intros g Hg. apply HP in Hg. discriminate.
  - intros [H | [_ H]]; [apply HP in H; discriminate | now apply HQ].
Qed.

Lemma guarded (c : bool) (C : Prop) (a : option EmissionFactor.t)
      (P : EmissionFactor.t -> Prop) :
  (C <-> c = true) -> (forall f, a = Some f <-> P f) ->
  forall f, (if c then a else None) = Some f <-> C /\ P f.
Proof.
  intros HC HP f. destruct c; split.
  - intros H. split; [now apply HC | now apply HP].
  - intros [_ H]. now apply HP.
  - discriminate.
  - intros [H _]. apply HC in H. discriminate.
Qed.

Lemma chain_misses (a : option EmissionFactor.t) (P : EmissionFactor.t -> Prop) :
  (forall f, a = Some f <-> P f) -> a = None -> Resolution.misses P.
Proof. intros HP Ha f Hf. apply HP in Hf. congruence. Qed.

Lemma ends_impl (good good' : EmissionResult.t -> Prop) (bad bad' : Error -> Prop) o :
  (forall r, good r -> good' r) -> (forall e, bad e -> bad' e) ->
  Resolution.ends good bad o -> Resolution.ends good' bad' o.
Proof.
  intros Hg Hb. destruct o as [results | e]; simpl; [| apply Hb].
  intros [Hne Hall]. split; [exact Hne |].
  eapply Forall_impl; [| exact Hall]. exact Hg.
Qed.

Section Chains.
Variable convert : Converter.
Variable self : BaseScopeCalculator.t.
Variable activity : ActivityRecord.t.

Lemma stationary_chain f :
  StationaryCombustionCalculator.resolve self activity = Some f
  <-> Resolution.stationary_factor self activity f.
Proof.
  unfold StationaryCombustionCalculator.resolve, Resolution.stationary_factor.
  apply guarded; [apply stated_truthy | reflexivity].
Qed.

Lemma mobile_chain f :
  MobileCombustionCalculator.resolve self activity = Some f
  <-> Resolution.mobile_factor self activity f.
Proof.
  unfold MobileCombustionCalculator.resolve, Resolution.mobile_factor,
    Resolution.exact, MobileCombustionCalculator.lookup.
  change (Resolution.fuel activity) with (Engine.fuel_key activity).
  rewrite !stated_truthy.
  destruct (PyStr.truthy_opt (ActivityRecord.vehicle_type activity));
    destruct (FactorRegistry.find_factor _ _ _ _ _ _) as [g |];
    destruct (PyStr.truthy_opt (Engine.fuel_key activity));
    split; intros H; try discriminate H; try tauto;
    destruct H as [[H | H] H']; try discriminate; try exact H'.
Qed.

Lemma location_chain f :
  ElectricityCalculator._find_location_factor self activity = Some f
  <-> Resolution.location_factor self activity f.
Proof.
  unfold ElectricityCalculator._find_location_factor, Resolution.location_factor.
  cbv zeta. revert f. apply chain2.
  - intros f. apply guarded; [apply stated_truthy | reflexivity].
  - apply chain2; [| reflexivity].
    intros f. apply guarded; [apply stated_truthy | reflexivity].
Qed.

Lemma preferred_region_or :
  Resolution.preferred_region activity
  = opt_or (ActivityRecord.grid_subregion activity) (ActivityRecord.country activity).
Proof.
  unfold Resolution.preferred_region, opt_or.
  destruct (ActivityRecord.grid_subregion activity) as [[| c s] |]; reflexivity.
Qed.

Lemma market_chain f :
  ElectricityCalculator._find_market_factor self activity = Some f
  <-> Resolution.market_factor self activity f.
Proof.
  unfold ElectricityCalculator._find_market_factor, Resolution.market_factor.
  cbv zeta. revert f. apply chain2; [| apply location_chain].
  intros f. unfold Resolution.by_preference, Resolution.grid.
  rewrite preferred_region_or.
  destruct (ActivityRecord.factor_source activity) as [source |]; split.
  - intros H. now exists source.
  - intros (s & Hs & H). now injection Hs as <-.
  - discriminate.
  - intros (s & Hs & _). discriminate.
Qed.

Lemma naics_text_or :
  Resolution.naics_text activity
  = PyStr.or_else (ActivityRecord.naics_code activity) "".
Proof. apply given_or_else. Qed.

Lemma mode_of_given : Resolution.mode activity = Scope3Calculator.mode_of activity.
Proof.
  unfold Resolution.mode, Scope3Calculator.mode_of, opt_or.
  destruct (ActivityRecord.transport_mode activity) as [[| c s] |];
    destruct (ActivityRecord.vehicle_type activity) as [[| d t] |]; reflexivity.
Qed.

Lemma top_hit_first query source category activity_unit f :
  Scope3Calculator.first_hit
    (FactorRegistry.search (BaseScopeCalculator.registry self) query source category
                           None None None activity_unit None 1) = Some f
  <-> Resolution.top_hit self query source category activity_unit f.
Proof. apply first_hit_spec. Qed.

Lemma spend_chain f :
  Scope3Calculator.resolve_spend self activity = Some f
  <-> Resolution.spend_factor self activity f.
Proof.
  unfold Scope3Calculator.resolve_spend, Resolution.spend_factor,
    Resolution.by_naics, Resolution.by_naics_text, Resolution.by_exiobase.
  cbv zeta. rewrite naics_text_or.
  pose proof (stated_truthy (ActivityRecord.naics_code activity)) as Hs.
  pose proof (fun g => top_hit_first
                (PyStr.or_else (ActivityRecord.naics_code activity) "")
                (Some USEEIO) None None g) as Hu.
  pose proof (fun g => top_hit_first
                (PyStr.or_else (ActivityRecord.naics_code activity) "")
                (Some EXIOBASE) None None g) as He.
  unfold Resolution.or_then, Resolution.misses.
  destruct (PyStr.truthy_opt (ActivityRecord.naics_code activity)).
  - assert (S : Resolution.stated (ActivityRecord.naics_code activity))
      by now apply Hs.
    destruct (FactorRegistry.find_factor _ _ _ _ _ _) as [a |].
    + split; [intros H; left; now split |].
      intros [[_ H] | [Hm _]]; [exact H |].
      exfalso. apply (Hm a). now split.
    + destruct (Scope3Calculator.first_hit _) as [b |] eqn:Hb.
      * split.
        { intros H. right. split; [intros g [_ Hg]; discriminate |].
          left. split; [exact S |]. apply Hu. congruence. }
        intros [[_ H] | [_ [[_ H] | [Hm _]]]]; [discriminate | |].
        { apply Hu in H. congruence. }
        exfalso. apply (Hm b). split; [exact S | now apply Hu].
      * split.
        { intros H. right. split; [intros g [_ Hg]; discriminate |].
          right. split; [| now apply He].
          intros g [_ Hg]. apply Hu in Hg. discriminate. }
        intros [[_ H] | [_ [[_ H] | [_ H]]]]; [discriminate | |].
        { apply Hu in H. discriminate. }
        now apply He.
  - assert (S : ~ Resolution.stated (ActivityRecord.naics_code activity)).
    { intros X. apply Hs in X. discriminate. }
    split.
    + intros H. right. split; [intros g [X _]; tauto |].
      right. split; [intros g [X _]; tauto | now apply He].
    + intros [[X _] | [_ [[X _] | [_ H]]]]; [tauto | tauto | now apply He].
Qed.

Lemma distance_chain f :
  Scope3Calculator.resolve_distance self activity = Some f
  <-> Resolution.distance_factor self activity f.
Proof.
  unfold Scope3Calculator.resolve_distance, Resolution.distance_factor,
    Resolution.by_mode, Resolution.by_mode_text.
  rewrite mode_of_given, given_or_else.
  cbv zeta. revert f. apply chain2; [reflexivity |].
  intros f. apply top_hit_first.
Qed.

(** The combustion arithmetic on a factor in the activity's unit. *)
Lemma combustion_names cat f :
  PyStr.lower (ActivityRecord.unit activity)
  = PyStr.lower (EmissionFactor.activity_unit f) ->
  exists r,
    Engine.combustion_with_factor convert self activity cat f = Ok [r]
    /\ Resolution.names r f.
Proof.
  intros Hu. unfold Engine.combustion_with_factor.
  rewrite Hu, String.eqb_refl. simpl.
  destruct (per_gas_breakdown_ok self (ActivityRecord.quantity activity) f)
    as [b ->].
  simpl. eexists. split; [reflexivity | split; reflexivity].
Qed.

Lemma stationary_stands :
  Resolution.stationary_ends self activity
    (StationaryCombustionCalculator.calculate convert self activity).
Proof.
  unfold Resolution.stationary_ends, StationaryCombustionCalculator.calculate.
  destruct (ActivityRecord.custom_factor activity) as [cf |] eqn:Hc.
  - simpl. split; [discriminate |].
    constructor; [| constructor]. left. exists cf. repeat split. exact Hc.
  - destruct (StationaryCombustionCalculator.resolve self activity) as [f |] eqn:Hr.
    + destruct (combustion_names STATIONARY_COMBUSTION f) as (r & -> & Hn).
      { apply (combustion_resolved_unit self). now left. }
      simpl. split; [discriminate |].
      constructor; [| constructor]. right. split; [exact Hc |].
      exists f. split; [now apply stationary_chain | exact Hn].
    + simpl. split; [reflexivity |]. split; [exact Hc |].
      apply (chain_misses _ _ stationary_chain Hr).
Qed.

Lemma mobile_stands :
  Resolution.mobile_ends self activity
    (MobileCombustionCalculator.calculate convert self activity).
Proof.
  unfold Resolution.mobile_ends, MobileCombustionCalculator.calculate.
  destruct (ActivityRecord.custom_factor activity) as [cf |] eqn:Hc.
  - simpl. split; [discriminate |].
    constructor; [| constructor]. left. exists cf. repeat split. exact Hc.
  - destruct (MobileCombustionCalculator.resolve self activity) as [f |] eqn:Hr.
    + destruct (combustion_names MOBILE_COMBUSTION f) as (r & -> & Hn).
      { apply (combustion_resolved_unit self). now right. }
      simpl. split; [discriminate |].
      constructor; [| constructor]. right. split; [exact Hc |].
      exists f. split; [now apply mobile_chain | exact Hn].
    + simpl. split; [reflexivity |]. split; [exact Hc |].
      apply (chain_misses _ _ mobile_chain Hr).
Qed.

Lemma process_stands :
  Resolution.process_ends self activity
    (ProcessEmissionsCalculator.calculate self activity).
Proof.
  unfold Resolution.process_ends, ProcessEmissionsCalculator.calculate.
  destruct (ActivityRecord.custom_factor activity) as [cf |] eqn:Hc.
  - simpl. split; [discriminate |].
    constructor; [| constructor]. left. exists cf. repeat split. exact Hc.
  - cbv zeta.
    destruct (FactorRegistry.find_factor _ _ _ _ _ _) as [f |] eqn:Hf.
    + destruct (per_gas_breakdown_ok self (ActivityRecord.quantity activity) f)
        as [b ->].
      simpl. split; [discriminate |].
      constructor; [| constructor]. right. split; [exact Hc |].
      exists f. split; [exact Hf | split; reflexivity].
    + simpl. split; [reflexivity |]. split; [exact Hc |].
      intros f Hg. unfold Resolution.process_factor, Resolution.exact in Hg.
      congruence.
Qed.

Lemma quantity_in_kg_spec :
  match FugitiveEmissionsCalculator.quantity_in_kg convert activity with
  | Ok quantity => Resolution.in_kg convert activity quantity
  | Err e => Resolution.no_conversion convert activity "kg" e
  end.
Proof.
  unfold FugitiveEmissionsCalculator.quantity_in_kg, Resolution.in_kg,
    Resolution.no_conversion, Engine.convert_or_raise.
  destruct (String.eqb_spec (PyStr.lower (ActivityRecord.unit activity)) "kg")
    as [Hu | Hu]; simpl.
  - left. now split.
  - destruct (convert _ _ _) as [v |] eqn:Hv.
    + right. now split.
    + repeat split; assumption.
Qed.

Lemma quantity_in_kwh_spec :
  match ElectricityCalculator.quantity_in_kwh convert activity with
  | Ok quantity => Resolution.in_kwh convert activity quantity
  | Err e => Resolution.no_conversion convert activity "kWh" e
  end.
Proof.
  unfold ElectricityCalculator.quantity_in_kwh, Resolution.in_kwh,
    Resolution.no_conversion, Engine.convert_or_raise.
  cbv zeta.
  destruct (String.eqb_spec (PyStr.lower (ActivityRecord.unit activity)) "kwh")
    as [Hu | Hu]; simpl.
  - left. split; [now left | reflexivity].
  - destruct (String.eqb_spec (PyStr.lower (ActivityRecord.unit activity))
                              "kilowatt_hour") as [Hk | Hk]; simpl.
    + left. split; [now right | reflexivity].
    + destruct (convert _ _ _) as [v |] eqn:Hv.
      * right. repeat split; assumption.
      * repeat split; assumption.
Qed.

Lemma refrigerant_gwp_spec refrigerant :
  match FugitiveEmissionsCalculator.refrigerant_gwp self refrigerant with
  | Ok gwp => Resolution.refrigerant_gwp self refrigerant gwp
  | Err e =>
      error_kind e = KNoMatchingFactor
      /\ forall gwp, ~ Resolution.refrigerant_gwp self refrigerant gwp
  end.
Proof.
  unfold FugitiveEmissionsCalculator.refrigerant_gwp, Resolution.refrigerant_gwp,
    Resolution.top_hit.
  cbv zeta.
  destruct (get_gwp _ _) as [v | e]; [now left |].
  destruct (FactorRegistry.search _ _ _ _ _ _ _ _ _ _) as [| f rest].
  - split; [reflexivity |].
    intros gwp [H | (_ & g & (r & Hr) & _)]; discriminate.
  - destruct (EmissionFactor.co2e_factor f) as [v |] eqn:Hv.
    + right. split; [discriminate |]. exists f. split; [now exists rest | exact Hv].
    + split; [reflexivity |].
      intros gwp [H | (_ & g & (r & Hr) & Hg)]; [discriminate |].
      injection Hr as <- _. congruence.
Qed.

Lemma fugitive_stands :
  Resolution.fugitive_ends convert self activity
    (FugitiveEmissionsCalculator.calculate convert self activity).
Proof.
  unfold Resolution.fugitive_ends, FugitiveEmissionsCalculator.calculate.
  destruct (ActivityRecord.custom_factor activity) as [cf |] eqn:Hc.
  - simpl. split; [discriminate |].
    constructor; [| constructor]. left. exists cf. repeat split. exact Hc.
  - pose proof quantity_in_kg_spec as Hq.
    destruct (ActivityRecord.refrigerant_type activity) as [ref |] eqn:Href.
    + unfold FugitiveEmissionsCalculator.with_refrigerant.
      destruct (FugitiveEmissionsCalculator.quantity_in_kg convert activity)
        as [q | e]; simpl; [| right; right; now split].
      pose proof (refrigerant_gwp_spec ref) as Hg.
      destruct (FugitiveEmissionsCalculator.refrigerant_gwp self ref)
        as [gwp | e]; simpl.
      * split; [discriminate |]. constructor; [| constructor].
        right. right. split; [exact Hc |].
        exists ref, gwp, q. repeat split; assumption.
      * right. left. destruct Hg as [Hk Hg].
        split; [exact Hk |]. split; [exact Hc |]. now exists ref.
    + unfold FugitiveEmissionsCalculator.without_refrigerant. cbv zeta.
      destruct (FactorRegistry.find_factor _ _ _ _ _ _) as [f |] eqn:Hf.
      * destruct (EmissionFactor.co2e_factor f) as [v |] eqn:Hv.
        { destruct (FugitiveEmissionsCalculator.quantity_in_kg convert activity)
            as [q | e]; simpl; [| right; right; now split].
          split; [discriminate |]. constructor; [| constructor].
          right. left. split; [exact Hc |]. exists f. split.
          - split; [exact Href |]. split; [exact Hf | congruence].
          - split; reflexivity. }
        simpl. left. split; [reflexivity |]. split; [reflexivity |].
        split; [exact Hc |].
        intros g (_ & Hg & Hgv). unfold Resolution.exact in Hg. congruence.
      * simpl. left. split; [reflexivity |]. split; [reflexivity |].
        split; [exact Hc |].
        intros g (_ & Hg & _). unfold Resolution.exact in Hg. congruence.
Qed.

Lemma method_result_names quantity_kwh method notes f :
  exists r,
    ElectricityCalculator.method_result self activity quantity_kwh method notes
                                        (Some f) = Ok [r]
    /\ EmissionResult.scope2_method r = Some method
    /\ Resolution.names r f.
Proof.
  unfold ElectricityCalculator.method_result.
  destruct (per_gas_breakdown_ok self quantity_kwh f) as [b ->]. simpl.
  eexists. repeat split; reflexivity.
Qed.

Lemma electricity_stands :
  Resolution.electricity_ends convert self activity
    (ElectricityCalculator.calculate convert self activity).
Proof.
  unfold Resolution.electricity_ends, ElectricityCalculator.calculate.
  pose proof quantity_in_kwh_spec as Hq.
  destruct (ElectricityCalculator.quantity_in_kwh convert activity) as [q | e];
    simpl; [| now left].
  destruct (ActivityRecord.custom_factor activity) as [cf |] eqn:Hc.
  - simpl. split; [discriminate |].
    constructor; [| constructor]. left. exists cf, q. repeat split; assumption.
  - assert (Hl : forall location r,
               ElectricityCalculator._find_location_factor self activity
               = Some location ->
               EmissionResult.scope2_method r = Some LOCATION_BASED ->
               Resolution.names r location ->
               EmissionResult.scope2_method r = Some LOCATION_BASED
               /\ Resolution.on_factor activity
                    (Resolution.location_factor self activity) r).
    { intros location r Hl Hm Hn. split; [exact Hm |]. split; [exact Hc |].
      exists location. split; [now apply location_chain | exact Hn]. }
    assert (Hm : forall market r,
               ElectricityCalculator._find_market_factor self activity
               = Some market ->
               EmissionResult.scope2_method r = Some MARKET_BASED ->
               Resolution.names r market ->
               EmissionResult.scope2_method r = Some MARKET_BASED
               /\ Resolution.on_factor activity
                    (Resolution.market_factor self activity) r).
    { intros market r Hl' Hm Hn. split; [exact Hm |]. split; [exact Hc |].
      exists market. split; [now apply market_chain | exact Hn]. }
    destruct (ElectricityCalculator._find_location_factor self activity)
      as [location |] eqn:Hloc;
      destruct (ElectricityCalculator._find_market_factor self activity)
        as [market |] eqn:Hmar.
    + destruct (method_result_names q LOCATION_BASED [] location)
        as (r1 & -> & Hm1 & Hn1).
      destruct (method_result_names q MARKET_BASED [NoteMarketProxy] market)
        as (r2 & -> & Hm2 & Hn2).
      simpl. split; [discriminate |].
      constructor; [right; left; now apply (Hl location) |].
      constructor; [right; right; now apply (Hm market) | constructor].
    + destruct (method_result_names q LOCATION_BASED [] location)
        as (r1 & -> & Hm1 & Hn1).
      simpl. split; [discriminate |].
      constructor; [right; left; now apply (Hl location) | constructor].
    + destruct (method_result_names q MARKET_BASED [NoteMarketProxy] market)
        as (r2 & -> & Hm2 & Hn2).
      simpl. split; [discriminate |].
      constructor; [right; right; now apply (Hm market) | constructor].
    + simpl. right. split.
      * split; [reflexivity |]. split; [exact Hc |].
        apply (chain_misses _ _ location_chain Hloc).
      * apply (chain_misses _ _ market_chain Hmar).
Qed.

Lemma travels_spec category :
  Resolution.travels category
  <-> Scope3Calculator.is_distance_category category = true.
Proof.
  unfold Resolution.travels.
  destruct category; simpl; split; intros H; try reflexivity; try discriminate H;
    try tauto;
    repeat (destruct H as [H | H]; [discriminate H |]); contradiction.
Qed.

Lemma is_waste_spec category :
  category = WASTE <-> Scope3Calculator.is_waste category = true.
Proof. destruct category; simpl; split; intros H; congruence. Qed.

Lemma spend_stands :
  Resolution.ends
    (fun r => exists f, Resolution.spend_factor self activity f
                        /\ Resolution.names r f)
    (fun e => error_kind e = KNoMatchingFactor
              /\ Resolution.misses (Resolution.spend_factor self activity))
    (Scope3Calculator._calculate_spend_based self activity).
Proof.
  unfold Scope3Calculator._calculate_spend_based.
  destruct (Scope3Calculator.resolve_spend self activity) as [f |] eqn:Hr; simpl.
  - split; [discriminate |]. constructor; [| constructor].
    exists f. split; [now apply spend_chain | split; reflexivity].
  - split; [reflexivity |]. apply (chain_misses _ _ spend_chain Hr).
Qed.

Lemma distance_stands distance :
  Resolution.ends
    (fun r => exists f, Resolution.distance_factor self activity f
                        /\ Resolution.names r f)
    (fun e => error_kind e = KNoMatchingFactor
              /\ Resolution.misses (Resolution.distance_factor self activity))
    (Scope3Calculator._calculate_distance_based convert self activity distance).
Proof.
  unfold Scope3Calculator._calculate_distance_based.
  destruct (Scope3Calculator.resolve_distance self activity) as [f |] eqn:Hr; simpl.
  - split; [discriminate |]. constructor; [| constructor].
    exists f. split; [now apply distance_chain | split; reflexivity].
  - split; [reflexivity |]. apply (chain_misses _ _ distance_chain Hr).
Qed.

Lemma waste_stands :
  Resolution.ends
    (fun r => exists f, Resolution.waste_factor self activity f
                        /\ Resolution.names r f)
    (fun e => error_kind e = KNoMatchingFactor
              /\ Resolution.misses (Resolution.waste_factor self activity))
    (Scope3Calculator._calculate_waste self activity).
Proof.
  unfold Scope3Calculator._calculate_waste. cbv zeta.
  assert (Hchain : forall f,
             match
               FactorRegistry.find_factor (BaseScopeCalculator.registry self) "waste"
                 (Some (Resolution.waste_kind activity ++ "_"
                        ++ Resolution.disposal activity)%string) None None None
             with
             | Some g => Some g
             | None =>
                 Scope3Calculator.first_hit
                   (FactorRegistry.search (BaseScopeCalculator.registry self)
                      ("waste " ++ Resolution.waste_kind activity ++ " "
                       ++ Resolution.disposal activity)%string
                      None None None None None None None 1)
             end = Some f
             <-> Resolution.waste_factor self activity f).
  { apply chain2; [reflexivity |]. intros f. apply top_hit_first. }
  unfold Resolution.waste_kind, Resolution.disposal in Hchain.
  rewrite !given_or_else in Hchain.
  destruct (match FactorRegistry.find_factor _ _ _ _ _ _ with
            | Some g => Some g
            | None => _
            end) as [f |] eqn:Hr; simpl.
  - split; [discriminate |]. constructor; [| constructor].
    exists f. split; [now apply Hchain | split; reflexivity].
  - split; [reflexivity |]. apply (chain_misses None _ Hchain eq_refl).
Qed.

Lemma generic_stands :
  Resolution.ends
    (fun r => exists f, Resolution.generic_factor self activity f
                        /\ Resolution.names r f)
    (fun e => error_kind e = KNoMatchingFactor
              /\ Resolution.misses (Resolution.generic_factor self activity))
    (Scope3Calculator._calculate_activity_based self activity).
Proof.
  unfold Scope3Calculator._calculate_activity_based. cbv zeta.
  assert (Hchain : forall f,
             match
               FactorRegistry.find_factor (BaseScopeCalculator.registry self)
                 (Resolution.category_text activity) None None
                 (Some (ActivityRecord.unit activity))
                 (ActivityRecord.factor_source activity)
             with
             | Some g => Some g
             | None =>
                 Scope3Calculator.first_hit
                   (FactorRegistry.search (BaseScopeCalculator.registry self)
                      (Resolution.category_text activity)
                      None None None None None
                      (Some (ActivityRecord.unit activity)) None 1)
             end = Some f
             <-> Resolution.generic_factor self activity f).
  { apply chain2; [reflexivity |]. intros f. apply top_hit_first. }
  unfold Resolution.category_text in Hchain.
  destruct (match FactorRegistry.find_factor _ _ _ _ _ _ with
            | Some g => Some g
            | None => _
            end) as [f |] eqn:Hr.
  - destruct (per_gas_breakdown_ok self (ActivityRecord.quantity activity) f)
      as [b ->].
    simpl. split; [discriminate |]. constructor; [| constructor].
    exists f. split; [now apply Hchain | split; reflexivity].
  - simpl. split; [reflexivity |]. apply (chain_misses None _ Hchain eq_refl).
Qed.

Section Route.
Variable category : Scope3Category.
Hypothesis Hcat : ActivityRecord.scope3_category activity = Some category.

Lemma route_spend f :
  ActivityRecord.spend_amount activity <> None ->
  Resolution.spend_factor self activity f
  <-> Resolution.scope3_factor self activity f.
Proof.
  intros Hs. unfold Resolution.scope3_factor. split.
  - intros H. exists category. split; [exact Hcat |]. cbv zeta. tauto.
  - intros (c & Hcc & H). rewrite Hcat in Hcc. injection Hcc as <-.
    cbv zeta in H. tauto.
Qed.

Lemma route_distance f :
  ActivityRecord.spend_amount activity = None ->
  ActivityRecord.distance activity <> None ->
  Resolution.travels category ->
  Resolution.distance_factor self activity f
  <-> Resolution.scope3_factor self activity f.
Proof.
  intros Hs Hd Ht. unfold Resolution.scope3_factor. split.
  - intros H. exists category. split; [exact Hcat |]. cbv zeta. tauto.
  - intros (c & Hcc & H). rewrite Hcat in Hcc. injection Hcc as <-.
    cbv zeta in H. tauto.
Qed.

Lemma route_waste f :
  ActivityRecord.spend_amount activity = None ->
  ~ (ActivityRecord.distance activity <> None /\ Resolution.travels category) ->
  category = WASTE ->
  Resolution.waste_factor self activity f
  <-> Resolution.scope3_factor self activity f.
Proof.
  intros Hs Hd Hw. unfold Resolution.scope3_factor. split.
  - intros H. exists category. split; [exact Hcat |]. cbv zeta. tauto.
  - intros (c & Hcc & H). rewrite Hcat in Hcc. injection Hcc as <-.
    cbv zeta in H. tauto.
Qed.

Lemma route_generic f :
  ActivityRecord.spend_amount activity = None ->
  ~ (ActivityRecord.distance activity <> None /\ Resolution.travels category) ->
  category <> WASTE ->
  Resolution.generic_factor self activity f
  <-> Resolution.scope3_factor self activity f.
Proof.
  intros Hs Hd Hw. unfold Resolution.scope3_factor. split.
  - intros H. exists category. split; [exact Hcat |]. cbv zeta. tauto.
  - intros (c & Hcc & H). rewrite Hcat in Hcc. injection Hcc as <-.
    cbv zeta in H. tauto.
Qed.

(** A path that ends well ends the calculator well. *)
Lemma route_ends (path : EmissionFactor.t -> Prop) o :
  ActivityRecord.custom_factor activity = None ->
  (forall f, path f <-> Resolution.scope3_factor self activity f) ->
  Resolution.ends
    (fun r => exists f, path f /\ Resolution.names r f)
    (fun e => error_kind e = KNoMatchingFactor /\ Resolution.misses path) o ->
  Resolution.scope3_ends self activity o.
Proof.
  intros Hc Hiff. apply ends_impl.
  - intros r (f & Hf & Hn). right. split; [exact Hc |].
    exists f. split; [now apply Hiff | exact Hn].
  - intros e [Hk Hm]. right. split; [congruence |].
    split; [exact Hk |]. split; [exact Hc |].
    intros f Hf. apply (Hm f). now apply Hiff.
Qed.

End Route.

Lemma scope3_stands :
  Resolution.scope3_ends self activity
    (Scope3Calculator.calculate convert self activity).
Proof.
  unfold Scope3Calculator.calculate.
  destruct (ActivityRecord.custom_factor activity) as [cf |] eqn:Hc.
  { simpl. split; [discriminate |].
    constructor; [| constructor]. left. exists cf. repeat split. exact Hc. }
  destruct (ActivityRecord.scope3_category activity) as [category |] eqn:Hcat.
  2: { simpl. left. repeat split; assumption. }
  destruct (ActivityRecord.spend_amount activity) as [spend |] eqn:Hs.
  { apply (route_ends category Hcat (Resolution.spend_factor self activity));
      [exact Hc | | apply spend_stands].
    intros f. apply (route_spend category Hcat). congruence. }
  assert (Hrest : ~ (ActivityRecord.distance activity <> None
                     /\ Resolution.travels category) ->
            Resolution.scope3_ends self activity
              (if Scope3Calculator.is_waste category
               then Scope3Calculator._calculate_waste self activity
               else Scope3Calculator._calculate_activity_based self activity)).
  { intros Hno. destruct (Scope3Calculator.is_waste category) eqn:Hw.
    - apply (route_ends category Hcat (Resolution.waste_factor self activity));
        [exact Hc | | apply waste_stands].
      intros f. apply (route_waste category Hcat); [exact Hs | exact Hno |].
      now apply is_waste_spec.
    - apply (route_ends category Hcat (Resolution.generic_factor self activity));
        [exact Hc | | apply generic_stands].
      intros f. apply (route_generic category Hcat); [exact Hs | exact Hno |].
      intros X. apply is_waste_spec in X. congruence. }
  destruct (ActivityRecord.distance activity) as [distance |] eqn:Hd.
  - destruct (Scope3Calculator.is_distance_category category) eqn:Hdist.
    + apply (route_ends category Hcat (Resolution.distance_factor self activity));
        [exact Hc | | apply distance_stands].
      intros f. apply (route_distance category Hcat);
        [exact Hs | congruence | now apply travels_spec].
    + apply Hrest. intros [_ X]. apply travels_spec in X. congruence.
  - apply Hrest. intros [X _]. congruence.
Qed.

End Chains.

(** C9 as the code has it: for every activity, each of the six
    calculators returns a non-empty list or raises an error; never an
    empty list, and never a result in place of a failed resolution.
    Every result stands on the custom factor (the quantity times it; the
    quantity in kWh for electricity), on the factor the calculator's
    resolution chain finds in the registry, which the result names, or,
    in the fugitive calculator, on the GWP of the refrigerant (the
    quantity in kg times it).  The error is of the no-matching-factor
    kind, raised without custom factor when the chain finds nothing,
    save that it is of the unit-conversion kind when the activity's
    quantity could not be converted (to kWh for electricity, to kg for
    fugitive emissions) and of the validation kind when a Scope 3
    activity without custom factor has no category. *)
Theorem calculators_never_empty (convert : Converter) (self : BaseScopeCalculator.t)
        (activity : ActivityRecord.t) :
  Resolution.stationary_ends self activity
    (StationaryCombustionCalculator.calculate convert self activity)
  /\ Resolution.mobile_ends self activity
       (MobileCombustionCalculator.calculate convert self activity)
  /\ Resolution.fugitive_ends convert self activity
       (FugitiveEmissionsCalculator.calculate convert self activity)
  /\ Resolution.process_ends self activity
       (ProcessEmissionsCalculator.calculate self activity)
  /\ Resolution.electricity_ends convert self activity
       (ElectricityCalculator.calculate convert self activity)
  /\ Resolution.scope3_ends self activity
       (Scope3Calculator.calculate convert self activity).
Proof.
  split; [apply stationary_stands |].
  split; [apply mobile_stands |].
  split; [apply fugitive_stands |].
  split; [apply process_stands |].
  split; [apply electricity_stands | apply scope3_stands].
Qed.
